(** * make_wheels.py: a shallow embedding and its verified properties

    The script repackages an upstream terraform release into one wheel per
    supported platform.  This development embeds the script's pure helpers
    ([normalize], [rehash], [make_message]), the version derivation, the
    static platform table and the sequential pipeline (downloads, signature
    and checksum verification, per-platform assembly) over an explicit model
    of the file system and of the external tools.

    Conventions.
    - Text is a [string] of bytes (the UTF-8 encoding of the Python [str]);
      file contents are [list byte].
    - Paths are lists of components relative to the invocation directory,
      so [Path("build").absolute()] is [["build"]].
    - External collaborators ([wget], [gpg], [shasum], the zip codec, the
      decoding of a text file and the serialization of an email message)
      are fields of an environment record; a directory walk enumerates in
      the order of the map that models the file system. *)

From Stdlib Require Import ZArith NArith Ascii String List Bool Lia.
From Stdlib Require Import DecimalString.
From Stdlib Require Strings.Byte.
From stdpp Require Import base option list strings gmap fin_maps.

Local Open Scope string_scope.
Local Open Scope list_scope.

(** ** Python string helpers *)

Module Py.

(** [sep.join(parts)] *)
Fixpoint join (sep : string) (parts : list string) : string :=
  match parts with
  | [] => ""
  | [p] => p
  | p :: rest => p +:+ sep +:+ join sep rest
  end.

(** [str(n)] for a non-negative [int]. *)
Definition str_of_N (n : N) : string :=
  NilZero.string_of_uint (N.to_uint n).

(** [int(s)] for a string of ASCII decimal digits. *)
Definition int_of_digits (s : string) : option N :=
  match NilZero.uint_of_string s with
  | Some u => Some (N.of_uint u)
  | None => None
  end.

(** [s.split(c)]: the fields between occurrences of [c]; never empty. *)
Fixpoint split (c : ascii) (s : string) : list string :=
  match s with
  | "" => [""]
  | String a r =>
      if Ascii.eqb a c then "" :: split c r
      else match split c r with
           | [] => [String a ""]
           | f :: fs => String a f :: fs
           end
  end.

(** [s.partition(c)] without the separator: the text before the first
    [c], and the text after it when [c] occurs. *)
Fixpoint partition (c : ascii) (s : string) : string * option string :=
  match s with
  | "" => ("", None)
  | String a r =>
      if Ascii.eqb a c then ("", Some r)
      else let '(h, t) := partition c r in (String a h, t)
  end.

(** [all(p(ch) for ch in s)] *)
Fixpoint all_chars (p : ascii -> bool) (s : string) : bool :=
  match s with
  | "" => true
  | String a r => p a && all_chars p r
  end.

(** [any(p(ch) for ch in s)] *)
Fixpoint any_char (p : ascii -> bool) (s : string) : bool :=
  match s with
  | "" => false
  | String a r => p a || any_char p r
  end.

(** The one-character string. *)
Definition chr (a : ascii) : string := String a "".

(** Last character of a string, if any. *)
Fixpoint last_char (s : string) : option ascii :=
  match s with
  | "" => None
  | String a "" => Some a
  | String _ r => last_char r
  end.

(** First character of a string, if any. *)
Definition first_char (s : string) : option ascii :=
  match s with
  | "" => None
  | String a _ => Some a
  end.

End Py.

(** ** [normalize] (make_wheels.py, lines 55-57)

    [re.sub(r"[-_.]+", "_", str(arg))]: a left-to-right scan in which every
    match of the greedy pattern (a maximal run of separator characters) is
    replaced by one underscore.  [in_run] records that the previous
    character belonged to the match being replaced. *)

Definition is_sep (c : ascii) : bool :=
  Ascii.eqb c "-" || Ascii.eqb c "_" || Ascii.eqb c ".".

Fixpoint sub_runs (in_run : bool) (s : string) : string :=
  match s with
  | "" => ""
  | String c r =>
      if is_sep c then
        if in_run then sub_runs true r else String "_" (sub_runs true r)
      else String c (sub_runs false r)
  end.

Definition normalize_str (s : string) : string := sub_runs false s.

(** ** The [semver] library's [Version] (python-semver 3.1.0), as far as
    the script uses it: [Version.parse], [to_tuple], [finalize_version]
    and [__str__].  The library's pattern is
    [MAJOR.MINOR.PATCH(-PRERELEASE)?(+BUILD)?] with numeric identifiers
    [0|[1-9][0-9]*], pre-release identifiers
    [0|[1-9][0-9]*|[0-9]*[a-zA-Z-][0-9a-zA-Z-]*] and build identifiers
    [[0-9a-zA-Z-]+], identifiers separated by dots.  The whole string has
    to match: nothing may follow, not even a final newline, and the
    digits are the ASCII digits only. *)

Module Semver.

Record Version := mkVersion {
  major : N;
  minor : N;
  patch : N;
  prerelease : option string;
  build : option string
}.

Definition is_digit (c : ascii) : bool :=
  let n := N_of_ascii c in (48 <=? n)%N && (n <=? 57)%N.

Definition is_letter (c : ascii) : bool :=
  let n := N_of_ascii c in
  ((65 <=? n)%N && (n <=? 90)%N) || ((97 <=? n)%N && (n <=? 122)%N).

(** [[0-9a-zA-Z-]] *)
Definition is_ident_char (c : ascii) : bool :=
  is_digit c || is_letter c || Ascii.eqb c "-".

(** [0|[1-9]\d*] *)
Definition is_numeric_ident (s : string) : bool :=
  match s with
  | "" => false
  | String c r =>
      if Ascii.eqb c "0" then String.eqb r ""
      else is_digit c && Py.all_chars is_digit r
  end.

(** [0|[1-9]\d*|\d*[a-zA-Z-][0-9a-zA-Z-]*] *)
Definition is_prerelease_ident (s : string) : bool :=
  is_numeric_ident s
  || (Py.all_chars is_ident_char s
      && Py.any_char (fun c => negb (is_digit c)) s).

(** [[0-9a-zA-Z-]+] *)
Definition is_build_ident (s : string) : bool :=
  negb (String.eqb s "") && Py.all_chars is_ident_char s.

(** [Version.parse(version)]; [None] stands for the [ValueError]. *)
Definition parse (version : string) : option Version :=
  let '(front, bld) := Py.partition "+" version in
  let '(core, pre) := Py.partition "-" front in
  let pre_ok :=
    match pre with
    | None => true
    | Some p => forallb is_prerelease_ident (Py.split "." p)
    end in
  let bld_ok :=
    match bld with
    | None => true
    | Some b => forallb is_build_ident (Py.split "." b)
    end in
  match Py.split "." core with
  | [ma; mi; pa] =>
      if is_numeric_ident ma && is_numeric_ident mi && is_numeric_ident pa
         && pre_ok && bld_ok
      then
        match Py.int_of_digits ma, Py.int_of_digits mi, Py.int_of_digits pa with
        | Some a, Some b, Some c => Some (mkVersion a b c pre bld)
        | _, _, _ => None
        end
      else None
  | _ => None
  end.

(** An element of the tuple returned by [to_tuple]: an [int], a [str] or
    [None]. *)
Inductive component :=
| CInt (n : N)
| CStr (s : string)
| CNone.

Definition of_opt (o : option string) : component :=
  match o with
  | Some s => CStr s
  | None => CNone
  end.

(** [to_tuple()] = [(major, minor, patch, prerelease, build)] *)
Definition to_tuple (v : Version) : list component :=
  [CInt (major v); CInt (minor v); CInt (patch v);
   of_opt (prerelease v); of_opt (build v)].

(** [finalize_version()] = [Version(major, minor, patch)] *)
Definition finalize_version (v : Version) : Version :=
  mkVersion (major v) (minor v) (patch v) None None.

(** Python truthiness of an optional string. *)
Definition nonempty (o : option string) : bool :=
  match o with
  | Some s => negb (String.eqb s "")
  | None => false
  end.

(** [str(version)] *)
Definition to_string (v : Version) : string :=
  Py.str_of_N (major v) +:+ "." +:+ Py.str_of_N (minor v) +:+ "."
    +:+ Py.str_of_N (patch v)
    +:+ (if nonempty (prerelease v)
         then "-" +:+ default "" (prerelease v) else "")
    +:+ (if nonempty (build v)
         then "+" +:+ default "" (build v) else "").

(** Python truthiness of a tuple element: the test [if n] at line 73. *)
Definition truthy (c : component) : bool :=
  match c with
  | CInt n => negb (n =? 0)%N
  | CStr s => negb (String.eqb s "")
  | CNone => false
  end.

(** [str(c)] *)
Definition str (c : component) : string :=
  match c with
  | CInt n => Py.str_of_N n
  | CStr s => s
  | CNone => "None"
  end.

(** A component is present when it is not [None]. *)
Definition present (c : component) : bool :=
  match c with
  | CNone => false
  | _ => true
  end.

End Semver.

(** [normalize(arg)] applies [str] first (line 57). *)
Definition normalize (arg : Semver.component) : string :=
  normalize_str (Semver.str arg).

(** ** Version derivation (lines 70-77) *)

Definition DEFAULT_GIT_TAG : string := "1.5.7-rc0".

(** [os.getenv("GIT_TAG", "1.5.7-rc0")] *)
Definition GIT_TAG (env_git_tag : option string) : string :=
  default DEFAULT_GIT_TAG env_git_tag.

(** [".".join([normalize(n) for n in GIT_SEMVER.to_tuple() if n])] *)
Definition PACKAGE_VERSION (v : Semver.Version) : string :=
  Py.join "." (map normalize (List.filter Semver.truthy (Semver.to_tuple v))).

(** [str(GIT_SEMVER.finalize_version())] *)
Definition TERRAFORM_VERSION (v : Semver.Version) : string :=
  Semver.to_string (Semver.finalize_version v).

Definition PACKAGE_NAME : string := "terraform-binary-wheel".

Definition PACKAGE_WHEELNAME (v : Semver.Version) : string :=
  Py.join "-" [normalize_str PACKAGE_NAME; PACKAGE_VERSION v].

(** What the specification describes for the package version: every
    present (non-[None]) component, normalized, joined with dots. *)
Definition spec_package_version (v : Semver.Version) : string :=
  Py.join "." (map normalize (List.filter Semver.present (Semver.to_tuple v))).

(** What the specification describes for the tool version: the numeric
    components alone, joined with dots. *)
Definition spec_tool_version (v : Semver.Version) : string :=
  Py.join "." (map Py.str_of_N [Semver.major v; Semver.minor v; Semver.patch v]).

(** Both derived strings for a tag, when it parses (lines 72-74). *)
Definition derive_versions (tag : string) : option (string * string) :=
  match Semver.parse tag with
  | Some v => Some (PACKAGE_VERSION v, TERRAFORM_VERSION v)
  | None => None
  end.

(** The tag fields of a version that are present, in tuple order. *)
Definition tag_fields (v : Semver.Version) : list string :=
  option_list (Semver.prerelease v) ++ option_list (Semver.build v).

(** The numeric fields that survive the truthiness filter. *)
Definition nonzero_numbers (v : Semver.Version) : list N :=
  List.filter (fun n => negb (n =? 0)%N)
    [Semver.major v; Semver.minor v; Semver.patch v].

(** Whether a string begins, respectively ends, with a separator. *)
Definition starts_with_sep (s : string) : bool :=
  match Py.first_char s with
  | Some c => is_sep c
  | None => false
  end.

Definition ends_with_sep (s : string) : bool :=
  match Py.last_char s with
  | Some c => is_sep c
  | None => false
  end.

(** ** Bytes *)

Abbreviation byte := Byte.byte.

(** [s.encode()] and [b.decode("latin1")] on byte strings. *)
Definition str_encode (s : string) : list byte := String.list_byte_of_string s.
Definition decode_latin1 (b : list byte) : string := String.string_of_list_byte b.

(** ** [hashlib.sha256] (FIPS 180-4) on 32-bit words held in [N]. *)

Module SHA256.

Local Open Scope N_scope.

Definition mask32 : N := 0xffffffff.
Definition w32 (x : N) : N := N.land x mask32.
Definition add32 (x y : N) : N := w32 (x + y).
Definition not32 (x : N) : N := N.lxor (w32 x) mask32.
Definition rotr (n x : N) : N :=
  N.lor (N.shiftr x n) (w32 (N.shiftl x (32 - n))).
Definition shr (n x : N) : N := N.shiftr x n.

Definition ch (x y z : N) : N := N.lxor (N.land x y) (N.land (not32 x) z).
Definition maj (x y z : N) : N :=
  N.lxor (N.lxor (N.land x y) (N.land x z)) (N.land y z).
Definition bsig0 (x : N) : N := N.lxor (N.lxor (rotr 2 x) (rotr 13 x)) (rotr 22 x).
Definition bsig1 (x : N) : N := N.lxor (N.lxor (rotr 6 x) (rotr 11 x)) (rotr 25 x).
Definition ssig0 (x : N) : N := N.lxor (N.lxor (rotr 7 x) (rotr 18 x)) (shr 3 x).
Definition ssig1 (x : N) : N := N.lxor (N.lxor (rotr 17 x) (rotr 19 x)) (shr 10 x).

(** The round constants, four to a row as the standard prints them. *)
Definition K : list N :=
  [0x428a2f98; 0x71374491; 0xb5c0fbcf; 0xe9b5dba5] ++
  [0x3956c25b; 0x59f111f1; 0x923f82a4; 0xab1c5ed5] ++
  [0xd807aa98; 0x12835b01; 0x243185be; 0x550c7dc3] ++
  [0x72be5d74; 0x80deb1fe; 0x9bdc06a7; 0xc19bf174] ++
  [0xe49b69c1; 0xefbe4786; 0x0fc19dc6; 0x240ca1cc] ++
  [0x2de92c6f; 0x4a7484aa; 0x5cb0a9dc; 0x76f988da] ++
  [0x983e5152; 0xa831c66d; 0xb00327c8; 0xbf597fc7] ++
  [0xc6e00bf3; 0xd5a79147; 0x06ca6351; 0x14292967] ++
  [0x27b70a85; 0x2e1b2138; 0x4d2c6dfc; 0x53380d13] ++
  [0x650a7354; 0x766a0abb; 0x81c2c92e; 0x92722c85] ++
  [0xa2bfe8a1; 0xa81a664b; 0xc24b8b70; 0xc76c51a3] ++
  [0xd192e819; 0xd6990624; 0xf40e3585; 0x106aa070] ++
  [0x19a4c116; 0x1e376c08; 0x2748774c; 0x34b0bcb5] ++
  [0x391c0cb3; 0x4ed8aa4a; 0x5b9cca4f; 0x682e6ff3] ++
  [0x748f82ee; 0x78a5636f; 0x84c87814; 0x8cc70208] ++
  [0x90befffa; 0xa4506ceb; 0xbef9a3f7; 0xc67178f2].

(** The initial hash value. *)
Definition H0 : list N :=
  [0x6a09e667; 0xbb67ae85; 0x3c6ef372; 0xa54ff53a] ++
  [0x510e527f; 0x9b05688c; 0x1f83d9ab; 0x5be0cd19].

(** Big-endian bytes of a word. *)
Definition be_bytes (width : nat) (x : N) : list N :=
  map (fun i => N.land (N.shiftr x (8 * N.of_nat i)) 0xff) (rev (seq 0 width)).

(** Message padding: a [0x80] byte, zeros up to 56 modulo 64, and the bit
    length on eight bytes. *)
Definition pad (msg : list N) : list N :=
  let len := N.of_nat (length msg) in
  let zeros := N.to_nat ((119 - len mod 64) mod 64) in
  msg ++ [0x80] ++ repeat 0 zeros ++ be_bytes 8 (8 * len).

(** Big-endian words of a byte sequence (four bytes each). *)
Fixpoint words (bs : list N) : list N :=
  match bs with
  | a :: b :: c :: d :: rest =>
      (N.shiftl a 24 + N.shiftl b 16 + N.shiftl c 8 + d) :: words rest
  | _ => []
  end.

(** Blocks of sixteen words. *)
Fixpoint blocks (fuel : nat) (ws : list N) : list (list N) :=
  match fuel, ws with
  | S k, _ :: _ => firstn 16 ws :: blocks k (skipn 16 ws)
  | _, _ => []
  end.

(** The message schedule: [window] holds the last sixteen words, oldest
    first; [n] more words are produced. *)
Fixpoint schedule (n : nat) (window : list N) : list N :=
  match n with
  | O => []
  | S k =>
      let w i := nth i window 0 in
      let new := add32 (add32 (ssig1 (w 14%nat)) (w 9%nat))
                       (add32 (ssig0 (w 1%nat)) (w 0%nat)) in
      new :: schedule k (tl window ++ [new])
  end.

Definition round (st : list N) (kw : N * N) : list N :=
  match st with
  | [a; b; c; d; e; f; g; h] =>
      let t1 := add32 (add32 (add32 h (bsig1 e)) (add32 (ch e f g) (fst kw))) (snd kw) in
      let t2 := add32 (bsig0 a) (maj a b c) in
      [add32 t1 t2; a; b; c; add32 d t1; e; f; g]
  | _ => st
  end.

Definition compress (h : list N) (block : list N) : list N :=
  let w := block ++ schedule 48 block in
  let st := fold_left round (combine K w) h in
  map (fun p => add32 (fst p) (snd p)) (combine h st).

(** [hashlib.sha256(msg).digest()] on bytes given as numbers. *)
Definition digest_N (msg : list N) : list N :=
  let ws := words (pad msg) in
  let h := fold_left compress (blocks (length ws) ws) H0 in
  concat (map (be_bytes 4) h).

Definition byte_of_N (n : N) : byte :=
  match Byte.of_N n with
  | Some b => b
  | None => Byte.x00
  end.

Definition digest (msg : list byte) : list byte :=
  map byte_of_N (digest_N (map Byte.to_N msg)).

Definition hex_digit (n : N) : ascii :=
  match String.get (N.to_nat n) "0123456789abcdef" with
  | Some c => c
  | None => "0"%char
  end.

(** [hexdigest()], used to check the embedding against known vectors. *)
Definition hexdigest (msg : list byte) : string :=
  String.concat ""
    (map (fun b => let n := Byte.to_N b in
                   String (hex_digit (n / 16)) (String (hex_digit (n mod 16)) ""))
         (digest msg)).

End SHA256.

(** A [hashlib] hash object: the bytes fed to it so far.  [update] appends;
    [digest] hashes the concatenation, as the library documents. *)
Module Hasher.
Definition t := list byte.
Definition new : t := [].
Definition update (h : t) (block : list byte) : t := h ++ block.
Definition digest (h : t) : list byte := SHA256.digest h.
End Hasher.

(** ** [base64.urlsafe_b64encode] *)

Module Base64.

Local Open Scope N_scope.

Definition alphabet : string :=
  "ABCDEFGHIJKLMNOPQRSTUVWXYZabcdefghijklmnopqrstuvwxyz0123456789-_".

Definition sextet (i : N) : ascii :=
  match String.get (N.to_nat (i mod 64)) alphabet with
  | Some c => c
  | None => "="%char
  end.

Fixpoint encode_N (pad : bool) (bs : list N) : string :=
  match bs with
  | a :: b :: c :: rest =>
      let n := a * 65536 + b * 256 + c in
      String (sextet (n / 262144)) (String (sextet (n / 4096))
        (String (sextet (n / 64)) (String (sextet n) (encode_N pad rest))))
  | [a; b] =>
      let n := a * 65536 + b * 256 in
      String (sextet (n / 262144)) (String (sextet (n / 4096))
        (String (sextet (n / 64)) (if pad then "=" else "")))
  | [a] =>
      let n := a * 65536 in
      String (sextet (n / 262144)) (String (sextet (n / 4096))
        (if pad then "==" else ""))
  | [] => ""
  end.

(** [urlsafe_b64encode(b)], padded with [=] to a multiple of four. *)
Definition urlsafe_b64encode (b : list byte) : list byte :=
  str_encode (encode_N true (map Byte.to_N b)).

(** The unpadded URL-safe encoding the specification names. *)
Definition urlsafe_unpadded (b : list byte) : string :=
  encode_N false (map Byte.to_N b).

End Base64.

(** [s.rstrip(c)] for a one-character set. *)
Fixpoint rstrip (c : ascii) (s : string) : string :=
  match s with
  | "" => ""
  | String a r =>
      let r' := rstrip c r in
      if String.eqb r' "" && Ascii.eqb a c then "" else String a r'
  end.

(** ** [read_chunks] (lines 20-26) and [rehash] (lines 43-52) *)

(** [file.read(size)] on the unread remainder of a file: the chunk and the
    new remainder. *)
Fixpoint file_read (size : N) (rest : list byte) : list byte * list byte :=
  match rest with
  | [] => ([], [])
  | x :: r =>
      if (size =? 0)%N then ([], rest)
      else let '(chunk, rest') := file_read (N.pred size) r in (x :: chunk, rest')
  end.

(** The chunks the generator yields.  Every iteration that does not stop
    consumes at least one byte, so [fuel] one above the length is never
    exhausted. *)
Fixpoint read_chunks_loop (fuel : nat) (file : list byte) (size : N)
  : list (list byte) :=
  match fuel with
  | O => []
  | S k =>
      let '(chunk, rest) := file_read size file in
      match chunk with
      | [] => []
      | _ :: _ => chunk :: read_chunks_loop k rest size
      end
  end.

Definition read_chunks (file : list byte) (size : N) : list (list byte) :=
  read_chunks_loop (S (length file)) file size.

Definition DEFAULT_BLOCKSIZE : N := N.shiftl 1 20.

(** The body of the [for block in read_chunks(...)] loop. *)
Definition rehash_step (st : Hasher.t * N) (block : list byte) : Hasher.t * N :=
  (Hasher.update (fst st) block, (snd st + N.of_nat (length block))%N).

(** [rehash], on the bytes of the file at [path]. *)
Definition rehash_with (blocksize : N) (content : list byte) : string * string :=
  let '(h, len) :=
    fold_left rehash_step (read_chunks content blocksize) (Hasher.new, 0%N) in
  let digest :=
    "sha256=" +:+ rstrip "=" (decode_latin1 (Base64.urlsafe_b64encode (Hasher.digest h))) in
  (digest, Py.str_of_N len).

Definition rehash (content : list byte) : string * string :=
  rehash_with DEFAULT_BLOCKSIZE content.

(** The digest pair as the specification words it. *)
Definition spec_rehash (content : list byte) : string * string :=
  ("sha256=" +:+ Base64.urlsafe_unpadded (SHA256.digest content),
   Py.str_of_N (N.of_nat (length content))).

(** ** [make_message] (lines 29-40) and [as_string] *)

Inductive header_value :=
| Scalar (value : string)
| Multi (values : list string).

Record message := mkMessage {
  msg_headers : list (string * string);
  msg_payload : option string
}.

(** [msg[name] = value] appends a header line. *)
Definition set_header (msg : message) (name value : string) : message :=
  mkMessage (msg_headers msg ++ [(name, value)]) (msg_payload msg).

Definition make_message (headers : list (string * header_value))
    (payload : option string) : message :=
  let msg :=
    fold_left
      (fun msg '(name, value) =>
         match value with
         | Multi parts => fold_left (fun m part => set_header m name part) parts msg
         | Scalar v => set_header msg name v
         end)
      headers (mkMessage [] None) in
  if Semver.nonempty payload then mkMessage (msg_headers msg) payload else msg.

(** A serialization with one [Name: value] line per header, a blank
    line, then the payload; the sample environments render messages
    with it. *)
Definition plain_lines (msg : message) : string :=
  String.concat "" (map (fun '(n, v) => n +:+ ": " +:+ v +:+ "
") (msg_headers msg))
  +:+ "
" +:+ default "" (msg_payload msg).

(** ** Static configuration (lines 60-94) *)

Definition RELEASES : string := "https://releases.hashicorp.com/terraform/".

(** [TERRAFORM_URL.format(version, arch)] *)
Definition TERRAFORM_URL (version arch : string) : string :=
  RELEASES +:+ version +:+ "/terraform_" +:+ version +:+ "_" +:+ arch +:+ ".zip".

(** [TERRAFORM_SHA256_URL.format(version)] *)
Definition TERRAFORM_SHA256_URL (version : string) : string :=
  RELEASES +:+ version +:+ "/terraform_" +:+ version +:+ "_SHA256SUMS".

(** [TERRAFORM_SIGS_URL.format(version)] *)
Definition TERRAFORM_SIGS_URL (version : string) : string :=
  RELEASES +:+ version +:+ "/terraform_" +:+ version +:+ "_SHA256SUMS.sig".

Definition PYTHON_TAGS : list string := ["py2"; "py3"].
Definition ABI_TAGS : list string := ["none"].

(** The platform table, in insertion order. *)
Definition PY_PLATFORM_TF_ARCH : list (string * string) :=
  [("manylinux_2_5_x86_64.musllinux_1_1_x86_64", "linux_amd64");
   ("manylinux_2_5_i686.musllinux_1_1_i686", "linux_386");
   ("manylinux_2_5_aarch64.musllinux_1_1_aarch64", "linux_arm64");
   ("linux_armv6l.linux_armv7l", "linux_arm");
   ("macosx_11_0_x86_64", "darwin_amd64");
   ("macosx_11_0_arm64", "linux_arm64");
   ("win_amd64", "windows_amd64");
   ("win32", "windows_386")].

(** ** Paths *)

Abbreviation path := (list string).

(** [Path(url).name]: the text after the last slash. *)
Definition url_basename (url : string) : string :=
  List.last (Py.split "/" url) "".

(** [p.name] and [p.parent] *)
Definition basename (p : path) : string := List.last p "".
Definition parent (p : path) : path := removelast p.

(** The stem and extension around the last dot of a name. *)
Fixpoint rsplit_dot (name : string) : option (string * string) :=
  match name with
  | "" => None
  | String c r =>
      match rsplit_dot r with
      | Some (stem, ext) => Some (String c stem, ext)
      | None => if Ascii.eqb c "." then Some ("", r) else None
      end
  end.

(** [PurePath.with_suffix("")] on the final component: the suffix starts at
    the last dot, unless that dot begins or ends the name. *)
Definition name_without_suffix (name : string) : string :=
  match rsplit_dot name with
  | Some (stem, ext) =>
      if negb (String.eqb stem "") && negb (String.eqb ext "") then stem else name
  | None => name
  end.

Definition with_suffix_empty (p : path) : path :=
  match p with
  | [] => []
  | _ :: _ => parent p ++ [name_without_suffix (basename p)]
  end.

(** [Path(str(p) + suffix)] *)
Definition path_plus (p : path) (suffix : string) : path :=
  match p with
  | [] => []
  | _ :: _ => parent p ++ [basename p +:+ suffix]
  end.

(** [str(f.relative_to(root))] *)
Definition relative_to (root f : path) : string :=
  Py.join "/" (drop (length root) f).

Definition LICENSE : path := ["LICENSE"].
Definition README : path := ["README.md"].
Definition HASHICORP_GPG : path := ["hashicorp.gpg"].
Definition BUILD_DIR : path := ["build"].

(** ** The file system and the external tools *)

Inductive node :=
| File (content : list byte) (mode : N)
| Dir.

(** A member of a zip archive. *)
Record member := mkMember {
  m_name : string;
  m_data : list byte;
  m_mode : N
}.

(** What the script does to the outside world, in order. *)
Inductive event :=
| Wget (url : string) (dest : path) (ok : bool)
| Gpg (keyring sig manifest : path) (ok : bool)
| Shasum (manifest : path) (ok : bool)
| Unpack (archive extract_dir : path)
| WheelWritten (platform : string) (wheel_file : path).

Inductive error :=
| ParseError (tag : string)
| DownloadError (url : string)
| VerificationError
| IntegrityError
| FilesystemError (p : path)
| DecodeError (p : path)
| ReadError (p : path).

(** The collaborators the script does not define. *)
Record Env := mkEnv {
  (** [os.getenv("GIT_TAG")] *)
  env_git_tag : option string;
  (** the body [wget] retrieves for a URL, given what happened before;
      [None] when the transfer fails *)
  wget_fetch : list event -> string -> option (list byte);
  (** the verdict of [gpg --verify] on keyring, signature and manifest *)
  gpg_verify : option (list byte) -> option (list byte) -> option (list byte) -> bool;
  (** the verdict of [shasum --ignore-missing --check] on the manifest and
      the files of its working directory *)
  shasum_check : option (list byte) -> (string -> option (list byte)) -> bool;
  (** the members of a zip archive, [None] when the bytes are not one *)
  unzip : list byte -> option (list member);
  (** the bytes [zipfile.ZipFile] writes for a list of members *)
  zip_encode : list member -> list byte;
  (** the text [Path.read_text] makes of a file's bytes in the locale's
      encoding, newlines translated; [None] when they do not decode *)
  decode_text : list byte -> option string;
  (** the text [EmailMessage.as_string] makes of a message under the
      library's default policy *)
  render_message : message -> string;
  (** the permission bits of a newly created file ([0o666 & ~umask]) *)
  default_mode : N
}.

Record world := mkWorld {
  fs : gmap path node;
  trace : list event
}.

(** A run either returns, or raises with the events up to the failure. *)
Inductive result (A : Type) :=
| Ok (a : A) (w : world)
| Raise (e : error) (tr : list event).
Arguments Ok {A} a w.
Arguments Raise {A} e tr.

Definition M (A : Type) : Type := world -> result A.

Definition ret {A} (a : A) : M A := fun w => Ok a w.

(** Sequencing: an exception ends the run; nothing catches it. *)
Definition bind {A B} (m : M A) (k : A -> M B) : M B :=
  fun w =>
    match m w with
    | Ok a w' => k a w'
    | Raise e tr => Raise e tr
    end.

Declare Scope prog_scope.
Delimit Scope prog_scope with prog.
Notation "'do' x <- m ; k" := (bind m (fun x => k))
  (at level 10, x name, m at level 100, k at level 200) : prog_scope.
Notation "m ;; k" := (bind m (fun _ => k))
  (at level 100, k at level 200, right associativity) : prog_scope.
Local Open Scope prog_scope.

Definition fail {A} (e : error) : M A := fun w => Raise e (trace w).
Definition get_fs : M (gmap path node) := fun w => Ok (fs w) w.
Definition put_fs (f : gmap path node) : M unit := fun w => Ok tt (mkWorld f (trace w)).
Definition history : M (list event) := fun w => Ok (trace w) w.
Definition emit (ev : event) : M unit :=
  fun w => Ok tt (mkWorld (fs w) (trace w ++ [ev])).

(** [for x in xs: body(x)] *)
Fixpoint for_each {A} (xs : list A) (body : A -> M unit) : M unit :=
  match xs with
  | [] => ret tt
  | x :: rest => body x ;; for_each rest body
  end.

(** A loop that threads an accumulator. *)
Fixpoint fold_each {A S} (xs : list A) (body : S -> A -> M S) (s : S) : M S :=
  match xs with
  | [] => ret s
  | x :: rest => do s' <- body s x ; fold_each rest body s'
  end.

(** [d[k] = v] on an insertion-ordered dictionary. *)
Fixpoint dict_set {V} (k : string) (v : V) (d : list (string * V)) : list (string * V) :=
  match d with
  | [] => [(k, v)]
  | (k', v') :: rest =>
      if String.eqb k' k then (k, v) :: rest else (k', v') :: dict_set k v rest
  end.

Fixpoint dict_get {V} (k : string) (d : list (string * V)) : option V :=
  match d with
  | [] => None
  | (k', v) :: rest => if String.eqb k' k then Some v else dict_get k rest
  end.

(** *** Pure file-system operations *)

(** The invocation directory itself always exists. *)
Definition node_at (f : gmap path node) (p : path) : option node :=
  match p with
  | [] => Some Dir
  | _ :: _ => f !! p
  end.

Definition is_dir (f : gmap path node) (p : path) : bool :=
  match node_at f p with
  | Some Dir => true
  | _ => false
  end.

Definition is_file (f : gmap path node) (p : path) : bool :=
  match node_at f p with
  | Some (File _ _) => true
  | _ => false
  end.

Definition file_content (f : gmap path node) (p : path) : option (list byte) :=
  match node_at f p with
  | Some (File c _) => Some c
  | _ => None
  end.

Definition file_mode (f : gmap path node) (p : path) : option N :=
  match node_at f p with
  | Some (File _ m) => Some m
  | _ => None
  end.

(** Creating or truncating a file and writing [c]: the directory must
    exist; an existing file keeps its mode. *)
Definition fs_write (new_mode : N) (f : gmap path node) (p : path) (c : list byte)
  : option (gmap path node) :=
  match node_at f p with
  | Some Dir => None
  | Some (File _ m) => Some (<[p := File c m]> f)
  | None => if is_dir f (parent p) then Some (<[p := File c new_mode]> f) else None
  end.

(** The directories from [root] (included) down to the parent of [q]. *)
Definition dirs_between (root q : path) : list path :=
  map (fun n => take n q) (seq (length root) (length q - length root)).

(** [root.glob("**/*")]: everything strictly below [root] that a walk from
    [root] reaches, in the map's enumeration order. *)
Definition glob_all (f : gmap path node) (root : path) : list path :=
  List.filter
    (fun q => bool_decide (root `prefix_of` q) && bool_decide (q <> root)
              && forallb (is_dir f) (dirs_between root q))
    (map fst (map_to_list f)).

(** *** The script's primitive steps *)

Section pipeline.

Variable env : Env.

(** [Path.exists()] *)
Definition path_exists (p : path) : M bool :=
  do f <- get_fs ; ret (bool_decide (is_Some (node_at f p))).

(** [Path.mkdir(exist_ok=True)]: an existing directory is accepted, an
    existing file or a missing parent is an error. *)
Definition mkdir_exist_ok (p : path) : M unit :=
  do f <- get_fs ;
  match node_at f p with
  | Some Dir => ret tt
  | Some (File _ _) => fail (FilesystemError p)
  | None =>
      if is_dir f (parent p) then put_fs (<[p := Dir]> f)
      else fail (FilesystemError p)
  end.

(** [open(p, "rb").read()] *)
Definition read_bytes (p : path) : M (list byte) :=
  do f <- get_fs ;
  match file_content f p with
  | Some c => ret c
  | None => fail (FilesystemError p)
  end.

(** [Path.read_text()]: the file is read, then decoded; bytes that do not
    decode raise. *)
Definition read_text (p : path) : M string :=
  do c <- read_bytes p ;
  match decode_text env c with
  | Some s => ret s
  | None => fail (DecodeError p)
  end.

(** [msg.as_string()] *)
Definition as_string (msg : message) : string := render_message env msg.

(** [open(p, "wb").write(c)] *)
Definition write_bytes (p : path) (c : list byte) : M unit :=
  do f <- get_fs ;
  match fs_write (default_mode env) f p c with
  | Some f' => put_fs f'
  | None => fail (FilesystemError p)
  end.

(** [open(p, "w").write(s)] *)
Definition write_text (p : path) (s : string) : M unit :=
  write_bytes p (str_encode s).

(** [os.chmod(p, mode)]; the modes of directories are not tracked. *)
Definition chmod (p : path) (mode : N) : M unit :=
  do f <- get_fs ;
  match node_at f p with
  | Some (File c _) => put_fs (<[p := File c mode]> f)
  | Some Dir => ret tt
  | None => fail (FilesystemError p)
  end.

(** [shutil.copy(src, dst)]: into [dst] when it is a directory; the
    content, then the permission bits. *)
Definition copy (src dst : path) : M unit :=
  do f <- get_fs ;
  let target := if is_dir f dst then dst ++ [basename src] else dst in
  match node_at f src with
  | Some (File c m) =>
      if bool_decide (src = target) then fail (FilesystemError target)
      else write_bytes target c ;; chmod target m
  | _ => fail (FilesystemError src)
  end.

(** [os.makedirs] as [shutil] uses it: every missing ancestor, outermost
    first. *)
Definition makedirs (p : path) : M unit :=
  for_each (map (fun n => take n p) (seq 1 (length p))) mkdir_exist_ok.

(** ["/".startswith], ["/".endswith] and [".." in name] *)
Definition is_absolute (name : string) : bool := String.prefix "/" name.

Definition is_dir_name (name : string) : bool :=
  match Py.last_char name with
  | Some c => Ascii.eqb c "/"
  | None => false
  end.

Fixpoint has_dotdot (name : string) : bool :=
  match name with
  | "" => false
  | String a r =>
      (Ascii.eqb a "." && match r with
                          | String b _ => Ascii.eqb b "."
                          | "" => false
                          end)
      || has_dotdot r
  end.

(** The components of a member name that designate a directory entry:
    empty components and [.] do not. *)
Definition name_components (name : string) : list string :=
  List.filter (fun c => negb (String.eqb c "") && negb (String.eqb c "."))
    (Py.split "/" name).

(** The directory part of [os.path.join(extract_dir, *name.split("/"))]:
    the components before the last slash of the name. *)
Definition dir_components (name : string) : list string :=
  List.filter (fun c => negb (String.eqb c "") && negb (String.eqb c "."))
    (removelast (Py.split "/" name)).

(** One iteration of the extraction loop of [shutil.unpack_archive] for
    zip files: absolute names and names containing [..] are skipped; the
    directory part of the target is created, which for a name ending in
    a slash is the directory the entry names; any other name is written
    as a file. *)
Definition extract_member (extract_dir : path) (m : member) : M unit :=
  let name := m_name m in
  if is_absolute name || has_dotdot name then ret tt
  else
    let target := extract_dir ++ name_components name in
    makedirs (extract_dir ++ dir_components name) ;;
    if is_dir_name name then ret tt
    else if String.eqb (List.last (Py.split "/" name) "") "."
    then fail (FilesystemError target)
    else write_bytes target (m_data m).

(** [shutil.unpack_archive(filename, extract_dir, format="zip")] *)
Definition unpack_archive (filename extract_dir : path) : M unit :=
  emit (Unpack filename extract_dir) ;;
  do c <- read_bytes filename ;
  match unzip env c with
  | None => fail (ReadError filename)
  | Some members => for_each members (extract_member extract_dir)
  end.

(** [wget(url, "-O", dest)]: the transfer or the write may fail; either
    way the tool exits non-zero and [sh] raises. *)
Definition wget (url : string) (dest : path) : M unit :=
  do h <- history ;
  do f <- get_fs ;
  match wget_fetch env h url with
  | Some body =>
      match fs_write (default_mode env) f dest body with
      | Some f' => put_fs f' ;; emit (Wget url dest true)
      | None => emit (Wget url dest false) ;; fail (DownloadError url)
      end
  | None => emit (Wget url dest false) ;; fail (DownloadError url)
  end.

(** [gpg("--no-default-keyring", "--keyring", keyring, "--verify", sig,
    manifest)] *)
Definition gpg (keyring sig manifest : path) : M unit :=
  do f <- get_fs ;
  let ok := gpg_verify env (file_content f keyring) (file_content f sig)
              (file_content f manifest) in
  emit (Gpg keyring sig manifest ok) ;;
  if ok then ret tt else fail VerificationError.

(** [shasum("--algorithm", "256", "--ignore-missing", "--check",
    manifest, _cwd=BUILD_DIR)] *)
Definition shasum (manifest : path) : M unit :=
  do f <- get_fs ;
  let ok := shasum_check env (file_content f manifest)
              (fun name => file_content f (BUILD_DIR ++ [name])) in
  emit (Shasum manifest ok) ;;
  if ok then ret tt else fail IntegrityError.

(** [[f for f in root.glob("**/*") if f.is_file()]] *)
Definition glob_files (root : path) : M (list path) :=
  do f <- get_fs ; ret (List.filter (is_file f) (glob_all f root)).

(** *** The script (lines 70-239) *)

Section versions.

Variable v : Semver.Version.

Definition terraform_sha256_url : string :=
  TERRAFORM_SHA256_URL (TERRAFORM_VERSION v).
Definition terraform_sigs_url : string :=
  TERRAFORM_SIGS_URL (TERRAFORM_VERSION v).
Definition terraform_sha256 : path :=
  BUILD_DIR ++ [url_basename terraform_sha256_url].
Definition terraform_sigs : path :=
  BUILD_DIR ++ [url_basename terraform_sigs_url].

Definition terraform_zip_url (terraform_arch : string) : string :=
  TERRAFORM_URL (TERRAFORM_VERSION v) terraform_arch.
Definition terraform_zip_path (terraform_arch : string) : path :=
  BUILD_DIR ++ [url_basename (terraform_zip_url terraform_arch)].

(** Lines 96-119. *)
Definition PACKAGE_METADATA_MSG (readme : string) : message :=
  make_message
    [("Metadata-Version", Scalar "2.1");
     ("Name", Scalar PACKAGE_NAME);
     ("Version", Scalar (PACKAGE_VERSION v));
     ("Summary", Scalar "Python wrapper around invoking terraform (https://www.terraform.io/)");
     ("Home-Page", Scalar "https://github.com/c0m1c5an5/terraform-py");
     ("Author", Scalar "Maksym Kondratenko");
     ("Author-Email", Scalar "m.kondratenko.ua@gmail.com");
     ("License-File", Scalar (basename LICENSE));
     ("Classifier", Multi
        ["Topic :: Utilities";
         "Topic :: System :: Software Distribution";
         "Programming Language :: Python :: 2";
         "Programming Language :: Python :: 3";
         "Operating System :: POSIX :: Linux";
         "Operating System :: Microsoft :: Windows";
         "Operating System :: MacOS"]);
     ("Requires-Python", Scalar ">=2");
     ("Description-Content-Type", Scalar "text/markdown")]
    (Some readme).

(** Lines 145-150: download every platform's archive and remember
    where it went. *)
Definition fetch_step (platform_zip : list (string * path))
    (entry : string * string) : M (list (string * path)) :=
  let '(platform, terraform_arch) := entry in
  let terraform_zip := terraform_zip_path terraform_arch in
  wget (terraform_zip_url terraform_arch) terraform_zip ;;
  ret (dict_set platform terraform_zip platform_zip).

Definition fetch_archives : M (list (string * path)) :=
  fold_each PY_PLATFORM_TF_ARCH fetch_step [].

(** Names of the per-platform tree (lines 164-182, 232). *)
Definition wheel_name (platform : string) : string :=
  Py.join "-" [PACKAGE_WHEELNAME v; Py.join "." PYTHON_TAGS;
               Py.join "." ABI_TAGS; platform].
Definition wheel_tree (platform : string) : path :=
  BUILD_DIR ++ [wheel_name platform].
Definition wheel_data (platform : string) : path :=
  wheel_tree platform ++ [PACKAGE_WHEELNAME v +:+ ".data"].
Definition wheel_scripts (platform : string) : path :=
  wheel_data platform ++ ["scripts"].
Definition wheel_info (platform : string) : path :=
  wheel_tree platform ++ [PACKAGE_WHEELNAME v +:+ ".dist-info"].
Definition package_metadata (platform : string) : path :=
  wheel_info platform ++ ["METADATA"].
Definition wheel_metadata (platform : string) : path :=
  wheel_info platform ++ ["WHEEL"].
Definition wheel_record (platform : string) : path :=
  wheel_info platform ++ ["RECORD"].
Definition wheel_file (platform : string) : path :=
  path_plus (wheel_tree platform) ".whl".

(** Lines 202-214. *)
Definition wheel_tags (platform : string) : list string :=
  flat_map (fun python_tag =>
              map (fun abi_tag => Py.join "-" [python_tag; abi_tag; platform])
                  ABI_TAGS)
           PYTHON_TAGS.

Definition wheel_metadata_msg (platform : string) : message :=
  make_message
    [("Wheel-Version", Scalar "1.0");
     ("Generator", Scalar "bdist_wheel 1.0");
     ("Root-Is-Purelib", Scalar "false");
     ("Tag", Multi (wheel_tags platform))]
    None.

(** Lines 219-222: one dictionary entry per file of the tree. *)
Definition record_step (root : path) (entries : list (string * (string * string)))
    (f : path) : M (list (string * (string * string))) :=
  do c <- read_bytes f ;
  ret (dict_set (relative_to root f) (rehash c) entries).

(** Lines 225-227. *)
Definition record_line (entry : string * (string * string)) : string :=
  let '(k, (digest, len)) := entry in
  Py.join "," [k; digest; len] +:+ "
".

(** [zf.write(f, f.relative_to(wheel_tree))] *)
Definition zip_step (root : path) (members : list member) (f : path)
  : M (list member) :=
  do c <- read_bytes f ;
  do fsys <- get_fs ;
  ret (members ++ [mkMember (relative_to root f) c (default 0%N (file_mode fsys f))]).

(** The body of the assembly loop (lines 164-239). *)
Definition assemble (metadata : message) (entry : string * path) : M unit :=
  let '(platform, terraform_zip) := entry in
  mkdir_exist_ok (wheel_tree platform) ;;
  let terraform_src := with_suffix_empty terraform_zip in
  unpack_archive terraform_zip terraform_src ;;
  mkdir_exist_ok (wheel_data platform) ;;
  mkdir_exist_ok (wheel_scripts platform) ;;
  mkdir_exist_ok (wheel_info platform) ;;
  do found <- path_exists (terraform_src ++ ["terraform"]) ;
  let terraform_src_binary :=
    if found then terraform_src ++ ["terraform"]
    else terraform_src ++ ["terraform.exe"] in
  let terraform_binary := wheel_scripts platform ++ [basename terraform_src_binary] in
  copy terraform_src_binary terraform_binary ;;
  chmod terraform_binary 493 ;;
  copy LICENSE (wheel_info platform) ;;
  write_text (package_metadata platform) (as_string metadata) ;;
  write_text (wheel_metadata platform) (as_string (wheel_metadata_msg platform)) ;;
  do files <- glob_files (wheel_tree platform) ;
  do entries <- fold_each files (record_step (wheel_tree platform)) [] ;
  let entries :=
    dict_set (relative_to (wheel_tree platform) (wheel_record platform))
             ("", "") entries in
  write_text (wheel_record platform) (String.concat "" (map record_line entries)) ;;
  write_bytes (wheel_file platform) [] ;;
  do files <- glob_files (wheel_tree platform) ;
  do members <- fold_each files (zip_step (wheel_tree platform)) [] ;
  write_bytes (wheel_file platform) (zip_encode env members) ;;
  emit (WheelWritten platform (wheel_file platform)).

(** Lines 96-239, once the tag has parsed. *)
Definition build_wheels : M unit :=
  do readme <- read_text README ;
  let metadata := PACKAGE_METADATA_MSG readme in
  mkdir_exist_ok BUILD_DIR ;;
  wget terraform_sha256_url terraform_sha256 ;;
  wget terraform_sigs_url terraform_sigs ;;
  gpg HASHICORP_GPG terraform_sigs terraform_sha256 ;;
  do platform_zip <- fetch_archives ;
  shasum terraform_sha256 ;;
  for_each platform_zip (assemble metadata).

End versions.

(** The whole script. *)
Definition main : M unit :=
  match Semver.parse (GIT_TAG (env_git_tag env)) with
  | Some v => build_wheels v
  | None => fail (ParseError (GIT_TAG (env_git_tag env)))
  end.

End pipeline.

(** The exit status of the interpreter: 0 when the script returns, 1 when
    an exception reaches the top level. *)
Definition exit_status {A} (r : result A) : N :=
  match r with
  | Ok _ _ => 0
  | Raise _ _ => 1
  end.

Definition final_trace {A} (r : result A) : list event :=
  match r with
  | Ok _ w => trace w
  | Raise _ tr => tr
  end.

(** The permission string of the low nine mode bits, as [ls -l] shows it. *)
Definition perm_string (mode : N) : string :=
  let bit i c := if N.testbit mode i then c else "-"%char in
  String (bit 8%N "r"%char) (String (bit 7%N "w"%char) (String (bit 6%N "x"%char)
  (String (bit 5%N "r"%char) (String (bit 4%N "w"%char) (String (bit 3%N "x"%char)
  (String (bit 2%N "r"%char) (String (bit 1%N "w"%char) (String (bit 0%N "x"%char) "")))))))).

(** ** Vocabulary of the properties *)

(** A run step that leaves no event. *)
Definition silent {A} (m : M A) : Prop :=
  forall w, final_trace (m w) = trace w.

(** The verdict carried by an event of an external tool. *)
Definition succeeded (ev : event) : bool :=
  match ev with
  | Wget _ _ ok => ok
  | Gpg _ _ _ ok => ok
  | Shasum _ ok => ok
  | Unpack _ _ => true
  | WheelWritten _ _ => true
  end.

Definition is_wget (ev : event) : bool :=
  match ev with Wget _ _ _ => true | _ => false end.

Definition is_assembly (ev : event) : bool :=
  match ev with Unpack _ _ | WheelWritten _ _ => true | _ => false end.





(** The events of the fetch loop and of the assembly loop when nothing
    fails. *)
Definition fetch_events (v : Semver.Version) (entries : list (string * string))
  : list event :=
  map (fun '(_, arch) => Wget (terraform_zip_url v arch) (terraform_zip_path v arch) true)
      entries.

Definition platform_zip_of (v : Semver.Version) (entries : list (string * string))
  : list (string * path) :=
  map (fun '(platform, arch) => (platform, terraform_zip_path v arch)) entries.

Definition assemble_events (v : Semver.Version) (platform_zip : list (string * path))
  : list event :=
  flat_map (fun '(platform, z) =>
              [Unpack z (with_suffix_empty z); WheelWritten platform (wheel_file v platform)])
           platform_zip.

(** A run step that is silent until it ends by leaving exactly [ev]. *)
Definition ends_with_event {A} (ev : event) (m : M A) : Prop :=
  forall w,
    match m w with
    | Ok _ w' => trace w' = trace w ++ [ev]
    | Raise _ tr => tr = trace w
    end.

(** A monitor for the order of the verification steps: it rejects an
    event after a failed tool, a checksum verification of a manifest whose
    signature was not verified, and an unpacking before a successful
    checksum verification. *)
Record monitor_state := mkMon {
  failed : bool;
  signed : option path;
  checked : bool
}.

Definition monitor_start : monitor_state := mkMon false None false.

Definition monitor_step (s : monitor_state) (ev : event) : option monitor_state :=
  if failed s then None
  else
    match ev with
    | Wget _ _ ok => Some (mkMon (negb ok) (signed s) (checked s))
    | Gpg _ _ m ok =>
        Some (mkMon (negb ok) (if ok then Some m else signed s) (checked s))
    | Shasum m ok =>
        if bool_decide (signed s = Some m)
        then Some (mkMon (negb ok) (signed s) (checked s || ok))
        else None
    | Unpack _ _ => if checked s then Some s else None
    | WheelWritten _ _ => Some s
    end.

Fixpoint monitor (s : monitor_state) (tr : list event) : option monitor_state :=
  match tr with
  | [] => Some s
  | ev :: rest =>
      match monitor_step s ev with
      | Some s' => monitor s' rest
      | None => None
      end
  end.

(** The events of a run in which nothing fails. *)
Definition success_trace (v : Semver.Version) : list event :=
  [Wget (terraform_sha256_url v) (terraform_sha256 v) true;
   Wget (terraform_sigs_url v) (terraform_sigs v) true;
   Gpg HASHICORP_GPG (terraform_sigs v) (terraform_sha256 v) true]
  ++ fetch_events v PY_PLATFORM_TF_ARCH
  ++ [Shasum (terraform_sha256 v) true]
  ++ assemble_events v (platform_zip_of v PY_PLATFORM_TF_ARCH).

(** *** The assembled tree *)

(** The files a walk from [root] finds (lines 220-221 and 237-238). *)
Definition tree_files (f : gmap path node) (root : path) : list path :=
  List.filter (is_file f) (glob_all f root).

(** The RECORD entry and the archive member of the file at [q]. *)
Definition record_entry (f : gmap path node) (root q : path)
  : string * (string * string) :=
  (relative_to root q, rehash (default [] (file_content f q))).

Definition member_of (f : gmap path node) (root q : path) : member :=
  mkMember (relative_to root q) (default [] (file_content f q))
           (default 0%N (file_mode f q)).

Section assembled.

Variable env : Env.
Variable v : Semver.Version.
Variable platform : string.

Definition binary_path (name : string) : path :=
  wheel_scripts v platform ++ [name].
Definition license_path : path := wheel_info v platform ++ ["LICENSE"].

(** The four files written before RECORD, and all five. *)
Definition payload_files (name : string) : list path :=
  [binary_path name; license_path;
   package_metadata v platform; wheel_metadata v platform].
Definition wheel_files (name : string) : list path :=
  payload_files name ++ [wheel_record v platform].

(** The names of the five archive entries. *)
Definition entry_names (name : string) : list string :=
  [PACKAGE_WHEELNAME v +:+ ".data/scripts/" +:+ name;
   PACKAGE_WHEELNAME v +:+ ".dist-info/LICENSE";
   PACKAGE_WHEELNAME v +:+ ".dist-info/METADATA";
   PACKAGE_WHEELNAME v +:+ ".dist-info/WHEEL";
   PACKAGE_WHEELNAME v +:+ ".dist-info/RECORD"].

(** What a finished iteration leaves for its platform: the tree holds
    exactly the five files; RECORD has one line per payload file, in
    some order, then its own line; the wheel has one member per file of
    the tree, in some order; the binary has mode 493. *)
Definition wheel_assembled (f : gmap path node) : Prop :=
  exists name order4 order5,
    (name = "terraform" \/ name = "terraform.exe")
    /\ Permutation order4 (payload_files name)
    /\ Permutation order5 (wheel_files name)
    /\ (forall q, In q (tree_files f (wheel_tree v platform))
                  <-> In q (wheel_files name))
    /\ file_content f (wheel_record v platform)
       = Some (str_encode
                 (String.concat ""
                    (map record_line
                       (map (record_entry f (wheel_tree v platform)) order4
                        ++ [(relative_to (wheel_tree v platform)
                                         (wheel_record v platform), ("", ""))]))))
    /\ file_content f (wheel_file v platform)
       = Some (zip_encode env (map (member_of f (wheel_tree v platform)) order5))
    /\ file_mode f (binary_path name) = Some 493%N.

End assembled.

(** What lies at and below [root]: the listed directories, the listed
    files, and nothing else. *)
Definition tree_layout (f : gmap path node) (root : path) (dirs files : list path)
  : Prop :=
  (forall d, In d dirs -> root `prefix_of` d /\ f !! d = Some Dir)
  /\ (forall q, In q files ->
        root `prefix_of` q /\ exists c m, f !! q = Some (File c m))
  /\ (forall q, root `prefix_of` q -> ~ In q dirs -> ~ In q files -> f !! q = None).

(** *** Names in the build directory *)

(** The stem of an upstream archive's name. *)
Definition zip_stem (v : Semver.Version) (arch : string) : string :=
  "terraform_" +:+ TERRAFORM_VERSION v +:+ "_" +:+ arch.

(** Names of what is downloaded or unpacked: they continue
    [terraform_<version>]. *)
Definition upstream_name (v : Semver.Version) (s : string) : Prop :=
  exists t, s = "terraform_" +:+ TERRAFORM_VERSION v +:+ t.

Definition no_slash (s : string) : bool :=
  negb (Py.any_char (fun x => Ascii.eqb x "/") s).

(** A fresh run: nothing lies inside the build directory yet. *)
Definition fresh_build (f : gmap path node) : Prop :=
  forall x q, f !! ("build" :: x :: q) = None.

(** No wheel tree of version [v] has been started. *)
Definition trees_fresh (v : Semver.Version) (f : gmap path node) : Prop :=
  forall p q, f !! (wheel_tree v p ++ q) = None.

(** ** Sample runs

    A tool environment in which every download returns the bytes of its
    URL, both verifications accept, and every archive holds the single
    member [terraform]; and the invocation directory of the repository,
    with its three fixed files and no build directory. *)

Definition sample_env : Env :=
  {| env_git_tag := None;
     wget_fetch := fun _ url => Some (str_encode url);
     gpg_verify := fun _ _ _ => true;
     shasum_check := fun _ _ => true;
     unzip := fun b => Some [mkMember "terraform" b 420%N];
     zip_encode := fun ms => str_encode (Py.join ";" (map m_name ms));
     decode_text := fun b => Some (decode_latin1 b);
     render_message := plain_lines;
     default_mode := 420%N |}.

(** The same tools, but the signature does not verify. *)
Definition untrusted_env : Env :=
  {| env_git_tag := None;
     wget_fetch := fun _ url => Some (str_encode url);
     gpg_verify := fun _ _ _ => false;
     shasum_check := fun _ _ => true;
     unzip := fun b => Some [mkMember "terraform" b 420%N];
     zip_encode := fun ms => str_encode (Py.join ";" (map m_name ms));
     decode_text := fun b => Some (decode_latin1 b);
     render_message := plain_lines;
     default_mode := 420%N |}.

Definition sample_fs : gmap path node :=
  <[LICENSE := File (str_encode "license text") 420%N]>
    (<[README := File (str_encode "# readme") 420%N]>
       (<[HASHICORP_GPG := File (str_encode "keyring") 420%N]> ∅)).

(** The world the sample run ends in. *)
Definition sample_final : world :=
  match main sample_env (mkWorld sample_fs []) with
  | Ok _ w => w
  | Raise _ _ => mkWorld ∅ []
  end.

(** ** Vocabulary of the further properties *)

(** Two adjacent occurrences of [c]. *)
Fixpoint has_double (c : ascii) (s : string) : bool :=
  match s with
  | String a (String b _ as t) => (Ascii.eqb a c && Ascii.eqb b c) || has_double c t
  | _ => false
  end.

(** A character of the URL-safe base64 alphabet. *)
Definition urlsafe_char (c : ascii) : bool :=
  Py.any_char (Ascii.eqb c) Base64.alphabet.

(** The header lines one entry of the [headers] dictionary gives. *)
Definition header_lines (entry : string * header_value) : list (string * string) :=
  match snd entry with
  | Scalar value => [(fst entry, value)]
  | Multi parts => map (pair (fst entry)) parts
  end.

(** The event a tool leaves when it fails instead of succeeding. *)
Definition failed_twin (ev : event) : event :=
  match ev with
  | Wget url dest _ => Wget url dest false
  | Gpg keyring sig manifest _ => Gpg keyring sig manifest false
  | Shasum manifest _ => Shasum manifest false
  | Unpack _ _ | WheelWritten _ _ => ev
  end.

(** [tr] follows the script [full] up to some point: it is a prefix of
    [full], or a prefix followed by the failure of the tool that comes
    next. *)
Definition follows_script (full tr : list event) : Prop :=
  exists done rest,
    full = done ++ rest
    /\ (tr = done
        \/ exists ev rest',
             rest = ev :: rest'
             /\ succeeded (failed_twin ev) = false
             /\ tr = done ++ [failed_twin ev]).

(** The three events every run starts with when nothing fails. *)
Definition manifest_events (v : Semver.Version) : list event :=
  [Wget (terraform_sha256_url v) (terraform_sha256 v) true;
   Wget (terraform_sigs_url v) (terraform_sigs v) true;
   Gpg HASHICORP_GPG (terraform_sigs v) (terraform_sha256 v) true].

(** The sample tools again, but an archive does not match its checksum. *)
Definition corrupt_env : Env :=
  {| env_git_tag := None;
     wget_fetch := fun _ url => Some (str_encode url);
     gpg_verify := fun _ _ _ => true;
     shasum_check := fun _ _ => false;
     unzip := fun b => Some [mkMember "terraform" b 420%N];
     zip_encode := fun ms => str_encode (Py.join ";" (map m_name ms));
     decode_text := fun b => Some (decode_latin1 b);
     render_message := plain_lines;
     default_mode := 420%N |}.

(** A rejected signature, and a rejected checksum. *)
Definition is_gpg_failure (ev : event) : bool :=
  match ev with Gpg _ _ _ false => true | _ => false end.

Definition is_shasum_failure (ev : event) : bool :=
  match ev with Shasum _ false => true | _ => false end.

(** A member name that is one plain path component. *)
Definition simple_name (name : string) : bool :=
  no_slash name && negb (String.eqb name "") && negb (String.eqb name ".")
  && negb (has_dotdot name).

(** The data of the last member called [name], if there is one. *)
Definition last_member (name : string) (ms : list member) : option (list byte) :=
  fold_left (fun found m => if String.eqb (m_name m) name then Some (m_data m) else found)
            ms None.

(** ** Failed and completed runs *)


Section completed.

Variable env : Env.
Variable v : Semver.Version.

(** The copied binary: a file of mode 493 in the scripts directory, or,
    where a directory of its name was in the way, a file inside that
    directory. *)
Definition binary_installed (platform : string) (f : gmap path node) : Prop :=
  exists name,
    (name = "terraform" \/ name = "terraform.exe")
    /\ (file_mode f (binary_path v platform name) = Some 493%N
        \/ (is_dir f (binary_path v platform name) = true
            /\ is_file f (binary_path v platform name ++ [name]) = true)).

(** What every step of one iteration of the assembly loop has left when
    the run is over: the platform's archive is a file that unzips, the
    binary is installed, the licence is copied, METADATA and WHEEL hold
    the serialized messages, RECORD and the wheel are files. *)
Definition iteration_completed (text : string) (license : list byte)
    (platform arch : string) (f : gmap path node) : Prop :=
  (exists body ms,
      file_content f (terraform_zip_path v arch) = Some body
      /\ unzip env body = Some ms)
  /\ binary_installed platform f
  /\ file_content f (license_path v platform) = Some license
  /\ file_content f (package_metadata v platform)
     = Some (str_encode (as_string env (PACKAGE_METADATA_MSG v text)))
  /\ file_content f (wheel_metadata v platform)
     = Some (str_encode (as_string env (wheel_metadata_msg platform)))
  /\ is_file f (wheel_record v platform) = true
  /\ is_file f (wheel_file v platform) = true.

End completed.

(** * Properties *)

(** ** Strings *)

Local Arguments String.append !_ _ / : simpl nomatch.

Section string_facts.

Lemma append_empty_r (s : string) : s +:+ "" = s.
Proof. induction s as [|c s IH]; simpl; [reflexivity | now rewrite IH]. Qed.

Lemma append_assoc (a b c : string) : (a +:+ b) +:+ c = a +:+ b +:+ c.
Proof. induction a as [|x a IH]; simpl; [reflexivity | now rewrite IH]. Qed.

Lemma append_inv_head (a b c : string) : a +:+ b = a +:+ c -> b = c.
Proof. induction a as [|x a IH]; simpl; intros H; [exact H | injection H; auto]. Qed.

Lemma any_char_app p (a b : string) :
  Py.any_char p (a +:+ b) = Py.any_char p a || Py.any_char p b.
Proof.
  induction a as [|x a IH]; simpl; [reflexivity |].
  now rewrite IH, orb_assoc.
Qed.

End string_facts.

(** ** [normalize] *)

Section normalize_facts.

Lemma sub_runs_clean (b : bool) (s : string) :
  Py.any_char is_sep s = false -> sub_runs b s = s.
Proof.
  revert b; induction s as [|c s IH]; intros b H; simpl in *; [reflexivity |].
  apply orb_false_iff in H as [Hc Hs]. rewrite Hc. f_equal. now apply IH.
Qed.

Lemma sub_runs_twice (b : bool) (s : string) :
  sub_runs b (sub_runs b s) = sub_runs b s.
Proof.
  revert b; induction s as [|c s IH]; intros b; simpl; [reflexivity |].
  destruct (is_sep c) eqn:Hc.
  - destruct b; simpl; [apply IH |].
    change (is_sep "_") with true. cbn iota. f_equal. apply IH.
  - simpl. rewrite Hc. f_equal. apply IH.
Qed.

(** Scanning a separator run consumes it whole. *)
Lemma sub_runs_run_true (run rest : string) :
  Py.all_chars is_sep run = true ->
  sub_runs true (run +:+ rest) = sub_runs true rest.
Proof.
  induction run as [|c run IH]; simpl; intros H; [reflexivity |].
  apply andb_true_iff in H as [Hc Hr]. rewrite Hc. now apply IH.
Qed.

Lemma sub_runs_run_false (run rest : string) :
  run <> "" -> Py.all_chars is_sep run = true ->
  sub_runs false (run +:+ rest) = String "_" (sub_runs true rest).
Proof.
  destruct run as [|c run]; [congruence |]. simpl. intros _ H.
  apply andb_true_iff in H as [Hc Hr]. rewrite Hc. f_equal.
  now apply sub_runs_run_true.
Qed.

Lemma sub_runs_start (s : string) :
  starts_with_sep s = false -> sub_runs true s = sub_runs false s.
Proof.
  destruct s as [|c s]; [reflexivity |]. unfold starts_with_sep. simpl.
  now intros ->.
Qed.

Lemma sub_runs_app_clean_end (b : bool) (a t : string) :
  ends_with_sep a = false -> a <> "" ->
  sub_runs b (a +:+ t) = sub_runs b a +:+ sub_runs false t.
Proof.
  revert b; induction a as [|c a IH]; intros b He Hne; [congruence |].
  destruct a as [|c' a'].
  - unfold ends_with_sep in He. simpl in He. simpl. rewrite He. reflexivity.
  - assert (He' : ends_with_sep (String c' a') = false) by exact He.
    assert (Hne' : String c' a' <> "") by congruence.
    change (String c (String c' a') +:+ t) with (String c (String c' a' +:+ t)).
    cbn [sub_runs].
    destruct (is_sep c); [destruct b |]; rewrite IH by assumption; reflexivity.
Qed.

Lemma normalize_str_run (a run b : string) :
  run <> "" -> Py.all_chars is_sep run = true ->
  ends_with_sep a = false -> starts_with_sep b = false ->
  normalize_str (a +:+ run +:+ b) = normalize_str a +:+ "_" +:+ normalize_str b.
Proof.
  intros Hne Hrun Ha Hb. unfold normalize_str.
  destruct a as [|c a].
  - simpl. rewrite sub_runs_run_false by assumption.
    now rewrite sub_runs_start.
  - rewrite sub_runs_app_clean_end by (assumption || congruence).
    rewrite sub_runs_run_false by assumption.
    now rewrite sub_runs_start.
Qed.

End normalize_facts.

(** C6: [normalize] is idempotent; it leaves a string without separator
    characters unchanged, and it replaces a maximal run of separator
    characters (one that is neither preceded nor followed by a separator)
    by a single underscore, the text on both sides being normalized on its
    own. *)
Theorem normalize_idempotent_collapses_runs :
  (forall s, normalize_str (normalize_str s) = normalize_str s) /\
  (forall s, Py.any_char is_sep s = false -> normalize_str s = s) /\
  (forall a run b,
      run <> "" -> Py.all_chars is_sep run = true ->
      ends_with_sep a = false -> starts_with_sep b = false ->
      normalize_str (a +:+ run +:+ b)
      = normalize_str a +:+ "_" +:+ normalize_str b).
Proof.
  split; [| split].
  - intros s. apply sub_runs_twice.
  - intros s. apply sub_runs_clean.
  - apply normalize_str_run.
Qed.

Lemma normalize_idempotent_collapses_runs_witness :
  normalize_str (normalize_str "a-_.b..c_") = normalize_str "a-_.b..c_" /\
  normalize_str "rc0" = "rc0" /\
  normalize_str ("terraform" +:+ "-_." +:+ "binary") = "terraform_binary".
Proof.
  destruct normalize_idempotent_collapses_runs as (Hidem & Hclean & Hrun).
  split; [apply Hidem | split].
  - apply Hclean. reflexivity.
  - apply Hrun; [discriminate | reflexivity | reflexivity | reflexivity].
Defined.

Example normalize_runs : normalize_str "a-_.b..c_" = "a_b_c_".
Proof. reflexivity. Qed.

Example normalize_package_name : normalize_str PACKAGE_NAME = "terraform_binary_wheel".
Proof. reflexivity. Qed.

(** ** Version derivation *)

Section version_facts.

Lemma string_of_uint_no_sep (d : Decimal.uint) :
  Py.any_char is_sep (NilEmpty.string_of_uint d) = false.
Proof. induction d; simpl; auto. Qed.

Lemma str_of_N_no_sep (n : N) : Py.any_char is_sep (Py.str_of_N n) = false.
Proof.
  unfold Py.str_of_N, NilZero.string_of_uint.
  destruct (N.to_uint n) eqn:E; try reflexivity;
    rewrite <- E; apply string_of_uint_no_sep.
Qed.

Lemma normalize_number (n : N) : normalize (Semver.CInt n) = Py.str_of_N n.
Proof. apply sub_runs_clean, str_of_N_no_sep. Qed.

(** A tag that parses carries no empty pre-release or build string. *)
Lemma parse_tags_nonempty (tag : string) (v : Semver.Version) :
  Semver.parse tag = Some v ->
  Semver.prerelease v <> Some "" /\ Semver.build v <> Some "".
Proof.
  unfold Semver.parse.
  destruct (Py.partition "+" _) as [front bld].
  destruct (Py.partition "-" front) as [core pre].
  destruct (Py.split "." core) as [|ma [|mi [|pa [|]]]]; try discriminate.
  destruct (_ && _) eqn:Hok; [| discriminate].
  repeat (apply andb_true_iff in Hok as [Hok ?]).
  destruct (Py.int_of_digits ma), (Py.int_of_digits mi), (Py.int_of_digits pa);
    try discriminate.
  intros [= <-]. simpl. split; intros ->; simpl in *; discriminate.
Qed.

Lemma filter_truthy_tuple (v : Semver.Version) :
  Semver.prerelease v <> Some "" -> Semver.build v <> Some "" ->
  map normalize (List.filter Semver.truthy (Semver.to_tuple v))
  = map Py.str_of_N (nonzero_numbers v) ++ map normalize_str (tag_fields v).
Proof.
  destruct v as [ma mi pa pre bld]. unfold nonzero_numbers, tag_fields. simpl.
  intros Hpre Hbld.
  assert (Htags :
    map normalize (List.filter Semver.truthy [Semver.of_opt pre; Semver.of_opt bld])
    = map normalize_str (option_list pre ++ option_list bld)).
  { destruct pre as [[|c p]|], bld as [[|c' b]|]; try congruence; reflexivity. }
  destruct (ma =? 0)%N, (mi =? 0)%N, (pa =? 0)%N; simpl;
    rewrite ?normalize_number; repeat f_equal; exact Htags.
Qed.

Lemma tool_version_numeric (v : Semver.Version) :
  TERRAFORM_VERSION v = spec_tool_version v.
Proof.
  unfold TERRAFORM_VERSION, spec_tool_version, Semver.to_string. simpl.
  now rewrite !append_empty_r.
Qed.

End version_facts.

(** C4: the tag ["1.5.7-rc0"] gives the package version ["1.5.7.rc0"] and
    the tool version ["1.5.7"]. *)
Theorem default_tag_versions :
  derive_versions "1.5.7-rc0" = Some ("1.5.7.rc0", "1.5.7").
Proof. reflexivity. Qed.

(** C2 (evaluation at the failing input): for the tag ["1.5.0"] the script
    derives the package version ["1.5"], while joining every present
    component gives ["1.5.0"]; for ["0.5.7"] it derives ["5.7"].  The tool
    version is the three numbers joined with dots in every case. *)
Theorem present_zero_component_is_dropped :
  derive_versions "1.5.0" = Some ("1.5", "1.5.0") /\
  option_map spec_package_version (Semver.parse "1.5.0") = Some "1.5.0" /\
  derive_versions "0.5.7" = Some ("5.7", "0.5.7") /\
  (forall v, TERRAFORM_VERSION v = spec_tool_version v).
Proof.
  repeat split; try reflexivity. apply tool_version_numeric.
Qed.

(** C10: for every tag that parses, the package version is the dot-joined
    list of the non-zero numbers among major, minor and patch followed by
    the normalized pre-release and build strings that are present; so a
    major, minor or patch equal to 0 contributes nothing, and ["1.5.0"]
    yields ["1.5"]. *)
Theorem package_version_omits_zero_components (tag : string) (v : Semver.Version) :
  Semver.parse tag = Some v ->
  PACKAGE_VERSION v
  = Py.join "." (map Py.str_of_N (nonzero_numbers v) ++ map normalize_str (tag_fields v))
  /\ (Semver.major v = 0%N ->
      nonzero_numbers v
      = List.filter (fun n => negb (n =? 0)%N) [Semver.minor v; Semver.patch v])
  /\ (Semver.minor v = 0%N ->
      nonzero_numbers v
      = List.filter (fun n => negb (n =? 0)%N) [Semver.major v; Semver.patch v])
  /\ (Semver.patch v = 0%N ->
      nonzero_numbers v
      = List.filter (fun n => negb (n =? 0)%N) [Semver.major v; Semver.minor v]).
Proof.
  intros Hparse. destruct (parse_tags_nonempty _ _ Hparse) as [Hpre Hbld].
  split; [| repeat split].
  - unfold PACKAGE_VERSION. now rewrite filter_truthy_tuple.
  - unfold nonzero_numbers. simpl. now intros ->.
  - unfold nonzero_numbers. simpl. now intros ->.
  - unfold nonzero_numbers. simpl. intros ->. simpl.
    destruct (Semver.major v =? 0)%N, (Semver.minor v =? 0)%N; reflexivity.
Qed.

Lemma package_version_omits_zero_components_witness :
  PACKAGE_VERSION (Semver.mkVersion 1 5 0 None None) = "1.5".
Proof.
  exact (proj1 (package_version_omits_zero_components "1.5.0"
                  (Semver.mkVersion 1 5 0 None None) eq_refl)).
Defined.

Example parse_default :
  Semver.parse "1.5.7-rc0" = Some (Semver.mkVersion 1 5 7 (Some "rc0") None).
Proof. reflexivity. Qed.

Example parse_full :
  Semver.parse "10.0.3-alpha.1-x+build.5" =
  Some (Semver.mkVersion 10 0 3 (Some "alpha.1-x") (Some "build.5")).
Proof. reflexivity. Qed.

Example parse_rejects_leading_zero : Semver.parse "1.05.7" = None.
Proof. reflexivity. Qed.

Example parse_rejects_short : Semver.parse "1.5" = None.
Proof. reflexivity. Qed.

Example package_version_normalizes_tags :
  derive_versions "2.0.1-rc.1+build-7" = Some ("2.1.rc_1.build_7", "2.0.1").
Proof. reflexivity. Qed.

(** ** Content digest *)

Section rehash_facts.

Lemma file_read_split (size : N) (file : list byte) :
  fst (file_read size file) ++ snd (file_read size file) = file.
Proof.
  revert size; induction file as [|x r IH]; intros size; simpl; [reflexivity |].
  destruct (size =? 0)%N; [reflexivity |].
  specialize (IH (N.pred size)). destruct (file_read (N.pred size) r) as [c t].
  simpl in *. now rewrite IH.
Qed.

Lemma file_read_progress (size : N) (x : byte) (r : list byte) :
  (0 < size)%N -> fst (file_read size (x :: r)) <> [].
Proof.
  intros Hs. simpl. destruct (N.eqb_spec size 0) as [->|_]; [lia |].
  destruct (file_read (N.pred size) r). simpl. discriminate.
Qed.

(** With a positive block size the loop returns the file, cut in pieces. *)
Lemma read_chunks_loop_concat (size : N) (fuel : nat) (file : list byte) :
  (0 < size)%N -> length file < fuel ->
  concat (read_chunks_loop fuel file size) = file.
Proof.
  intros Hs. revert file; induction fuel as [|k IH]; intros file Hlen; [lia |].
  simpl. pose proof (file_read_split size file) as Hsplit.
  destruct file as [|x r].
  - reflexivity.
  - pose proof (file_read_progress size x r Hs) as Hprog.
    destruct (file_read size (x :: r)) as [chunk rest]. simpl in Hsplit, Hprog.
    destruct chunk as [|y chunk]; [congruence |].
    cbn [concat]. rewrite IH; [exact Hsplit |].
    apply (f_equal (@length byte)) in Hsplit.
    rewrite length_app in Hsplit. simpl in Hsplit, Hlen. lia.
Qed.

Lemma read_chunks_concat (size : N) (file : list byte) :
  (0 < size)%N -> concat (read_chunks file size) = file.
Proof. intros Hs. apply read_chunks_loop_concat; [exact Hs | lia]. Qed.

Lemma fold_rehash_step (chunks : list (list byte)) (h : Hasher.t) (n : N) :
  fold_left rehash_step chunks (h, n)
  = (h ++ concat chunks, (n + N.of_nat (length (concat chunks)))%N).
Proof.
  revert h n; induction chunks as [|c cs IH]; intros h n; simpl.
  - now rewrite app_nil_r, N.add_0_r.
  - unfold rehash_step at 2. simpl. rewrite IH. unfold Hasher.update.
    rewrite <- app_assoc, length_app. f_equal. lia.
Qed.

Lemma rstrip_keep (c a : ascii) (r : string) :
  Ascii.eqb a c = false -> rstrip c (String a r) = String a (rstrip c r).
Proof. intros H. simpl. now rewrite H, andb_false_r. Qed.

Lemma sextet_not_pad (i : N) : Ascii.eqb (Base64.sextet i) "=" = false.
Proof.
  unfold Base64.sextet.
  assert (Hlt : (N.to_nat (i mod 64) < 64)%nat).
  { pose proof (N.mod_upper_bound i 64). lia. }
  assert (Hall : forallb (fun k =>
             negb (Ascii.eqb (match String.get k Base64.alphabet with
                              | Some c => c | None => "="%char end) "="))
           (seq 0 64) = true) by reflexivity.
  rewrite forallb_forall in Hall.
  specialize (Hall (N.to_nat (i mod 64))).
  apply negb_true_iff, Hall, in_seq. simpl. split; [apply Nat.le_0_l | exact Hlt].
Qed.

Lemma rstrip_padding (n : nat) (bs : list N) :
  length bs <= n ->
  rstrip "=" (Base64.encode_N true bs) = Base64.encode_N false bs.
Proof.
  revert bs; induction n as [|n IH]; intros bs Hlen.
  - destruct bs; [reflexivity | simpl in Hlen; lia].
  - destruct bs as [|a [|b [|c rest]]]; cbn [Base64.encode_N].
    + reflexivity.
    + rewrite !rstrip_keep by apply sextet_not_pad. reflexivity.
    + rewrite !rstrip_keep by apply sextet_not_pad. reflexivity.
    + rewrite !rstrip_keep by apply sextet_not_pad.
      rewrite IH; [reflexivity | simpl in Hlen; lia].
Qed.

Lemma decode_encode (s : string) : decode_latin1 (str_encode s) = s.
Proof. apply String.string_of_list_byte_of_string. Qed.

Lemma rehash_with_spec (blocksize : N) (content : list byte) :
  (0 < blocksize)%N -> rehash_with blocksize content = spec_rehash content.
Proof.
  intros Hs. unfold rehash_with, spec_rehash.
  rewrite fold_rehash_step, read_chunks_concat by exact Hs.
  unfold Hasher.new, Hasher.digest, Base64.urlsafe_b64encode, Base64.urlsafe_unpadded.
  cbn [app]. rewrite decode_encode, N.add_0_l.
  now rewrite (rstrip_padding _ _ (le_n _)).
Qed.

End rehash_facts.

(** C5: [rehash] returns ["sha256="] followed by the unpadded URL-safe
    base64 of the SHA-256 of the file's bytes, and the decimal byte count;
    this holds for every positive block size, and the pair is a function
    of the bytes alone. *)
Theorem rehash_is_digest_and_length (content : list byte) :
  rehash content
  = ("sha256=" +:+ Base64.urlsafe_unpadded (SHA256.digest content),
     Py.str_of_N (N.of_nat (length content)))
  /\ (forall blocksize, (0 < blocksize)%N ->
        rehash_with blocksize content = rehash content)
  /\ (forall content', content' = content -> rehash content' = rehash content).
Proof.
  assert (Hdef : (0 < DEFAULT_BLOCKSIZE)%N) by reflexivity.
  split; [| split].
  - exact (rehash_with_spec _ content Hdef).
  - intros blocksize Hs. unfold rehash.
    now rewrite !rehash_with_spec.
  - now intros content' ->.
Qed.

Lemma rehash_is_digest_and_length_witness :
  rehash_with 5 (str_encode "hello world") = rehash (str_encode "hello world").
Proof.
  apply (proj1 (proj2 (rehash_is_digest_and_length (str_encode "hello world")))).
  reflexivity.
Defined.

Example sha256_abc :
  SHA256.hexdigest (str_encode "abc")
  = "ba7816bf8f01cfea414140de5dae2223b00361a396177a9cb410ff61f20015ad".
Proof. vm_compute. reflexivity. Qed.

Example rehash_empty_file :
  rehash [] = ("sha256=47DEQpj8HBSa-_TImW-5JCeuQeRkm5NMpJWZG3hSuFU", "0").
Proof. vm_compute. reflexivity. Qed.

Example rehash_two_blocks :
  rehash_with 5 (str_encode "hello world")
  = ("sha256=uU0nuZNNPgilLlLX2n2r-sSE7-N6U4DukIj3rOLvzek", "11").
Proof. vm_compute. reflexivity. Qed.

Example read_chunks_blocks :
  map decode_latin1 (read_chunks (str_encode "hello world") 5) = ["hello"; " worl"; "d"].
Proof. reflexivity. Qed.

Example read_chunks_zero_size : read_chunks (str_encode "hello") 0 = [].
Proof. reflexivity. Qed.

(** ** Events of a run *)

Section trace_facts.

Variable env : Env.

Lemma silent_ret {A} (a : A) : silent (ret a).
Proof. intros w. reflexivity. Qed.

Lemma silent_fail {A} (e : error) : silent (@fail A e).
Proof. intros w. reflexivity. Qed.

Lemma silent_get_fs : silent get_fs.
Proof. intros w. reflexivity. Qed.

Lemma silent_put_fs f : silent (put_fs f).
Proof. intros w. reflexivity. Qed.

Lemma silent_bind {A B} (m : M A) (k : A -> M B) :
  silent m -> (forall a, silent (k a)) -> silent (bind m k).
Proof.
  intros Hm Hk w. unfold bind. specialize (Hm w).
  destruct (m w) as [a w'|e tr]; simpl in *; [| exact Hm].
  rewrite (Hk a w'). exact Hm.
Qed.

Lemma silent_for_each {A} (xs : list A) (body : A -> M unit) :
  (forall x, silent (body x)) -> silent (for_each xs body).
Proof.
  intros Hb. induction xs as [|x xs IH]; simpl.
  - apply silent_ret.
  - apply silent_bind; [apply Hb | intros _; exact IH].
Qed.

Lemma silent_fold_each {A S} (xs : list A) (body : S -> A -> M S) (s : S) :
  (forall s x, silent (body s x)) -> silent (fold_each xs body s).
Proof.
  intros Hb. revert s; induction xs as [|x xs IH]; intros s; simpl.
  - apply silent_ret.
  - apply silent_bind; [apply Hb | intros s'; apply IH].
Qed.

(** Resolve [silent] goals over the primitive steps. *)
Ltac silent_step :=
  first
    [ apply silent_ret | apply silent_fail | apply silent_get_fs
    | apply silent_put_fs
    | apply silent_bind; [| intros ?]
    | apply silent_for_each; intros ?
    | apply silent_fold_each; intros ? ?
    | match goal with
      | |- silent (match ?x with _ => _ end) => destruct x
      | |- silent (if ?b then _ else _) => destruct b
      end ].

Lemma silent_path_exists p : silent (path_exists p).
Proof. unfold path_exists. repeat silent_step. Qed.

Lemma silent_mkdir_exist_ok p : silent (mkdir_exist_ok p).
Proof. unfold mkdir_exist_ok. repeat silent_step. Qed.

Lemma silent_read_bytes p : silent (read_bytes p).
Proof. unfold read_bytes. repeat silent_step. Qed.

Lemma silent_read_text p : silent (read_text env p).
Proof.
  unfold read_text. apply silent_bind; [apply silent_read_bytes | intros c].
  destruct (decode_text env c); [apply silent_ret | apply silent_fail].
Qed.

Lemma silent_write_bytes p c : silent (write_bytes env p c).
Proof. unfold write_bytes. repeat silent_step. Qed.

Lemma silent_write_text p s : silent (write_text env p s).
Proof. apply silent_write_bytes. Qed.

Lemma silent_chmod p mode : silent (chmod p mode).
Proof. unfold chmod. repeat silent_step. Qed.

Lemma silent_copy src dst : silent (copy env src dst).
Proof.
  unfold copy. apply silent_bind; [apply silent_get_fs | intros f].
  destruct (node_at f src) as [[c m|]|]; try apply silent_fail.
  destruct (bool_decide _); [apply silent_fail |].
  apply silent_bind; [apply silent_write_bytes | intros; apply silent_chmod].
Qed.

Lemma silent_makedirs p : silent (makedirs p).
Proof. unfold makedirs. apply silent_for_each. apply silent_mkdir_exist_ok. Qed.

Lemma silent_extract_member d m : silent (extract_member env d m).
Proof.
  unfold extract_member. destruct (_ || _); [apply silent_ret |].
  apply silent_bind; [apply silent_makedirs | intros _].
  destruct (is_dir_name _); [apply silent_ret |].
  destruct (String.eqb _ _); [apply silent_fail | apply silent_write_bytes].
Qed.

Lemma silent_glob_files root : silent (glob_files root).
Proof. unfold glob_files. repeat silent_step. Qed.

Lemma silent_record_step root entries f : silent (record_step root entries f).
Proof.
  unfold record_step. apply silent_bind; [apply silent_read_bytes | intros; apply silent_ret].
Qed.

Lemma silent_zip_step root members f : silent (zip_step root members f).
Proof.
  unfold zip_step. apply silent_bind; [apply silent_read_bytes | intros].
  apply silent_bind; [apply silent_get_fs | intros; apply silent_ret].
Qed.

(** What a silent step tells about either outcome. *)
Lemma silent_ok {A} (m : M A) w a w' : silent m -> m w = Ok a w' -> trace w' = trace w.
Proof. intros Hs H. specialize (Hs w). now rewrite H in Hs. Qed.

Lemma silent_raise {A} (m : M A) w e tr : silent m -> m w = Raise e tr -> tr = trace w.
Proof. intros Hs H. specialize (Hs w). now rewrite H in Hs. Qed.

(** *** The tools *)

Lemma wget_ok url dest w a w' :
  wget env url dest w = Ok a w' -> trace w' = trace w ++ [Wget url dest true].
Proof.
  unfold wget, bind, history, get_fs, put_fs, emit, fail.
  destruct (wget_fetch env (trace w) url) as [body|]; [| discriminate].
  destruct (fs_write _ _ _ _); [| discriminate].
  now intros [= _ <-].
Qed.

Lemma wget_raise url dest w e tr :
  wget env url dest w = Raise e tr -> tr = trace w ++ [Wget url dest false].
Proof.
  unfold wget, bind, history, get_fs, put_fs, emit, fail.
  destruct (wget_fetch env (trace w) url) as [body|];
    [destruct (fs_write _ _ _ _); [discriminate |] |]; now intros [= _ <-].
Qed.

Lemma gpg_ok k s m w a w' :
  gpg env k s m w = Ok a w' -> trace w' = trace w ++ [Gpg k s m true].
Proof.
  unfold gpg, bind, get_fs, emit, fail, ret.
  destruct (gpg_verify _ _ _ _); [| discriminate]. now intros [= _ <-].
Qed.

Lemma gpg_raise k s m w e tr :
  gpg env k s m w = Raise e tr -> tr = trace w ++ [Gpg k s m false].
Proof.
  unfold gpg, bind, get_fs, emit, fail, ret.
  destruct (gpg_verify _ _ _ _); [discriminate |]. now intros [= _ <-].
Qed.

Lemma shasum_ok m w a w' :
  shasum env m w = Ok a w' -> trace w' = trace w ++ [Shasum m true].
Proof.
  unfold shasum, bind, get_fs, emit, fail, ret.
  destruct (shasum_check _ _ _); [| discriminate]. now intros [= _ <-].
Qed.

Lemma shasum_raise m w e tr :
  shasum env m w = Raise e tr -> tr = trace w ++ [Shasum m false].
Proof.
  unfold shasum, bind, get_fs, emit, fail, ret.
  destruct (shasum_check _ _ _); [discriminate |]. now intros [= _ <-].
Qed.

(** After its one event, unpacking is silent. *)
Lemma unpack_archive_trace z d w :
  final_trace (unpack_archive env z d w) = trace w ++ [Unpack z d].
Proof.
  unfold unpack_archive. unfold bind at 1. unfold emit at 1.
  set (w1 := mkWorld (fs w) (trace w ++ [Unpack z d])).
  change (trace w ++ [Unpack z d]) with (trace w1).
  apply silent_bind; [apply silent_read_bytes | intros c].
  destruct (unzip env c); [| apply silent_fail].
  apply silent_for_each. apply silent_extract_member.
Qed.

End trace_facts.

Create HintDb silent_db.
#[local] Hint Resolve silent_ret silent_fail silent_get_fs silent_put_fs
  silent_path_exists silent_mkdir_exist_ok silent_read_bytes silent_read_text
  silent_write_bytes silent_write_text silent_chmod silent_copy silent_makedirs
  silent_extract_member silent_glob_files silent_record_step silent_zip_step
  : silent_db.

Section run_trace.

Variable env : Env.
Variable v : Semver.Version.

Lemma bind_ok_inv {A B} (m : M A) (k : A -> M B) w b w'' :
  bind m k w = Ok b w'' -> exists a w', m w = Ok a w' /\ k a w' = Ok b w''.
Proof. unfold bind. destruct (m w) as [a w'|]; [eauto | discriminate]. Qed.

Lemma bind_raise_inv {A B} (m : M A) (k : A -> M B) w e tr :
  bind m k w = Raise e tr ->
  m w = Raise e tr \/ exists a w', m w = Ok a w' /\ k a w' = Raise e tr.
Proof. unfold bind. destruct (m w) as [a w'|]; [eauto | intros [= -> ->]; auto]. Qed.

Lemma ends_emit ev : ends_with_event ev (emit ev).
Proof. intros w. reflexivity. Qed.

Lemma ends_bind {A B} ev (m : M A) (k : A -> M B) :
  silent m -> (forall a, ends_with_event ev (k a)) -> ends_with_event ev (bind m k).
Proof.
  intros Hm Hk w. unfold bind. specialize (Hm w).
  destruct (m w) as [a w'|e tr]; simpl in Hm; [| exact Hm].
  specialize (Hk a w'). destruct (k a w'); congruence.
Qed.

(** *** The fetch loop *)

Lemma fetch_archives_ok entries pz0 w pz w' :
  fold_each entries (fetch_step env v) pz0 w = Ok pz w' ->
  trace w' = trace w ++ fetch_events v entries
  /\ pz = fold_left (fun d '(platform, arch) =>
                       dict_set platform (terraform_zip_path v arch) d)
                    entries pz0.
Proof.
  revert pz0 w; induction entries as [|[platform arch] entries IH]; intros pz0 w; simpl.
  - intros [= <- <-]. now rewrite app_nil_r.
  - intros H. apply bind_ok_inv in H as (pz1 & w1 & Hstep & Hrest).
    unfold fetch_step in Hstep.
    apply bind_ok_inv in Hstep as (u & w0 & Hw & Hret).
    apply wget_ok in Hw. injection Hret as <- <-.
    apply IH in Hrest as [Htr ->]. split; [| reflexivity].
    rewrite Htr, Hw, <- app_assoc. reflexivity.
Qed.

Lemma fetch_archives_raise entries pz0 w e tr :
  fold_each entries (fetch_step env v) pz0 w = Raise e tr ->
  exists done url dest,
    tr = trace w ++ fetch_events v done ++ [Wget url dest false].
Proof.
  revert pz0 w; induction entries as [|[platform arch] entries IH]; intros pz0 w; simpl.
  - discriminate.
  - intros H. apply bind_raise_inv in H as [Hstep | (pz1 & w1 & Hstep & Hrest)];
      unfold fetch_step in Hstep.
    + apply bind_raise_inv in Hstep as [Hw | (u & w0 & _ & Hret)]; [| discriminate].
      apply wget_raise in Hw. exists [], (terraform_zip_url v arch), (terraform_zip_path v arch).
      exact Hw.
    + apply bind_ok_inv in Hstep as (u & w0 & Hw & Hret).
      apply wget_ok in Hw. injection Hret as <- <-.
      apply IH in Hrest as (done & url & dest & ->).
      exists ((platform, arch) :: done), url, dest.
      rewrite Hw, <- app_assoc. reflexivity.
Qed.

(** *** One assembly, and the assembly loop *)

Lemma three_phases {A B C} (m1 : M A) (m2 : M B) (rest : M C) ev1 ev2 :
  silent m1 ->
  (forall w, final_trace (m2 w) = trace w ++ [ev1]) ->
  ends_with_event ev2 rest ->
  forall w,
    match (m1 ;; m2 ;; rest)%prog w with
    | Ok _ w' => trace w' = trace w ++ [ev1; ev2]
    | Raise _ tr => tr = trace w \/ tr = trace w ++ [ev1]
    end.
Proof.
  intros H1 H2 H3 w. unfold bind. specialize (H1 w).
  destruct (m1 w) as [a w1|e tr]; simpl in H1; [| now left].
  specialize (H2 w1). destruct (m2 w1) as [b w2|e tr]; simpl in H2;
    [| right; congruence].
  specialize (H3 w2). destruct (rest w2) as [c w3|e tr].
  - rewrite H3, H2, H1, <- app_assoc. reflexivity.
  - right. congruence.
Qed.

Lemma assemble_trace metadata platform z w :
  match assemble env v metadata (platform, z) w with
  | Ok _ w' =>
      trace w' = trace w ++ [Unpack z (with_suffix_empty z);
                             WheelWritten platform (wheel_file v platform)]
  | Raise _ tr =>
      tr = trace w \/ tr = trace w ++ [Unpack z (with_suffix_empty z)]
  end.
Proof.
  unfold assemble. apply three_phases.
  - apply silent_mkdir_exist_ok.
  - apply unpack_archive_trace.
  - repeat (apply ends_bind;
            [ first [ solve [auto with silent_db]
                    | apply silent_fold_each; intros; auto with silent_db ]
            | intros ? ]).
    apply ends_emit.
Qed.

Lemma assemble_all_ok metadata pz w w' :
  for_each pz (assemble env v metadata) w = Ok tt w' ->
  trace w' = trace w ++ assemble_events v pz.
Proof.
  revert w; induction pz as [|[platform z] pz IH]; intros w; cbn [for_each].
  - intros [= <-]. now rewrite app_nil_r.
  - intros H. apply bind_ok_inv in H as ([] & w1 & Hone & Hrest).
    pose proof (assemble_trace metadata platform z w) as Ht.
    rewrite Hone in Ht. apply IH in Hrest.
    rewrite Hrest, Ht, <- app_assoc. reflexivity.
Qed.

Lemma assemble_all_raise metadata pz w e tr :
  for_each pz (assemble env v metadata) w = Raise e tr ->
  exists done last,
    tr = trace w ++ assemble_events v done ++ last
    /\ (last = [] \/ exists z d, last = [Unpack z d]).
Proof.
  revert w; induction pz as [|[platform z] pz IH]; intros w; cbn [for_each].
  - discriminate.
  - intros H. pose proof (assemble_trace metadata platform z w) as Ht.
    apply bind_raise_inv in H as [Hone | ([] & w1 & Hone & Hrest)];
      rewrite Hone in Ht.
    + exists []. destruct Ht as [-> | ->].
      * exists []. rewrite app_nil_r. auto.
      * exists [Unpack z (with_suffix_empty z)]. eauto.
    + apply IH in Hrest as (done & last & -> & Hlast).
      exists ((platform, z) :: done), last. split; [| exact Hlast].
      rewrite Ht, <- !app_assoc. reflexivity.
Qed.

End run_trace.

(** ** The monitor and what its acceptance means *)

Section monitor_facts.

Variable v : Semver.Version.

Lemma monitor_app s a b :
  monitor s (a ++ b)
  = match monitor s a with
    | Some s' => monitor s' b
    | None => None
    end.
Proof.
  revert s; induction a as [|ev a IH]; intros s; simpl; [reflexivity |].
  destruct (monitor_step s ev); [apply IH | reflexivity].
Qed.

Lemma monitor_fetch_events s entries :
  failed s = false -> monitor s (fetch_events v entries) = Some s.
Proof.
  intros Hf. induction entries as [|[p arch] entries IH]; simpl; [reflexivity |].
  unfold monitor_step. rewrite Hf. simpl.
  destruct s as [f sg ck]; simpl in *; subst f. exact IH.
Qed.

Lemma monitor_assemble_events s pz :
  failed s = false -> checked s = true ->
  monitor s (assemble_events v pz) = Some s.
Proof.
  intros Hf Hc. induction pz as [|[p z] pz IH]; simpl; [reflexivity |].
  unfold monitor_step. rewrite Hf, Hc. simpl. rewrite Hf. exact IH.
Qed.







End monitor_facts.

(** ** The events of a whole run *)

Section whole_run_trace.

Variable env : Env.
Variable v : Semver.Version.

Lemma platform_zip_computed :
  fold_left (fun d '(platform, arch) =>
               dict_set platform (terraform_zip_path v arch) d)
            PY_PLATFORM_TF_ARCH []
  = platform_zip_of v PY_PLATFORM_TF_ARCH.
Proof. reflexivity. Qed.


Lemma build_wheels_trace w :
  trace w = [] ->
  match build_wheels env v w with
  | Ok _ w' => trace w' = success_trace v
  | Raise _ tr => is_Some (monitor monitor_start tr)
  end.
Proof.
  intros Hw. unfold build_wheels.
  unfold bind at 1.
  destruct (read_text env README w) as [readme w1|e tr] eqn:E1.
  2: { apply silent_raise in E1; [| auto with silent_db].
       rewrite E1, Hw. simpl. eauto. }
  apply silent_ok in E1; [| auto with silent_db].
  unfold bind at 1.
  destruct (mkdir_exist_ok BUILD_DIR w1) as [[] w2|e tr] eqn:E2.
  2: { apply silent_raise in E2; [| auto with silent_db].
       rewrite E2, E1, Hw. simpl. eauto. }
  apply silent_ok in E2; [| auto with silent_db].
  unfold bind at 1.
  destruct (wget env (terraform_sha256_url v) (terraform_sha256 v) w2)
    as [[] w3|e tr] eqn:E3.
  2: { apply wget_raise in E3. rewrite E3, E2, E1, Hw. simpl. eauto. }
  apply wget_ok in E3. rewrite E2, E1, Hw in E3. simpl in E3.
  unfold bind at 1.
  destruct (wget env (terraform_sigs_url v) (terraform_sigs v) w3)
    as [[] w4|e tr] eqn:E4.
  2: { apply wget_raise in E4. rewrite E4, E3. simpl. eauto. }
  apply wget_ok in E4. rewrite E3 in E4. simpl in E4.
  unfold bind at 1.
  destruct (gpg env HASHICORP_GPG (terraform_sigs v) (terraform_sha256 v) w4)
    as [[] w5|e tr] eqn:E5.
  2: { apply gpg_raise in E5. rewrite E5, E4. simpl. eauto. }
  apply gpg_ok in E5. rewrite E4 in E5. simpl in E5.
  unfold bind at 1. unfold fetch_archives.
  destruct (fold_each PY_PLATFORM_TF_ARCH (fetch_step env v) [] w5)
    as [pz w6|e tr] eqn:E6.
  2: { apply fetch_archives_raise in E6 as (done & url & dest & ->).
       rewrite E5.
       change (monitor monitor_start
                 ([Wget (terraform_sha256_url v) (terraform_sha256 v) true;
                   Wget (terraform_sigs_url v) (terraform_sigs v) true;
                   Gpg HASHICORP_GPG (terraform_sigs v) (terraform_sha256 v) true]
                  ++ ?rest))
         with (monitor (mkMon false (Some (terraform_sha256 v)) false) rest).
       rewrite monitor_app, monitor_fetch_events by reflexivity.
       simpl. eauto. }
  apply fetch_archives_ok in E6 as [E6 ->]. rewrite platform_zip_computed.
  rewrite E5 in E6.
  unfold bind at 1.
  destruct (shasum env (terraform_sha256 v) w6) as [[] w7|e tr] eqn:E7.
  2: { apply shasum_raise in E7. rewrite E7, E6, <- app_assoc.
       change (monitor monitor_start
                 ([Wget (terraform_sha256_url v) (terraform_sha256 v) true;
                   Wget (terraform_sigs_url v) (terraform_sigs v) true;
                   Gpg HASHICORP_GPG (terraform_sigs v) (terraform_sha256 v) true]
                  ++ ?rest))
         with (monitor (mkMon false (Some (terraform_sha256 v)) false) rest).
       rewrite monitor_app, monitor_fetch_events by reflexivity.
       cbn [monitor monitor_step failed signed checked].
       rewrite bool_decide_eq_true_2 by reflexivity. eauto. }
  apply shasum_ok in E7. rewrite E6, <- app_assoc in E7.
  destruct (for_each (platform_zip_of v PY_PLATFORM_TF_ARCH)
              (assemble env v (PACKAGE_METADATA_MSG v readme)) w7)
    as [[] w8|e tr] eqn:E8.
  - apply assemble_all_ok in E8. rewrite E8, E7.
    unfold success_trace. now rewrite <- !app_assoc.
  - apply assemble_all_raise in E8 as (done & last & -> & Hlast).
    rewrite E7, <- !app_assoc.
    change (monitor monitor_start
              ([Wget (terraform_sha256_url v) (terraform_sha256 v) true;
                Wget (terraform_sigs_url v) (terraform_sigs v) true;
                Gpg HASHICORP_GPG (terraform_sigs v) (terraform_sha256 v) true]
               ++ ?rest))
      with (monitor (mkMon false (Some (terraform_sha256 v)) false) rest).
    rewrite monitor_app, monitor_fetch_events by reflexivity.
    cbn [app monitor monitor_step failed signed checked].
    rewrite bool_decide_eq_true_2 by reflexivity. cbn [negb orb].
    rewrite monitor_app, monitor_assemble_events by reflexivity.
    destruct Hlast as [-> | (z & d & ->)]; simpl; eauto.
Qed.





End whole_run_trace.

Lemma main_trace (env : Env) (fs0 : gmap path node) :
  match main env (mkWorld fs0 []) with
  | Ok _ w' =>
      exists v, Semver.parse (GIT_TAG (env_git_tag env)) = Some v
                /\ trace w' = success_trace v
  | Raise _ tr => is_Some (monitor monitor_start tr)
  end.
Proof.
  unfold main. destruct (Semver.parse _) as [v|] eqn:Hp.
  - pose proof (build_wheels_trace env v (mkWorld fs0 []) eq_refl) as H.
    destruct (build_wheels env v _); [eauto | exact H].
  - simpl. eauto.
Qed.


(** ** File-system steps *)

Section fs_steps.
Variable env : Env.

Lemma node_at_cons f (p : path) : p <> [] -> node_at f p = f !! p.
Proof. destruct p; [congruence | reflexivity]. Qed.

Lemma write_bytes_ok p c w a w' :
  write_bytes env p c w = Ok a w' ->
  trace w' = trace w /\ p <> []
  /\ exists m, fs w' = <[p := File c m]> (fs w)
            /\ (fs w !! p = None -> m = default_mode env).
Proof.
  unfold write_bytes, bind, get_fs, put_fs, fail, fs_write.
  destruct p as [|x p]; [discriminate |]. cbn [node_at].
  destruct (fs w !! (x :: p)) as [[c0 m0|]|] eqn:Hl; try discriminate.
  - intros [= _ <-]. simpl. repeat split; [congruence |]. eauto with congruence.
  - destruct (is_dir _ _); [| discriminate]. intros [= _ <-]. simpl.
    repeat split; [congruence |]. eauto.
Qed.

Lemma mkdir_exist_ok_ok p w a w' :
  mkdir_exist_ok p w = Ok a w' ->
  trace w' = trace w
  /\ (p <> [] -> fs w' = <[p := Dir]> (fs w))
  /\ (forall q, q <> p -> fs w' !! q = fs w !! q).
Proof.
  unfold mkdir_exist_ok, bind, get_fs, put_fs, fail, ret.
  destruct p as [|x p].
  - simpl. intros [= _ <-]. repeat split; congruence.
  - cbn [node_at]. destruct (fs w !! (x :: p)) as [[c0 m0|]|] eqn:Hl; try discriminate.
    + intros [= _ <-]. repeat split. intros _. now rewrite insert_id.
    + destruct (is_dir _ _); [| discriminate]. intros [= _ <-].
      repeat split. intros q Hq. simpl. now rewrite lookup_insert_ne.
Qed.

Lemma chmod_ok p mode w a w' :
  chmod p mode w = Ok a w' ->
  trace w' = trace w
  /\ ((exists c m0, node_at (fs w) p = Some (File c m0)
                    /\ fs w' = <[p := File c mode]> (fs w))
      \/ (node_at (fs w) p = Some Dir /\ fs w' = fs w)).
Proof.
  unfold chmod, bind, get_fs, put_fs, fail, ret.
  destruct (node_at (fs w) p) as [[c0 m0|]|] eqn:Hl; try discriminate.
  - intros [= _ <-]. split; [reflexivity |]. left. eauto.
  - intros [= _ <-]. split; [reflexivity |]. now right.
Qed.

Lemma copy_ok src dst w a w' :
  copy env src dst w = Ok a w' ->
  trace w' = trace w
  /\ exists c m,
       node_at (fs w) src = Some (File c m)
       /\ fs w' = <[(if is_dir (fs w) dst then dst ++ [basename src] else dst)
                    := File c m]> (fs w).
Proof.
  unfold copy. unfold bind at 1. unfold get_fs at 1.
  set (target := if is_dir (fs w) dst then dst ++ [basename src] else dst).
  destruct (node_at (fs w) src) as [[c m|]|] eqn:Hs; try discriminate.
  destruct (bool_decide (src = target)); [discriminate |].
  intros H. apply bind_ok_inv in H as ([] & w1 & Hw & Hc).
  apply write_bytes_ok in Hw as (Ht1 & Hne & m1 & Hf1 & _).
  apply chmod_ok in Hc as (Ht2 & [(c2 & m2 & Hn & Hf2) | (Hn & _)]).
  - split; [congruence |]. exists c, m. split; [reflexivity |].
    rewrite node_at_cons, Hf1, lookup_insert_eq in Hn by exact Hne.
    injection Hn as <- <-. rewrite Hf2, Hf1. apply insert_insert_eq.
  - rewrite node_at_cons, Hf1, lookup_insert_eq in Hn by exact Hne. discriminate.
Qed.
End fs_steps.
Section fs_frames.
Variable env : Env.

Lemma prefix_of_app_cases (q d c : path) :
  q `prefix_of` d ++ c -> q `prefix_of` d \/ d `prefix_of` q.
Proof.
  intros [k Hk]. apply app_eq_app in Hk as [l [[-> _] | [-> _]]].
  - left. now exists l.
  - right. now exists l.
Qed.

Lemma removelast_prefix (p : path) : removelast p `prefix_of` p.
Proof.
  destruct p as [|x p] using rev_ind; [reflexivity |].
  rewrite removelast_last. now exists [x].
Qed.

Lemma for_each_mkdir_frame (ps : list path) w a w' :
  for_each ps mkdir_exist_ok w = Ok a w' ->
  forall q, ~ In q ps -> fs w' !! q = fs w !! q.
Proof.
  revert w; induction ps as [|p ps IH]; intros w; cbn [for_each].
  - now intros [= _ <-].
  - intros H q Hq. apply bind_ok_inv in H as ([] & w1 & H1 & H2).
    rewrite (IH _ H2 q) by (intros ?; apply Hq; now right).
    apply mkdir_exist_ok_ok in H1 as (_ & _ & H1).
    apply H1. intros ->. apply Hq. now left.
Qed.

Lemma makedirs_frame (p : path) w a w' :
  makedirs p w = Ok a w' ->
  forall q, ~ q `prefix_of` p -> fs w' !! q = fs w !! q.
Proof.
  unfold makedirs. intros H q Hq. apply (for_each_mkdir_frame _ _ _ _ H).
  intros Hin. apply in_map_iff in Hin as (n & <- & _).
  apply Hq, prefix_take.
Qed.

Lemma extract_member_frame (d : path) (m : member) w a w' :
  extract_member env d m w = Ok a w' ->
  forall q, ~ d `prefix_of` q -> ~ q `prefix_of` d -> fs w' !! q = fs w !! q.
Proof.
  unfold extract_member. destruct (_ || _); [now intros [= _ <-] |].
  intros H q Hdq Hqd. apply bind_ok_inv in H as ([] & w1 & Hmk & Hrest).
  assert (Hw1 : fs w1 !! q = fs w !! q).
  { apply (makedirs_frame _ _ _ _ Hmk). intros Hp.
    apply prefix_of_app_cases in Hp as [? | ?]; auto. }
  destruct (is_dir_name _); [injection Hrest as Hrest; subst w'; exact Hw1 |].
  destruct (String.eqb _ _); [discriminate |].
  apply write_bytes_ok in Hrest as (_ & _ & m0 & -> & _).
  rewrite lookup_insert_ne; [exact Hw1 |].
  intros <-. apply Hdq. now exists (name_components (m_name m)).
Qed.

(** Steps that only read. *)
Lemma read_bytes_ok p w c w' :
  read_bytes p w = Ok c w' -> w' = w /\ file_content (fs w) p = Some c.
Proof.
  unfold read_bytes, bind, get_fs, ret, fail.
  destruct (file_content _ _); [| discriminate]. now intros [= <- <-].
Qed.

Lemma path_exists_ok p w b w' :
  path_exists p w = Ok b w' ->
  w' = w /\ b = bool_decide (is_Some (node_at (fs w) p)).
Proof. unfold path_exists, bind, get_fs, ret. now intros [= <- <-]. Qed.

Lemma glob_files_ok root w files w' :
  glob_files root w = Ok files w' ->
  w' = w /\ files = List.filter (is_file (fs w)) (glob_all (fs w) root).
Proof. unfold glob_files, bind, get_fs, ret. now intros [= <- <-]. Qed.

Lemma unpack_archive_frame (z d : path) w a w' :
  unpack_archive env z d w = Ok a w' ->
  forall q, ~ d `prefix_of` q -> ~ q `prefix_of` d -> fs w' !! q = fs w !! q.
Proof.
  unfold unpack_archive. intros H q Hdq Hqd.
  apply bind_ok_inv in H as ([] & w1 & He & H). injection He as <-.
  apply bind_ok_inv in H as (c & w2 & Hr & H).
  apply read_bytes_ok in Hr as [-> _].
  destruct (unzip env c) as [members|]; [| discriminate].
  change (fs w) with (fs (mkWorld (fs w) (trace w ++ [Unpack z d]))).
  generalize dependent (mkWorld (fs w) (trace w ++ [Unpack z d])).
  induction members as [|m members IH]; intros w0 H; cbn [for_each] in H.
  - injection H as H. now subst w0.
  - apply bind_ok_inv in H as ([] & w1 & H1 & H2).
    rewrite (IH _ H2). eapply extract_member_frame; eauto.
Qed.

End fs_frames.

Section glob_facts.

Lemma in_map_to_list_keys (f : gmap path node) (q : path) :
  In q (map fst (map_to_list f)) <-> is_Some (f !! q).
Proof.
  rewrite in_map_iff. split.
  - intros ([k n] & <- & Hin). apply list_elem_of_In, elem_of_map_to_list in Hin.
    simpl. eauto.
  - intros [n Hn]. exists (q, n). split; [reflexivity |].
    now apply list_elem_of_In, elem_of_map_to_list.
Qed.

Lemma tree_files_elem (f : gmap path node) (root q : path) :
  In q (tree_files f root)
  <-> is_file f q = true /\ root `prefix_of` q /\ q <> root
      /\ forallb (is_dir f) (dirs_between root q) = true.
Proof.
  unfold tree_files, glob_all. rewrite !filter_In, in_map_to_list_keys.
  rewrite !andb_true_iff, !bool_decide_eq_true. split.
  - intros ((_ & (? & ?) & ?) & ?). auto.
  - intros (Hf & Hp & Hne & Hd). repeat split; auto.
    unfold is_file in Hf. destruct q as [|x q].
    + destruct Hne. symmetry. now apply prefix_nil_inv.
    + simpl in Hf. destruct (f !! (x :: q)); [eauto | discriminate].
Qed.

Lemma tree_files_NoDup (f : gmap path node) (root : path) :
  List.NoDup (tree_files f root).
Proof.
  unfold tree_files, glob_all. do 2 apply List.NoDup_filter.
  apply NoDup_ListNoDup, NoDup_fst_map_to_list.
Qed.

(** Two file systems that agree below [root] have the same tree. *)
Lemma tree_files_agree (f g : gmap path node) (root q : path) :
  root <> [] ->
  (forall r, root `prefix_of` r -> g !! r = f !! r) ->
  In q (tree_files f root) -> In q (tree_files g root).
Proof.
  intros Hroot Hag. rewrite !tree_files_elem.
  intros (Hf & Hp & Hne & Hd). repeat split; auto.
  - destruct q as [|x q]; [exact Hf |]. unfold is_file in *. simpl in *.
    now rewrite (Hag _ Hp).
  - rewrite forallb_forall in *. intros r Hr. specialize (Hd r Hr).
    unfold dirs_between in Hr. apply in_map_iff in Hr as (n & <- & Hn).
    apply in_seq in Hn.
    assert (Hpre : root `prefix_of` take n q).
    { destruct Hp as [k ->]. rewrite take_app_ge by lia.
      now exists (take (n - length root) k). }
    unfold is_dir in *. destruct (take n q) as [|y t] eqn:Ht; [exact Hd |].
    simpl in *. now rewrite (Hag _ Hpre).
Qed.

End glob_facts.

Section loops.

Variable env : Env.

Lemma dict_set_fresh {V} (k : string) (x : V) (d : list (string * V)) :
  ~ In k (map fst d) -> dict_set k x d = d ++ [(k, x)].
Proof.
  induction d as [|[k' x'] d IH]; simpl; intros Hk; [reflexivity |].
  destruct (String.eqb_spec k' k) as [->|_]; [tauto |].
  rewrite IH; tauto.
Qed.

Lemma fold_dict_set {A V} (key : A -> string) (val : A -> V) (xs : list A)
    (d0 : list (string * V)) :
  List.NoDup (map key xs) ->
  (forall x, In x xs -> ~ In (key x) (map fst d0)) ->
  fold_left (fun d x => dict_set (key x) (val x) d) xs d0
  = d0 ++ map (fun x => (key x, val x)) xs.
Proof.
  revert d0; induction xs as [|x xs IH]; intros d0 Hnd Hd0; simpl.
  - now rewrite app_nil_r.
  - inversion Hnd as [|? ? Hx Hnd']; subst.
    rewrite dict_set_fresh by (apply Hd0; now left).
    rewrite IH; [now rewrite <- app_assoc | exact Hnd' |].
    intros y Hy. rewrite map_app, in_app_iff. simpl.
    intros [Hin | [Heq | []]].
    + apply (Hd0 y); [now right | exact Hin].
    + apply Hx. rewrite Heq. now apply in_map.
Qed.

Lemma record_steps_ok root files entries0 w entries w' :
  fold_each files (record_step root) entries0 w = Ok entries w' ->
  w' = w
  /\ entries
     = fold_left (fun d q => dict_set (fst (record_entry (fs w) root q))
                                      (snd (record_entry (fs w) root q)) d)
                 files entries0.
Proof.
  revert entries0; induction files as [|q files IH]; intros entries0;
    cbn [fold_each fold_left].
  - now intros [= <- <-].
  - intros H. apply bind_ok_inv in H as (e1 & w1 & Hstep & Hrest).
    unfold record_step in Hstep.
    apply bind_ok_inv in Hstep as (c & w0 & Hr & Hret).
    apply read_bytes_ok in Hr as [-> Hc]. injection Hret as <- <-.
    apply IH in Hrest as [-> ->]. split; [reflexivity |].
    unfold record_entry at 3 4. simpl. now rewrite Hc.
Qed.

Lemma zip_steps_ok root files members0 w members w' :
  fold_each files (zip_step root) members0 w = Ok members w' ->
  w' = w /\ members = members0 ++ map (member_of (fs w) root) files.
Proof.
  revert members0; induction files as [|q files IH]; intros members0;
    cbn [fold_each map].
  - intros [= <- <-]. now rewrite app_nil_r.
  - intros H. apply bind_ok_inv in H as (e1 & w1 & Hstep & Hrest).
    unfold zip_step in Hstep.
    apply bind_ok_inv in Hstep as (c & w0 & Hr & Hret).
    apply read_bytes_ok in Hr as [-> Hc].
    unfold bind, get_fs, ret in Hret. injection Hret as <- <-.
    apply IH in Hrest as [-> ->]. split; [reflexivity |].
    rewrite <- app_assoc. unfold member_of at 2. now rewrite Hc.
Qed.

End loops.

(** ** The layout of an assembled tree *)

Section layout_facts.

Variable root : path.
Hypothesis root_nonempty : root <> [].

Lemma prefix_nonempty (q : path) : root `prefix_of` q -> q <> [].
Proof. intros [k ->]. destruct root; [congruence | discriminate]. Qed.

Lemma layout_fresh (f : gmap path node) :
  (forall q, f !! (root ++ q) = None) -> tree_layout f root [] [].
Proof.
  intros Hf. split; [| split].
  - intros d [].
  - intros q [].
  - intros q [k ->] _ _. apply Hf.
Qed.

Lemma layout_agree (f g : gmap path node) dirs files :
  (forall q, root `prefix_of` q -> g !! q = f !! q) ->
  tree_layout f root dirs files -> tree_layout g root dirs files.
Proof.
  intros Hag (Hd & Hf & Hn). repeat split.
  - now apply Hd.
  - rewrite Hag; [now apply Hd | now apply Hd].
  - now apply Hf.
  - rewrite Hag; [now apply Hf | now apply Hf].
  - intros q Hq ? ?. rewrite Hag by exact Hq. now apply Hn.
Qed.

Lemma layout_mkdir (f : gmap path node) dirs files p :
  root `prefix_of` p -> ~ In p files ->
  tree_layout f root dirs files ->
  tree_layout (<[p := Dir]> f) root (p :: dirs) files.
Proof.
  intros Hp Hpf (Hd & Hf & Hn). repeat split.
  - destruct H as [<- | H]; [exact Hp | now apply Hd].
  - destruct H as [<- | H]; [apply lookup_insert_eq |].
    destruct (decide (p = d)) as [<- | Hne]; [apply lookup_insert_eq |].
    rewrite lookup_insert_ne by exact Hne. now apply Hd.
  - now apply Hf.
  - rewrite lookup_insert_ne by (intros ->; contradiction). now apply Hf.
  - intros q Hq Hqd Hqf. rewrite lookup_insert_ne; [apply Hn; auto |].
    + intros Hin. apply Hqd. now right.
    + intros ->. apply Hqd. now left.
Qed.

Lemma layout_write (f : gmap path node) dirs files p c m :
  root `prefix_of` p -> ~ In p dirs ->
  tree_layout f root dirs files ->
  tree_layout (<[p := File c m]> f) root dirs (p :: files).
Proof.
  intros Hp Hpd (Hd & Hf & Hn). repeat split.
  - now apply Hd.
  - rewrite lookup_insert_ne by (intros ->; contradiction). now apply Hd.
  - destruct H as [<- | H]; [exact Hp | now apply Hf].
  - destruct H as [<- | H]; [rewrite lookup_insert_eq; eauto |].
    destruct (decide (p = q)) as [<- | Hne]; [rewrite lookup_insert_eq; eauto |].
    rewrite lookup_insert_ne by exact Hne. now apply Hf.
  - intros q Hq Hqd Hqf. rewrite lookup_insert_ne; [apply Hn; auto |].
    + intros Hin. apply Hqf. now right.
    + intros ->. apply Hqf. now left.
Qed.

Lemma layout_rewrite (f : gmap path node) dirs files p c m :
  In p files -> ~ In p dirs ->
  tree_layout f root dirs files ->
  tree_layout (<[p := File c m]> f) root dirs files.
Proof.
  intros Hpf Hpd (Hd & Hf & Hn). repeat split.
  - now apply Hd.
  - rewrite lookup_insert_ne by (intros ->; contradiction). now apply Hd.
  - now apply Hf.
  - destruct (decide (p = q)) as [<- | Hne]; [rewrite lookup_insert_eq; eauto |].
    rewrite lookup_insert_ne by exact Hne. now apply Hf.
  - intros q Hq Hqd Hqf. rewrite lookup_insert_ne; [apply Hn; auto |].
    intros ->. contradiction.
Qed.

Lemma layout_outside (f : gmap path node) dirs files p x :
  ~ root `prefix_of` p ->
  tree_layout f root dirs files ->
  tree_layout (<[p := x]> f) root dirs files.
Proof.
  intros Hp. apply layout_agree. intros q Hq.
  apply lookup_insert_ne. intros ->. contradiction.
Qed.

(** The walk finds exactly the listed files when the directories on
    the way to each of them are listed. *)
Lemma layout_tree_files (f : gmap path node) dirs files :
  tree_layout f root dirs files ->
  (forall q, In q files ->
     q <> root /\ forall d, In d (dirs_between root q) -> In d dirs) ->
  forall q, In q (tree_files f root) <-> In q files.
Proof.
  intros (Hd & Hf & Hn) Hway q. rewrite tree_files_elem. split.
  - intros (Hfile & Hp & Hne & _).
    pose proof (prefix_nonempty _ Hp) as Hq.
    unfold is_file in Hfile. rewrite node_at_cons in Hfile by exact Hq.
    destruct (decide (q ∈ files)) as [Hqf | Hqf];
      rewrite list_elem_of_In in Hqf; [assumption |].
    destruct (decide (q ∈ dirs)) as [Hqd | Hqd]; rewrite list_elem_of_In in Hqd.
    + apply Hd in Hqd as [_ Hqd]. now rewrite Hqd in Hfile.
    + now rewrite (Hn q Hp Hqd Hqf) in Hfile.
  - intros Hin. destruct (Hf q Hin) as (Hp & c & m & Hl).
    destruct (Hway q Hin) as [Hne Hdirs].
    pose proof (prefix_nonempty _ Hp) as Hq.
    repeat split; auto.
    + unfold is_file. rewrite node_at_cons by exact Hq. now rewrite Hl.
    + apply forallb_forall. intros d Hdin. apply Hdirs, Hd in Hdin as [Hpd Hdl].
      unfold is_dir. rewrite node_at_cons by (now apply prefix_nonempty).
      now rewrite Hdl.
Qed.

End layout_facts.

Section names.
Variable v : Semver.Version.
Variable platform : string.

Lemma append_eq_self (s t : string) : s +:+ t = s -> t = "".
Proof. induction s as [|c s IH]; simpl; [auto | intros [= H]; auto]. Qed.

Lemma wheel_files_names name :
  map (relative_to (wheel_tree v platform)) (wheel_files v platform name)
  = entry_names v name.
Proof.
  unfold wheel_files, payload_files, entry_names, binary_path, license_path,
    package_metadata, wheel_metadata, wheel_record, wheel_info, wheel_scripts,
    wheel_data, wheel_tree, relative_to, BUILD_DIR.
  cbn [app map length drop Py.join skipn].
  rewrite !append_assoc. reflexivity.
Qed.

Lemma entry_names_NoDup name : List.NoDup (entry_names v name).
Proof.
  unfold entry_names.
  repeat (constructor;
          [ cbn [In]; intros H;
            repeat (destruct H as [H | H];
                    [apply append_inv_head in H; discriminate H |]);
            exact H
          | ]).
  constructor.
Qed.

Lemma wheel_file_path :
  wheel_file v platform = ["build"; wheel_name v platform +:+ ".whl"].
Proof. reflexivity. Qed.

End names.

(** ** One platform iteration on a fresh tree *)

Ltac is_prefix := eexists; reflexivity.

Section assemble_post.
Variable env : Env.
Variable v : Semver.Version.


Lemma file_content_insert_ne (f : gmap path node) p x q :
  p <> q -> file_content (<[p := x]> f) q = file_content f q.
Proof.
  intros Hne. unfold file_content. destruct q as [|y q]; [reflexivity |].
  cbn [node_at]. now rewrite lookup_insert_ne.
Qed.

Lemma file_mode_insert_ne (f : gmap path node) p x q :
  p <> q -> file_mode (<[p := x]> f) q = file_mode f q.
Proof.
  intros Hne. unfold file_mode. destruct q as [|y q]; [reflexivity |].
  cbn [node_at]. now rewrite lookup_insert_ne.
Qed.

Lemma file_content_insert_eq (f : gmap path node) p c m :
  p <> [] -> file_content (<[p := File c m]> f) p = Some c.
Proof.
  intros Hne. unfold file_content. rewrite node_at_cons by exact Hne.
  now rewrite lookup_insert_eq.
Qed.

Lemma file_mode_insert_eq (f : gmap path node) p c m :
  p <> [] -> file_mode (<[p := File c m]> f) p = Some m.
Proof.
  intros Hne. unfold file_mode. rewrite node_at_cons by exact Hne.
  now rewrite lookup_insert_eq.
Qed.

Lemma record_entry_insert_ne (f : gmap path node) root p x q :
  p <> q -> record_entry (<[p := x]> f) root q = record_entry f root q.
Proof. intros Hne. unfold record_entry. now rewrite file_content_insert_ne. Qed.

Lemma member_of_insert_ne (f : gmap path node) root p x q :
  p <> q -> member_of (<[p := x]> f) root q = member_of f root q.
Proof.
  intros Hne. unfold member_of.
  now rewrite file_content_insert_ne, file_mode_insert_ne.
Qed.

Ltac not_in := cbn [In]; intuition congruence.

Lemma assemble_fresh metadata platform z stem w w' :
  (forall q, fs w !! (wheel_tree v platform ++ q) = None) ->
  with_suffix_empty z = BUILD_DIR ++ [stem] ->
  stem <> wheel_name v platform ->
  assemble env v metadata (platform, z) w = Ok tt w' ->
  wheel_assembled env v platform (fs w').
Proof.
  intros Hfresh Hd Hstem Hrun. unfold assemble in Hrun. rewrite Hd in Hrun.
  apply bind_ok_inv in Hrun as ([] & w1 & H1 & Hrun).
  apply bind_ok_inv in Hrun as ([] & w2 & H2 & Hrun).
  apply bind_ok_inv in Hrun as ([] & w3 & H3 & Hrun).
  apply bind_ok_inv in Hrun as ([] & w4 & H4 & Hrun).
  apply bind_ok_inv in Hrun as ([] & w5 & H5 & Hrun).
  apply bind_ok_inv in Hrun as (found & w6 & H6 & Hrun).
  apply bind_ok_inv in Hrun as ([] & w7 & H7 & Hrun).
  apply bind_ok_inv in Hrun as ([] & w8 & H8 & Hrun).
  apply bind_ok_inv in Hrun as ([] & w9 & H9 & Hrun).
  apply bind_ok_inv in Hrun as ([] & w10 & H10 & Hrun).
  apply bind_ok_inv in Hrun as ([] & w11 & H11 & Hrun).
  apply bind_ok_inv in Hrun as (files4 & w12 & H12 & Hrun).
  apply bind_ok_inv in Hrun as (entries & w13 & H13 & Hrun).
  apply bind_ok_inv in Hrun as ([] & w14 & H14 & Hrun).
  apply bind_ok_inv in Hrun as ([] & w15 & H15 & Hrun).
  apply bind_ok_inv in Hrun as (files5 & w16 & H16 & Hrun).
  apply bind_ok_inv in Hrun as (members & w17 & H17 & Hrun).
  apply bind_ok_inv in Hrun as ([] & w18 & H18 & Hrun).
  injection Hrun as <-. cbn [fs].
  (* the name of the binary *)
  set (name := if found then "terraform" else "terraform.exe").
  assert (Hname : name = "terraform" \/ name = "terraform.exe")
    by (destruct found; auto).
  assert (Hbin : wheel_scripts v platform ++
                 [basename (if found
                            then (BUILD_DIR ++ [stem]) ++ ["terraform"]
                            else (BUILD_DIR ++ [stem]) ++ ["terraform.exe"])]
                 = binary_path v platform name)
    by (destruct found; reflexivity).
  rewrite Hbin in H7, H8. clear Hbin.
  (* facts about names *)
  pose proof (wheel_files_names v platform name) as Hnames.
  pose proof (entry_names_NoDup v name) as Hnodup.
  rewrite <- Hnames in Hnodup.
  assert (Hdi : PACKAGE_WHEELNAME v +:+ ".data" <> PACKAGE_WHEELNAME v +:+ ".dist-info")
    by (intros H%append_inv_head; discriminate).
  assert (Hwhl : wheel_name v platform +:+ ".whl" <> wheel_name v platform)
    by (intros H%append_eq_self; discriminate).
  unfold wheel_assembled, wheel_files, payload_files, binary_path, license_path,
    wheel_file, path_plus, wheel_record, wheel_metadata, package_metadata,
    wheel_info, wheel_scripts, wheel_data, wheel_tree, BUILD_DIR in *.
  cbn [app parent basename removelast List.last] in *.
  set (wn := wheel_name v platform) in *.
  set (dn := PACKAGE_WHEELNAME v +:+ ".data") in *.
  set (inf := PACKAGE_WHEELNAME v +:+ ".dist-info") in *.
  assert (HT : ["build"; wn] <> []) by discriminate.
  (* the tree, step by step *)
  apply mkdir_exist_ok_ok in H1 as (_ & H1 & _). specialize (H1 HT).
  assert (L1 : tree_layout (fs w1) ["build"; wn] [["build"; wn]] []).
  { rewrite H1. apply layout_mkdir; [exists []; reflexivity | not_in |].
    apply layout_fresh. exact Hfresh. }
  assert (L2 : tree_layout (fs w2) ["build"; wn] [["build"; wn]] []).
  { eapply layout_agree; [| exact L1]. intros q [k ->].
    eapply unpack_archive_frame; [exact H2 | |]; intros [k' Hk'];
      cbn [app] in Hk'; congruence. }
  apply mkdir_exist_ok_ok in H3 as (_ & H3 & _). specialize (H3 ltac:(discriminate)).
  apply mkdir_exist_ok_ok in H4 as (_ & H4 & _). specialize (H4 ltac:(discriminate)).
  apply mkdir_exist_ok_ok in H5 as (_ & H5 & _). specialize (H5 ltac:(discriminate)).
  assert (L5 : tree_layout (fs w5) ["build"; wn]
                 [["build"; wn; inf]; ["build"; wn; dn; "scripts"];
                  ["build"; wn; dn]; ["build"; wn]] []).
  { rewrite H5, H4, H3.
    repeat (apply layout_mkdir; [is_prefix | not_in |]). exact L2. }
  apply path_exists_ok in H6 as [-> _].
  (* the binary *)
  apply copy_ok in H7 as (_ & cb & mb & _ & H7).
  assert (Hnodir : is_dir (fs w5) ["build"; wn; dn; "scripts"; name] = false).
  { unfold is_dir. cbn [node_at].
    destruct L5 as (_ & _ & L5). rewrite L5; [reflexivity | is_prefix | not_in | not_in]. }
  rewrite Hnodir in H7. clear Hnodir.
  apply chmod_ok in H8 as (_ & [(c8 & m8 & Hn8 & H8) | (Hn8 & _)]);
    rewrite H7 in Hn8; cbn [node_at] in Hn8; rewrite lookup_insert_eq in Hn8;
    [injection Hn8 as <- <- | discriminate].
  assert (L8 : tree_layout (fs w8) ["build"; wn]
                 [["build"; wn; inf]; ["build"; wn; dn; "scripts"];
                  ["build"; wn; dn]; ["build"; wn]]
                 [["build"; wn; dn; "scripts"; name]]).
  { rewrite H8, H7.
    apply layout_rewrite; [now left | not_in |].
    apply layout_write; [is_prefix | not_in | exact L5]. }
  (* the licence and the two metadata files *)
  apply copy_ok in H9 as (_ & cl & ml & _ & H9).
  assert (Hdir : is_dir (fs w8) ["build"; wn; inf] = true).
  { unfold is_dir. cbn [node_at]. destruct L8 as (L8 & _).
    destruct (L8 ["build"; wn; inf]) as [_ ->]; [now left | reflexivity]. }
  rewrite Hdir in H9. clear Hdir. cbn [app basename LICENSE List.last] in H9.
  unfold write_text in H10, H11, H14.
  apply write_bytes_ok in H10 as (_ & _ & m10 & H10 & _).
  apply write_bytes_ok in H11 as (_ & _ & m11 & H11 & _).
  assert (L11 : tree_layout (fs w11) ["build"; wn]
                  [["build"; wn; inf]; ["build"; wn; dn; "scripts"];
                   ["build"; wn; dn]; ["build"; wn]]
                  [["build"; wn; inf; "WHEEL"]; ["build"; wn; inf; "METADATA"];
                   ["build"; wn; inf; "LICENSE"];
                   ["build"; wn; dn; "scripts"; name]]).
  { rewrite H11, H10, H9.
    repeat (apply layout_write; [is_prefix | not_in |]). exact L8. }
  (* the first walk and the RECORD entries *)
  apply glob_files_ok in H12 as [-> H12]. fold (tree_files (fs w11) ["build"; wn]) in H12.
  assert (Hway : forall dirs q,
            (forall d, In d [["build"; wn; inf]; ["build"; wn; dn; "scripts"];
                             ["build"; wn; dn]; ["build"; wn]] -> In d dirs) ->
            In q [["build"; wn; inf; "RECORD"]; ["build"; wn; inf; "WHEEL"];
                  ["build"; wn; inf; "METADATA"]; ["build"; wn; inf; "LICENSE"];
                  ["build"; wn; dn; "scripts"; name]] ->
            q <> ["build"; wn]
            /\ forall d, In d (dirs_between ["build"; wn] q) -> In d dirs).
  { intros dirs q Hdirs Hq. cbn [In] in Hq.
    repeat (destruct Hq as [<- | Hq]; [split; [discriminate |] |]); [.. | destruct Hq].
    all: cbn; intros d Hin; apply Hdirs; cbn [In]; intuition congruence. }
  assert (Hfour : forall q, In q files4
            <-> In q [["build"; wn; dn; "scripts"; name]; ["build"; wn; inf; "LICENSE"];
                      ["build"; wn; inf; "METADATA"]; ["build"; wn; inf; "WHEEL"]]).
  { intros q. rewrite H12.
    rewrite (layout_tree_files _ HT _ _ _ L11).
    - cbn [In]. tauto.
    - intros q' Hq'. apply Hway; [auto | now right]. }
  assert (Hnd4 : List.NoDup [["build"; wn; dn; "scripts"; name];
                             ["build"; wn; inf; "LICENSE"];
                             ["build"; wn; inf; "METADATA"];
                             ["build"; wn; inf; "WHEEL"]]).
  { repeat (constructor; [not_in |]). constructor. }
  assert (Hperm4 : Permutation files4
            [["build"; wn; dn; "scripts"; name]; ["build"; wn; inf; "LICENSE"];
             ["build"; wn; inf; "METADATA"]; ["build"; wn; inf; "WHEEL"]]).
  { apply Permutation.NoDup_Permutation; [rewrite H12; apply tree_files_NoDup | exact Hnd4 | exact Hfour]. }
  apply record_steps_ok in H13 as [-> H13].
  assert (Hnd5 : List.NoDup
            (map (relative_to ["build"; wn])
                 (["build"; wn; inf; "RECORD"] :: files4))).
  { eapply Permutation_NoDup; [| exact Hnodup].
    apply Permutation_map.
    etransitivity;
      [symmetry;
       apply (Permutation_cons_append
                [["build"; wn; dn; "scripts"; name]; ["build"; wn; inf; "LICENSE"];
                 ["build"; wn; inf; "METADATA"]; ["build"; wn; inf; "WHEEL"]]
                ["build"; wn; inf; "RECORD"]) |].
    constructor. now symmetry. }
  cbn [map] in Hnd5. apply List.NoDup_cons_iff in Hnd5 as [Hrec Hnd4'].
  assert (Hentries : entries = map (record_entry (fs w11) ["build"; wn]) files4).
  { rewrite H13.
    rewrite (fold_dict_set (fun q => fst (record_entry (fs w11) ["build"; wn] q))
                           (fun q => snd (record_entry (fs w11) ["build"; wn] q)));
      [reflexivity | exact Hnd4' | intros ? _ []]. }
  clear H13.
  rewrite dict_set_fresh in H14
    by (rewrite Hentries, map_map; exact Hrec).
  (* RECORD, then the archive *)
  apply write_bytes_ok in H14 as (_ & _ & m14 & H14 & _).
  apply write_bytes_ok in H15 as (_ & _ & m15 & H15 & _).
  assert (Hout : ~ ["build"; wn] `prefix_of` ["build"; wn +:+ ".whl"]).
  { intros [k Hk]. cbn [app] in Hk. congruence. }
  assert (L15 : tree_layout (fs w15) ["build"; wn]
                  [["build"; wn; inf]; ["build"; wn; dn; "scripts"];
                   ["build"; wn; dn]; ["build"; wn]]
                  [["build"; wn; inf; "RECORD"];
                   ["build"; wn; inf; "WHEEL"]; ["build"; wn; inf; "METADATA"];
                   ["build"; wn; inf; "LICENSE"];
                   ["build"; wn; dn; "scripts"; name]]).
  { rewrite H15, H14. apply layout_outside; [exact Hout |].
    apply layout_write; [is_prefix | not_in | exact L11]. }
  apply glob_files_ok in H16 as [-> H16]. fold (tree_files (fs w15) ["build"; wn]) in H16.
  assert (Hfive : forall f, tree_layout f ["build"; wn]
                  [["build"; wn; inf]; ["build"; wn; dn; "scripts"];
                   ["build"; wn; dn]; ["build"; wn]]
                  [["build"; wn; inf; "RECORD"];
                   ["build"; wn; inf; "WHEEL"]; ["build"; wn; inf; "METADATA"];
                   ["build"; wn; inf; "LICENSE"];
                   ["build"; wn; dn; "scripts"; name]] ->
            forall q, In q (tree_files f ["build"; wn])
            <-> In q [["build"; wn; dn; "scripts"; name]; ["build"; wn; inf; "LICENSE"];
                      ["build"; wn; inf; "METADATA"]; ["build"; wn; inf; "WHEEL"];
                      ["build"; wn; inf; "RECORD"]]).
  { intros f Lf q. rewrite (layout_tree_files _ HT _ _ _ Lf).
    - cbn [In]. tauto.
    - intros q' Hq'. apply Hway; auto. }
  assert (Hperm5 : Permutation files5
            [["build"; wn; dn; "scripts"; name]; ["build"; wn; inf; "LICENSE"];
             ["build"; wn; inf; "METADATA"]; ["build"; wn; inf; "WHEEL"];
             ["build"; wn; inf; "RECORD"]]).
  { apply Permutation.NoDup_Permutation;
      [rewrite H16; apply tree_files_NoDup | | rewrite H16; apply Hfive, L15].
    repeat (constructor; [not_in |]). constructor. }
  apply zip_steps_ok in H17 as [-> H17]. cbn [app] in H17.
  apply write_bytes_ok in H18 as (_ & _ & m18 & H18 & _).
  (* the final state *)
  assert (Hno4 : forall q, In q files4 ->
            ["build"; wn; inf; "RECORD"] <> q /\ ["build"; wn +:+ ".whl"] <> q).
  { intros q Hq. apply Hfour in Hq. cbn [In] in Hq. intuition (subst; congruence). }
  assert (Hno5 : forall q, In q files5 -> ["build"; wn +:+ ".whl"] <> q).
  { intros q Hq. rewrite H16 in Hq. apply (Hfive _ L15) in Hq. cbn [In] in Hq.
    intuition (subst; congruence). }
  exists name, files4, files5.
  split; [exact Hname |]. split; [exact Hperm4 |]. split; [exact Hperm5 |].
  split; [| split; [| split]].
  - apply Hfive. rewrite H18. apply layout_outside; [exact Hout | exact L15].
  - rewrite H18, file_content_insert_ne by congruence.
    rewrite H15, file_content_insert_ne by congruence.
    rewrite H14, file_content_insert_eq by discriminate.
    rewrite Hentries. do 5 f_equal. apply map_ext_in. intros q Hq.
    destruct (Hno4 q Hq) as [Hr Hf].
    now rewrite !record_entry_insert_ne by assumption.
  - rewrite H18, file_content_insert_eq by discriminate.
    rewrite H17. do 2 f_equal. apply map_ext_in. intros q Hq.
    now rewrite member_of_insert_ne by (apply Hno5; exact Hq).
  - rewrite H18, H15, H14, H11, H10, H9, H8.
    rewrite !file_mode_insert_ne by congruence.
    apply file_mode_insert_eq. discriminate.
Qed.
End assemble_post.

(** ** Names in the build directory *)

Section path_names.

Variable v : Semver.Version.

Lemma split_snoc (c : ascii) (a b : string) :
  Py.any_char (fun x => Ascii.eqb x c) b = false ->
  exists f fs, Py.split c (a +:+ String c b) = f :: fs ++ [b].
Proof.
  intros Hb.
  assert (Hsb : Py.split c b = [b]).
  { clear a. induction b as [|x b IH]; [reflexivity |]. simpl in *.
    apply orb_false_iff in Hb as [Hx Hb]. rewrite Hx, (IH Hb). reflexivity. }
  induction a as [|x a (f & fs & IH)]; simpl.
  - rewrite Ascii.eqb_refl, Hsb. now exists "", [].
  - rewrite IH. destruct (Ascii.eqb x c).
    + now exists "", (f :: fs).
    + now exists (String x f), fs.
Qed.

Lemma url_basename_app (a b : string) :
  Py.any_char (fun x => Ascii.eqb x "/") b = false ->
  url_basename (a +:+ String "/" b) = b.
Proof.
  intros Hb. unfold url_basename.
  destruct (split_snoc "/" a b Hb) as (f & fs & ->).
  change (f :: fs ++ [b]) with ((f :: fs) ++ [b]). apply last_last.
Qed.

Lemma string_of_uint_no_slash (d : Decimal.uint) :
  Py.any_char (fun x => Ascii.eqb x "/") (NilEmpty.string_of_uint d) = false.
Proof. induction d; simpl; auto. Qed.

Lemma str_of_N_no_slash (n : N) :
  Py.any_char (fun x => Ascii.eqb x "/") (Py.str_of_N n) = false.
Proof.
  unfold Py.str_of_N, NilZero.string_of_uint.
  destruct (N.to_uint n) eqn:E; try reflexivity;
    rewrite <- E; apply string_of_uint_no_slash.
Qed.

Lemma version_no_slash :
  Py.any_char (fun x => Ascii.eqb x "/") (TERRAFORM_VERSION v) = false.
Proof.
  unfold TERRAFORM_VERSION, Semver.to_string, Semver.finalize_version.
  cbn [Semver.major Semver.minor Semver.patch Semver.prerelease Semver.build
       Semver.nonempty].
  rewrite !any_char_app, !str_of_N_no_slash. reflexivity.
Qed.

(** A decimal rendering starts with a digit. *)
Lemma str_of_N_head (n : N) :
  exists d r, Py.str_of_N n = String d r /\ Semver.is_digit d = true.
Proof.
  unfold Py.str_of_N, NilZero.string_of_uint.
  destruct (N.to_uint n); simpl; eauto.
Qed.

Lemma version_head :
  exists d r, TERRAFORM_VERSION v = String d r /\ Semver.is_digit d = true.
Proof.
  unfold TERRAFORM_VERSION, Semver.to_string, Semver.finalize_version.
  cbn [Semver.major Semver.minor Semver.patch Semver.prerelease Semver.build
       Semver.nonempty].
  destruct (str_of_N_head (Semver.major v)) as (d & r & -> & Hd).
  simpl. eauto.
Qed.

Lemma rsplit_dot_zip (x : string) : rsplit_dot (x +:+ ".zip") = Some (x, "zip").
Proof. induction x as [|c x IH]; simpl; [reflexivity | now rewrite IH]. Qed.

Lemma name_without_suffix_zip (x : string) :
  x <> "" -> name_without_suffix (x +:+ ".zip") = x.
Proof.
  intros Hx. unfold name_without_suffix. rewrite rsplit_dot_zip.
  destruct x; [congruence | reflexivity].
Qed.

Lemma wheel_name_app (platform : string) :
  wheel_name v platform = (PACKAGE_WHEELNAME v +:+ "-py2.py3-none-") +:+ platform.
Proof. unfold wheel_name. cbn [Py.join]. rewrite append_assoc. reflexivity. Qed.

Lemma wheel_name_inj (p p' : string) :
  wheel_name v p = wheel_name v p' -> p = p'.
Proof. rewrite !wheel_name_app. apply append_inv_head. Qed.

Lemma wheel_name_whl (p p' : string) :
  wheel_name v p +:+ ".whl" = wheel_name v p' -> p +:+ ".whl" = p'.
Proof. rewrite !wheel_name_app, append_assoc. apply append_inv_head. Qed.

Lemma length_append (a b : string) :
  String.length (a +:+ b) = String.length a + String.length b.
Proof. induction a as [|x a IH]; simpl; [reflexivity | now rewrite IH]. Qed.

Lemma append_inv_tail (a b t : string) : a +:+ t = b +:+ t -> a = b.
Proof.
  revert b; induction a as [|x a IH]; intros [|y b]; simpl; intros H.
  - reflexivity.
  - apply (f_equal String.length) in H. simpl in H.
    rewrite length_append in H. lia.
  - apply (f_equal String.length) in H. simpl in H.
    rewrite length_append in H. lia.
  - injection H as -> H. f_equal. now apply IH.
Qed.

Lemma wheel_name_head (platform : string) :
  exists r, wheel_name v platform = "terraform_b" +:+ r.
Proof.
  unfold wheel_name, PACKAGE_WHEELNAME. cbn [Py.join].
  replace (normalize_str PACKAGE_NAME) with "terraform_binary_wheel" by reflexivity.
  eexists. rewrite !append_assoc. simpl. reflexivity.
Qed.

Lemma upstream_not_wheel (s platform : string) :
  upstream_name v s ->
  s <> wheel_name v platform /\ s <> wheel_name v platform +:+ ".whl".
Proof.
  intros [t ->]. destruct version_head as (d & r & -> & Hd).
  destruct (wheel_name_head platform) as (r' & ->).
  split; simpl; intros [= -> _]; discriminate.
Qed.

Lemma zip_stem_upstream arch : upstream_name v (zip_stem v arch).
Proof. now exists ("_" +:+ arch). Qed.

Lemma zip_name_upstream arch : upstream_name v (zip_stem v arch +:+ ".zip").
Proof.
  exists ("_" +:+ arch +:+ ".zip"). unfold zip_stem.
  now rewrite !append_assoc.
Qed.

Lemma terraform_zip_path_eq arch :
  no_slash arch = true ->
  terraform_zip_path v arch = ["build"; zip_stem v arch +:+ ".zip"].
Proof.
  intros Ha. unfold terraform_zip_path, terraform_zip_url, TERRAFORM_URL, BUILD_DIR.
  cbn [app]. do 2 f_equal.
  replace (RELEASES +:+ TERRAFORM_VERSION v +:+ "/terraform_" +:+
           TERRAFORM_VERSION v +:+ "_" +:+ arch +:+ ".zip")
    with ((RELEASES +:+ TERRAFORM_VERSION v) +:+
          String "/" (zip_stem v arch +:+ ".zip")).
  - apply url_basename_app. unfold zip_stem.
    apply negb_true_iff in Ha.
    rewrite !any_char_app, version_no_slash, Ha. reflexivity.
  - unfold zip_stem. rewrite !append_assoc. reflexivity.
Qed.

Lemma terraform_src_eq arch :
  no_slash arch = true ->
  with_suffix_empty (terraform_zip_path v arch) = ["build"; zip_stem v arch].
Proof.
  intros Ha. rewrite terraform_zip_path_eq by exact Ha.
  unfold with_suffix_empty. cbn [parent removelast basename List.last app].
  now rewrite name_without_suffix_zip.
Qed.

Lemma terraform_sha256_eq :
  terraform_sha256 v = ["build"; "terraform_" +:+ TERRAFORM_VERSION v +:+ "_SHA256SUMS"].
Proof.
  unfold terraform_sha256, terraform_sha256_url, TERRAFORM_SHA256_URL, BUILD_DIR.
  cbn [app]. do 2 f_equal.
  replace (RELEASES +:+ TERRAFORM_VERSION v +:+ "/terraform_" +:+
           TERRAFORM_VERSION v +:+ "_SHA256SUMS")
    with ((RELEASES +:+ TERRAFORM_VERSION v) +:+
          String "/" ("terraform_" +:+ TERRAFORM_VERSION v +:+ "_SHA256SUMS")).
  - apply url_basename_app.
    rewrite !any_char_app, version_no_slash. reflexivity.
  - rewrite !append_assoc. reflexivity.
Qed.

Lemma terraform_sigs_eq :
  terraform_sigs v
  = ["build"; "terraform_" +:+ TERRAFORM_VERSION v +:+ "_SHA256SUMS.sig"].
Proof.
  unfold terraform_sigs, terraform_sigs_url, TERRAFORM_SIGS_URL, BUILD_DIR.
  cbn [app]. do 2 f_equal.
  replace (RELEASES +:+ TERRAFORM_VERSION v +:+ "/terraform_" +:+
           TERRAFORM_VERSION v +:+ "_SHA256SUMS.sig")
    with ((RELEASES +:+ TERRAFORM_VERSION v) +:+
          String "/" ("terraform_" +:+ TERRAFORM_VERSION v +:+ "_SHA256SUMS.sig")).
  - apply url_basename_app.
    rewrite !any_char_app, version_no_slash. reflexivity.
  - rewrite !append_assoc. reflexivity.
Qed.

End path_names.

Section assemble_frames.
Variable env : Env.
Variable v : Semver.Version.

Lemma wget_fs url dest w a w' :
  wget env url dest w = Ok a w' ->
  exists body m,
    wget_fetch env (trace w) url = Some body
    /\ fs w' = <[dest := File body m]> (fs w).
Proof.
  unfold wget, bind, history, get_fs, put_fs, emit, fail, fs_write.
  destruct (wget_fetch env (trace w) url) as [body|]; [| discriminate].
  destruct (node_at (fs w) dest) as [[c0 m0|]|]; try discriminate.
  - intros [= _ <-]. simpl. eauto.
  - destruct (is_dir _ _); [| discriminate]. intros [= _ <-]. simpl. eauto.
Qed.

Lemma gpg_fs k s m w a w' : gpg env k s m w = Ok a w' -> fs w' = fs w.
Proof.
  unfold gpg, bind, get_fs, emit, fail, ret.
  destruct (gpg_verify _ _ _ _); [| discriminate]. now intros [= _ <-].
Qed.

Lemma shasum_fs m w a w' : shasum env m w = Ok a w' -> fs w' = fs w.
Proof.
  unfold shasum, bind, get_fs, emit, fail, ret.
  destruct (shasum_check _ _ _); [| discriminate]. now intros [= _ <-].
Qed.

(** An iteration touches its own tree, its wheel, and the directory it
    unpacks into (with the ancestors of that directory). *)
Lemma assemble_frame metadata platform z w w' :
  assemble env v metadata (platform, z) w = Ok tt w' ->
  forall q,
    ~ wheel_tree v platform `prefix_of` q ->
    q <> wheel_file v platform ->
    ~ with_suffix_empty z `prefix_of` q ->
    ~ q `prefix_of` with_suffix_empty z ->
    fs w' !! q = fs w !! q.
Proof.
  intros Hrun q HT HF Hd1 Hd2. unfold assemble in Hrun.
  apply bind_ok_inv in Hrun as ([] & w1 & H1 & Hrun).
  apply bind_ok_inv in Hrun as ([] & w2 & H2 & Hrun).
  apply bind_ok_inv in Hrun as ([] & w3 & H3 & Hrun).
  apply bind_ok_inv in Hrun as ([] & w4 & H4 & Hrun).
  apply bind_ok_inv in Hrun as ([] & w5 & H5 & Hrun).
  apply bind_ok_inv in Hrun as (found & w6 & H6 & Hrun).
  apply bind_ok_inv in Hrun as ([] & w7 & H7 & Hrun).
  apply bind_ok_inv in Hrun as ([] & w8 & H8 & Hrun).
  apply bind_ok_inv in Hrun as ([] & w9 & H9 & Hrun).
  apply bind_ok_inv in Hrun as ([] & w10 & H10 & Hrun).
  apply bind_ok_inv in Hrun as ([] & w11 & H11 & Hrun).
  apply bind_ok_inv in Hrun as (files4 & w12 & H12 & Hrun).
  apply bind_ok_inv in Hrun as (entries & w13 & H13 & Hrun).
  apply bind_ok_inv in Hrun as ([] & w14 & H14 & Hrun).
  apply bind_ok_inv in Hrun as ([] & w15 & H15 & Hrun).
  apply bind_ok_inv in Hrun as (files5 & w16 & H16 & Hrun).
  apply bind_ok_inv in Hrun as (members & w17 & H17 & Hrun).
  apply bind_ok_inv in Hrun as ([] & w18 & H18 & Hrun).
  injection Hrun as <-. cbn [fs].
  assert (Hin : forall k, wheel_tree v platform `prefix_of` k -> k <> q)
    by (intros k Hk ->; contradiction).
  apply mkdir_exist_ok_ok in H1 as (_ & _ & H1).
  pose proof (unpack_archive_frame _ _ _ _ _ _ H2 q Hd1 Hd2) as H2'.
  apply mkdir_exist_ok_ok in H3 as (_ & _ & H3).
  apply mkdir_exist_ok_ok in H4 as (_ & _ & H4).
  apply mkdir_exist_ok_ok in H5 as (_ & _ & H5).
  apply path_exists_ok in H6 as [-> _].
  apply copy_ok in H7 as (_ & cb & mb & _ & H7).
  apply chmod_ok in H8 as (_ & H8).
  apply copy_ok in H9 as (_ & cl & ml & _ & H9).
  unfold write_text in *.
  apply write_bytes_ok in H10 as (_ & _ & m10 & H10 & _).
  apply write_bytes_ok in H11 as (_ & _ & m11 & H11 & _).
  apply glob_files_ok in H12 as [-> _].
  apply record_steps_ok in H13 as [-> _].
  apply write_bytes_ok in H14 as (_ & _ & m14 & H14 & _).
  apply write_bytes_ok in H15 as (_ & _ & m15 & H15 & _).
  apply glob_files_ok in H16 as [-> _].
  apply zip_steps_ok in H17 as [-> _].
  apply write_bytes_ok in H18 as (_ & _ & m18 & H18 & _).
  rewrite H18, lookup_insert_ne by congruence.
  rewrite H15, lookup_insert_ne by congruence.
  rewrite H14, lookup_insert_ne
    by (apply Hin; unfold wheel_record, wheel_info; rewrite <- app_assoc; is_prefix).
  rewrite H11, lookup_insert_ne
    by (apply Hin; unfold wheel_metadata, wheel_info; rewrite <- app_assoc; is_prefix).
  rewrite H10, lookup_insert_ne
    by (apply Hin; unfold package_metadata, wheel_info; rewrite <- app_assoc; is_prefix).
  rewrite H9, lookup_insert_ne
    by (apply Hin; match goal with |- context [if ?b then _ else _] => destruct b end;
        unfold wheel_info;
        rewrite <- ?app_assoc; is_prefix).
  assert (H8' : fs w8 !! q = fs w7 !! q).
  { destruct H8 as [(c & m0 & _ & ->) | [_ ->]]; [| reflexivity].
    apply lookup_insert_ne, Hin.
    unfold wheel_scripts, wheel_data. rewrite <- !app_assoc. is_prefix. }
  rewrite H8', H7, lookup_insert_ne
    by (apply Hin;
        match goal with |- context [if ?b then _ else _] => destruct b end;
        unfold wheel_scripts, wheel_data;
        rewrite <- !app_assoc; is_prefix).
  rewrite H5 by (apply not_eq_sym, Hin; unfold wheel_info; is_prefix).
  rewrite H4 by (apply not_eq_sym, Hin; unfold wheel_scripts, wheel_data;
                 rewrite <- !app_assoc; is_prefix).
  rewrite H3 by (apply not_eq_sym, Hin; unfold wheel_data; is_prefix).
  rewrite H2'.
  apply H1, not_eq_sym, Hin. exists []. now rewrite app_nil_r.
Qed.

End assemble_frames.

(** ** The whole assembly loop *)

Section whole_run_fs.
Variable env : Env.
Variable v : Semver.Version.

Lemma file_content_agree (f g : gmap path node) (q : path) :
  q <> [] -> g !! q = f !! q -> file_content g q = file_content f q.
Proof. intros Hq H. unfold file_content. now rewrite !node_at_cons, H. Qed.

Lemma file_mode_agree (f g : gmap path node) (q : path) :
  q <> [] -> g !! q = f !! q -> file_mode g q = file_mode f q.
Proof. intros Hq H. unfold file_mode. now rewrite !node_at_cons, H. Qed.

Lemma wheel_tree_path (platform : string) :
  wheel_tree v platform = ["build"; wheel_name v platform].
Proof. reflexivity. Qed.

Lemma wheel_files_below (platform name : string) (q : path) :
  In q (wheel_files v platform name) -> wheel_tree v platform `prefix_of` q.
Proof.
  unfold wheel_files, payload_files, binary_path, license_path, package_metadata,
    wheel_metadata, wheel_record, wheel_info, wheel_scripts, wheel_data.
  cbn [app In]. intros H.
  repeat (destruct H as [<- | H]; [rewrite <- ?app_assoc; is_prefix |]).
  destruct H.
Qed.

(** The description of a finished wheel only looks below the tree and
    at the wheel file. *)
Lemma wheel_assembled_agree (platform : string) (f g : gmap path node) :
  (forall q, wheel_tree v platform `prefix_of` q -> g !! q = f !! q) ->
  g !! wheel_file v platform = f !! wheel_file v platform ->
  wheel_assembled env v platform f -> wheel_assembled env v platform g.
Proof.
  intros Hag HagF (name & o4 & o5 & Hname & Hp4 & Hp5 & Htree & Hrec & Hzip & Hmode).
  assert (HT : wheel_tree v platform <> []) by discriminate.
  assert (Hne : forall q, wheel_tree v platform `prefix_of` q -> q <> [])
    by (intros q Hq; eapply prefix_nonempty; eauto).
  assert (H5 : forall q, In q o5 -> wheel_tree v platform `prefix_of` q).
  { intros q Hq. eapply wheel_files_below, Permutation_in; eauto. }
  assert (H4 : forall q, In q o4 -> wheel_tree v platform `prefix_of` q).
  { intros q Hq. apply (wheel_files_below platform name).
    unfold wheel_files. apply in_or_app. left. eapply Permutation_in; eauto. }
  exists name, o4, o5. repeat (split; [assumption |]).
  split; [| split; [| split]].
  - intros q. rewrite <- Htree. split; apply tree_files_agree; auto.
    intros r Hr. symmetry. now apply Hag.
  - rewrite (file_content_agree f g); [| discriminate | apply Hag].
    + rewrite Hrec. do 5 f_equal. apply map_ext_in. intros q Hq.
      unfold record_entry. rewrite (file_content_agree f g); auto.
    + unfold wheel_record, wheel_info. rewrite <- app_assoc. is_prefix.
  - rewrite (file_content_agree f g); [| discriminate | exact HagF].
    rewrite Hzip. do 2 f_equal. apply map_ext_in. intros q Hq.
    unfold member_of.
    rewrite (file_content_agree f g), (file_mode_agree f g); auto.
  - rewrite (file_mode_agree f g); [exact Hmode | |].
    + unfold binary_path, wheel_scripts, wheel_data, wheel_tree, BUILD_DIR.
      discriminate.
    + apply Hag. unfold binary_path, wheel_scripts, wheel_data.
      rewrite <- !app_assoc. is_prefix.
Qed.

End whole_run_fs.
Section assembly_loop.
Variable env : Env.
Variable v : Semver.Version.

Lemma prefix2_inv (b x y : string) (q : path) :
  [b; x] `prefix_of` b :: y :: q -> x = y.
Proof. intros [k H]. cbn [app] in H. congruence. Qed.

Lemma prefix2_inv' (b x y : string) (q : path) :
  b :: y :: q `prefix_of` [b; x] -> x = y.
Proof. intros [k H]. cbn [app] in H. congruence. Qed.

Lemma src_unrelated_tree (a p : string) (q : path) :
  ~ ["build"; zip_stem v a] `prefix_of` wheel_tree v p ++ q
  /\ ~ wheel_tree v p ++ q `prefix_of` ["build"; zip_stem v a].
Proof.
  destruct (upstream_not_wheel v _ p (zip_stem_upstream v a)) as [H _].
  split; [intros Hp%prefix2_inv | intros Hp%prefix2_inv']; exact (H Hp).
Qed.

Lemma src_unrelated_file (a p : string) :
  ~ ["build"; zip_stem v a] `prefix_of` wheel_file v p
  /\ ~ wheel_file v p `prefix_of` ["build"; zip_stem v a].
Proof.
  destruct (upstream_not_wheel v _ p (zip_stem_upstream v a)) as [_ H].
  split; [intros Hp%prefix2_inv | intros Hp%prefix2_inv']; exact (H Hp).
Qed.

Lemma tree_prefix_tree (p p' : string) (q : path) :
  wheel_tree v p `prefix_of` wheel_tree v p' ++ q -> p = p'.
Proof. intros H%prefix2_inv. now apply wheel_name_inj in H. Qed.

Lemma tree_prefix_file (p p' : string) :
  wheel_tree v p `prefix_of` wheel_file v p' -> p' +:+ ".whl" = p.
Proof. intros H%prefix2_inv. symmetry in H. now apply wheel_name_whl in H. Qed.

Lemma tree_path_is_file (p p' : string) (q : path) :
  wheel_tree v p ++ q = wheel_file v p' -> p' +:+ ".whl" = p.
Proof.
  intros H. apply tree_prefix_file. rewrite <- H. now exists q.
Qed.

Lemma wheel_file_inj (p p' : string) :
  wheel_file v p = wheel_file v p' -> p = p'.
Proof.
  intros H.
  assert (E : wheel_name v p +:+ ".whl" = wheel_name v p' +:+ ".whl")
    by (apply (prefix2_inv "build" _ _ []); rewrite <- (wheel_file_path v p'), <- H;
        exists []; reflexivity).
  apply append_inv_tail in E. now apply wheel_name_inj in E.
Qed.

Lemma assemble_all_frame metadata entries w w' :
  (forall p a, In (p, a) entries -> no_slash a = true) ->
  for_each (platform_zip_of v entries) (assemble env v metadata) w = Ok tt w' ->
  forall q,
    (forall p a, In (p, a) entries ->
       ~ wheel_tree v p `prefix_of` q /\ q <> wheel_file v p
       /\ ~ ["build"; zip_stem v a] `prefix_of` q
       /\ ~ q `prefix_of` ["build"; zip_stem v a]) ->
    fs w' !! q = fs w !! q.
Proof.
  revert w; induction entries as [|[p a] entries IH]; intros w Hns Hrun q Hq;
    cbn [platform_zip_of map for_each] in Hrun.
  - now injection Hrun as <-.
  - apply bind_ok_inv in Hrun as ([] & w1 & Hone & Hrest).
    rewrite (IH w1); [| intros; eapply Hns; right; eauto | exact Hrest
                      | intros; apply Hq; now right].
    destruct (Hq p a (or_introl eq_refl)) as (H1 & H2 & H3 & H4).
    apply (assemble_frame _ _ _ _ _ _ _ Hone); auto;
      rewrite terraform_src_eq; auto; apply (Hns p a); now left.
Qed.

Lemma assemble_all_fresh metadata entries w w' :
  List.NoDup (map fst entries) ->
  (forall p p', In p (map fst entries) -> In p' (map fst entries) ->
                p +:+ ".whl" <> p') ->
  (forall p a, In (p, a) entries -> no_slash a = true) ->
  (forall p q, In p (map fst entries) -> fs w !! (wheel_tree v p ++ q) = None) ->
  for_each (platform_zip_of v entries) (assemble env v metadata) w = Ok tt w' ->
  forall p, In p (map fst entries) -> wheel_assembled env v p (fs w').
Proof.
  revert w; induction entries as [|[p0 a0] entries IH];
    intros w Hnd Hwhl Hns Hfresh Hrun p Hp; [destruct Hp |].
  cbn [platform_zip_of map for_each] in Hrun. cbn [map fst] in *.
  apply bind_ok_inv in Hrun as ([] & w1 & Hone & Hrest).
  inversion Hnd as [|? ? Hp0 Hnd']; subst.
  assert (Ha0 : no_slash a0 = true) by (apply (Hns p0 a0); now left).
  assert (Hns' : forall p a, In (p, a) entries -> no_slash a = true)
    by (intros; eapply Hns; right; eauto).
  destruct Hp as [<- | Hp].
  - (* the wheel of this iteration survives the later ones *)
    assert (Hpost : wheel_assembled env v p0 (fs w1)).
    { eapply assemble_fresh; [| apply terraform_src_eq, Ha0 | | exact Hone].
      - intros q. apply Hfresh. now left.
      - apply (upstream_not_wheel v _ p0 (zip_stem_upstream v a0)). }
    eapply wheel_assembled_agree; [| | exact Hpost].
    + intros q [k ->]. apply (assemble_all_frame _ _ _ _ Hns' Hrest).
      intros p a Hin. assert (Hpin : In p (map fst entries))
        by (change p with (fst (p, a)); now apply in_map).
      repeat split.
      * intros H%tree_prefix_tree. congruence.
      * intros H%tree_path_is_file. apply (Hwhl p p0); cbn [In]; auto.
      * apply src_unrelated_tree.
      * apply src_unrelated_tree.
    + apply (assemble_all_frame _ _ _ _ Hns' Hrest).
      intros p a Hin. assert (Hpin : In p (map fst entries))
        by (change p with (fst (p, a)); now apply in_map).
      repeat split.
      * intros H%tree_prefix_file. apply (Hwhl p0 p); cbn [In]; auto.
      * intros H%wheel_file_inj. congruence.
      * apply src_unrelated_file.
      * apply src_unrelated_file.
  - (* a later iteration still starts from a fresh tree *)
    apply (IH w1); auto; [intros; apply Hwhl; cbn [In]; auto |].
    intros p' q Hp'.
    rewrite (assemble_frame _ _ _ _ _ _ _ Hone).
    + apply Hfresh. now right.
    + intros H%tree_prefix_tree. congruence.
    + intros H%tree_path_is_file. apply (Hwhl p0 p'); cbn [In]; auto.
    + rewrite terraform_src_eq by exact Ha0. apply src_unrelated_tree.
    + rewrite terraform_src_eq by exact Ha0. apply src_unrelated_tree.
Qed.

End assembly_loop.

(** ** The whole run on a fresh build directory *)

Section fresh_run.

Variable env : Env.
Variable v : Semver.Version.

Lemma fresh_build_trees f : fresh_build f -> trees_fresh v f.
Proof. intros H p q. apply H. Qed.

Lemma trees_fresh_download f s body m :
  upstream_name v s -> trees_fresh v f ->
  trees_fresh v (<[ ["build"; s] := File body m ]> f).
Proof.
  intros Hs Hf p q. rewrite lookup_insert_ne; [apply Hf |].
  rewrite wheel_tree_path. cbn [app]. intros [= H _].
  destruct (upstream_not_wheel v s p Hs) as [Hne _]. apply Hne. now rewrite H.
Qed.

Lemma fetch_archives_fresh entries pz0 w pz w' :
  (forall p a, In (p, a) entries -> no_slash a = true) ->
  trees_fresh v (fs w) ->
  fold_each entries (fetch_step env v) pz0 w = Ok pz w' ->
  trees_fresh v (fs w').
Proof.
  revert pz0 w; induction entries as [|[p a] entries IH]; intros pz0 w Hns Hf;
    cbn [fold_each].
  - now intros [= _ <-].
  - intros H. apply bind_ok_inv in H as (pz1 & w1 & Hstep & Hrest).
    unfold fetch_step in Hstep.
    apply bind_ok_inv in Hstep as (u & w0 & Hw & Hret).
    injection Hret as _ <-.
    apply wget_fs in Hw as (body & m & _ & Hw).
    apply (IH pz1 w0); [intros; eapply Hns; right; eauto | | exact Hrest].
    rewrite Hw, terraform_zip_path_eq by (apply (Hns p a); now left).
    apply trees_fresh_download; [apply zip_name_upstream | exact Hf].
Qed.

Lemma read_text_inv p w t w' :
  read_text env p w = Ok t w' ->
  w' = w /\ exists c, file_content (fs w) p = Some c /\ decode_text env c = Some t.
Proof.
  unfold read_text. intros H. apply bind_ok_inv in H as (c & w1 & Hr & Hret).
  apply read_bytes_ok in Hr as [-> Hc].
  destruct (decode_text env c) as [s|] eqn:Hd; [| discriminate].
  injection Hret as -> <-. split; [reflexivity |]. now exists c.
Qed.

Lemma read_text_ok p w t w' : read_text env p w = Ok t w' -> w' = w.
Proof. intros H. now apply read_text_inv in H as [-> _]. Qed.

Lemma table_platforms_NoDup : List.NoDup (map fst PY_PLATFORM_TF_ARCH).
Proof. apply NoDup_ListNoDup. apply (bool_decide_unpack _). vm_compute. reflexivity. Qed.

Lemma table_platforms_not_whl p p' :
  In p (map fst PY_PLATFORM_TF_ARCH) -> In p' (map fst PY_PLATFORM_TF_ARCH) ->
  p +:+ ".whl" <> p'.
Proof.
  assert (H : forallb (fun a => forallb (fun b => negb (String.eqb (a +:+ ".whl") b))
                                        (map fst PY_PLATFORM_TF_ARCH))
                      (map fst PY_PLATFORM_TF_ARCH) = true) by (vm_compute; reflexivity).
  rewrite forallb_forall in H. intros Hp Hp'.
  specialize (H p Hp). rewrite forallb_forall in H. specialize (H p' Hp').
  apply negb_true_iff in H. now apply String.eqb_neq.
Qed.

Lemma table_archs_no_slash p a : In (p, a) PY_PLATFORM_TF_ARCH -> no_slash a = true.
Proof.
  assert (H : forallb (fun e => no_slash (snd e)) PY_PLATFORM_TF_ARCH = true)
    by (vm_compute; reflexivity).
  rewrite forallb_forall in H. intros Hin. exact (H _ Hin).
Qed.

(** After a run from a fresh build directory every platform of the
    table has its assembled wheel. *)
Lemma build_wheels_assembled w w' :
  fresh_build (fs w) ->
  build_wheels env v w = Ok tt w' ->
  forall p, In p (map fst PY_PLATFORM_TF_ARCH) -> wheel_assembled env v p (fs w').
Proof.
  intros Hfresh Hrun. unfold build_wheels in Hrun.
  apply bind_ok_inv in Hrun as (readme & w1 & H1 & Hrun).
  apply read_text_ok in H1 as ->.
  apply bind_ok_inv in Hrun as ([] & w2 & H2 & Hrun).
  apply mkdir_exist_ok_ok in H2 as (_ & _ & H2).
  apply bind_ok_inv in Hrun as ([] & w3 & H3 & Hrun).
  apply wget_fs in H3 as (b3 & m3 & _ & H3).
  apply bind_ok_inv in Hrun as ([] & w4 & H4 & Hrun).
  apply wget_fs in H4 as (b4 & m4 & _ & H4).
  apply bind_ok_inv in Hrun as ([] & w5 & H5 & Hrun).
  apply gpg_fs in H5.
  apply bind_ok_inv in Hrun as (pz & w6 & H6 & Hrun).
  apply bind_ok_inv in Hrun as ([] & w7 & H7 & Hrun).
  apply shasum_fs in H7.
  assert (F2 : trees_fresh v (fs w2)).
  { intros p q. rewrite H2; [apply Hfresh | discriminate]. }
  assert (F3 : trees_fresh v (fs w3)).
  { rewrite H3, terraform_sha256_eq. apply trees_fresh_download; [| exact F2].
    now exists "_SHA256SUMS". }
  assert (F4 : trees_fresh v (fs w4)).
  { rewrite H4, terraform_sigs_eq. apply trees_fresh_download; [| exact F3].
    now exists "_SHA256SUMS.sig". }
  assert (F6 : trees_fresh v (fs w6)).
  { apply (fetch_archives_fresh _ _ _ _ _ table_archs_no_slash) in H6; [exact H6 |].
    now rewrite H5. }
  apply fetch_archives_ok in H6 as [_ ->]. rewrite platform_zip_computed in Hrun.
  eapply assemble_all_fresh; [apply table_platforms_NoDup | apply table_platforms_not_whl
                              | apply table_archs_no_slash | | exact Hrun].
  intros p q _. rewrite H7. apply F6.
Qed.

End fresh_run.

(** A run of the whole script from a fresh build directory. *)
Lemma main_assembled (env : Env) (fs0 : gmap path node) (w' : world) :
  fresh_build fs0 ->
  main env (mkWorld fs0 []) = Ok tt w' ->
  exists v,
    Semver.parse (GIT_TAG (env_git_tag env)) = Some v
    /\ forall p, In p (map fst PY_PLATFORM_TF_ARCH) -> wheel_assembled env v p (fs w').
Proof.
  intros Hfresh Hrun. unfold main in Hrun.
  destruct (Semver.parse _) as [v|]; [| discriminate].
  exists v. split; [reflexivity |].
  now apply (build_wheels_assembled env v (mkWorld fs0 [])).
Qed.

Section five_entries.

Variable env : Env.
Variable v : Semver.Version.
Variable platform : string.

Lemma wheel_files_NoDup name : List.NoDup (wheel_files v platform name).
Proof.
  apply (NoDup_map_inv (relative_to (wheel_tree v platform))).
  rewrite wheel_files_names. apply entry_names_NoDup.
Qed.

Lemma member_names (f : gmap path node) (order : list path) :
  map m_name (map (member_of f (wheel_tree v platform)) order)
  = map (relative_to (wheel_tree v platform)) order.
Proof. rewrite map_map. reflexivity. Qed.

Lemma record_own_line :
  record_line (relative_to (wheel_tree v platform) (wheel_record v platform), ("", ""))
  = PACKAGE_WHEELNAME v +:+ ".dist-info/RECORD,," +:+ Py.chr "010".
Proof.
  unfold record_line, wheel_record, wheel_info, wheel_tree, relative_to, BUILD_DIR.
  cbn [app length drop skipn Py.join]. rewrite !append_assoc. reflexivity.
Qed.

Lemma concat_snoc (ls : list string) (l : string) :
  String.concat "" (ls ++ [l]) = String.concat "" ls +:+ l.
Proof.
  induction ls as [|a [|b ls] IH].
  - reflexivity.
  - reflexivity.
  - change (String.concat "" ((a :: b :: ls) ++ [l]))
      with (a +:+ "" +:+ String.concat "" ((b :: ls) ++ [l])).
    rewrite IH. change (String.concat "" (a :: b :: ls))
      with (a +:+ "" +:+ String.concat "" (b :: ls)).
    now rewrite !append_assoc.
Qed.

Lemma record_entry_line (f : gmap path node) (root q : path) :
  record_line (record_entry f root q)
  = relative_to root q +:+ "," +:+ fst (rehash (default [] (file_content f q)))
    +:+ "," +:+ snd (rehash (default [] (file_content f q))) +:+ Py.chr "010".
Proof.
  unfold record_entry, record_line. destruct (rehash _) as [d l].
  cbn [Py.join fst snd]. rewrite !append_assoc. reflexivity.
Qed.

End five_entries.

(** C1: in a run from a fresh build directory that completes, for every
    platform of the table the written wheel archive has exactly five
    entries, named [<wheelname>.data/scripts/<binary>] and
    [<wheelname>.dist-info/LICENSE], [METADATA], [WHEEL] and [RECORD] (each
    once, each with the content and mode of its file in the tree); the files
    of the assembled tree are, without repetition, some files [listed] and
    RECORD; and the written RECORD consists of one [path,digest,length]
    line for each of [listed], followed by the single line
    [<wheelname>.dist-info/RECORD,,]. *)
Theorem wheel_archive_and_record_are_complete
    (env : Env) (fs0 : gmap path node) (w' : world) :
  fresh_build fs0 ->
  main env (mkWorld fs0 []) = Ok tt w' ->
  exists v,
    Semver.parse (GIT_TAG (env_git_tag env)) = Some v
    /\ forall platform, In platform (map fst PY_PLATFORM_TF_ARCH) ->
       exists name members listed,
         (name = "terraform" \/ name = "terraform.exe")
         /\ file_content (fs w') (wheel_file v platform) = Some (zip_encode env members)
         /\ length members = 5
         /\ Permutation (map m_name members) (entry_names v name)
         /\ Permutation members
              (map (member_of (fs w') (wheel_tree v platform))
                   (tree_files (fs w') (wheel_tree v platform)))
         /\ List.NoDup (tree_files (fs w') (wheel_tree v platform))
         /\ Permutation (tree_files (fs w') (wheel_tree v platform))
                        (listed ++ [wheel_record v platform])
         /\ file_content (fs w') (wheel_record v platform)
            = Some (str_encode
                      (String.concat ""
                         (map (fun q => relative_to (wheel_tree v platform) q +:+ ","
                                        +:+ fst (rehash (default [] (file_content (fs w') q)))
                                        +:+ ","
                                        +:+ snd (rehash (default [] (file_content (fs w') q)))
                                        +:+ Py.chr "010")
                              listed)
                       +:+ PACKAGE_WHEELNAME v +:+ ".dist-info/RECORD,," +:+ Py.chr "010")).
Proof.
  intros Hfresh Hrun.
  destruct (main_assembled env fs0 w' Hfresh Hrun) as (v & Hv & Hall).
  exists v. split; [exact Hv |]. intros platform Hp.
  destruct (Hall platform Hp)
    as (name & order4 & order5 & Hname & H4 & H5 & Htree & Hrec & Hzip & _).
  assert (Hfiles : Permutation (tree_files (fs w') (wheel_tree v platform))
                               (wheel_files v platform name)).
  { apply Permutation.NoDup_Permutation;
      [apply tree_files_NoDup | apply wheel_files_NoDup | exact Htree]. }
  exists name, (map (member_of (fs w') (wheel_tree v platform)) order5), order4.
  split; [exact Hname |]. split; [exact Hzip |].
  split; [rewrite length_map, (Permutation_length H5); reflexivity |].
  split; [rewrite member_names, <- (wheel_files_names v platform); now apply Permutation_map |].
  split; [apply Permutation_map; now rewrite H5, Hfiles |].
  split; [apply tree_files_NoDup |].
  split; [rewrite Hfiles; unfold wheel_files; now apply Permutation_app_tail, Permutation_sym |].
  rewrite Hrec. do 2 f_equal.
  rewrite map_app, map_map. cbn [map]. rewrite concat_snoc, record_own_line.
  f_equal. f_equal. apply map_ext. intros q. apply record_entry_line.
Qed.

Lemma sample_fs_fresh : fresh_build sample_fs.
Proof.
  intros x q. unfold sample_fs.
  rewrite !lookup_insert_ne by discriminate. apply lookup_empty.
Qed.

Lemma sample_run : main sample_env (mkWorld sample_fs []) = Ok tt sample_final.
Proof.
  unfold sample_final.
  assert (H : exit_status (main sample_env (mkWorld sample_fs [])) = 0%N)
    by (vm_compute; reflexivity).
  destruct (main sample_env (mkWorld sample_fs [])) as [[] w|e tr];
    [reflexivity | discriminate H].
Qed.

Lemma wheel_archive_and_record_are_complete_witness :
  exists v,
    Semver.parse (GIT_TAG (env_git_tag sample_env)) = Some v
    /\ forall platform, In platform (map fst PY_PLATFORM_TF_ARCH) ->
       exists name members listed,
         (name = "terraform" \/ name = "terraform.exe")
         /\ file_content (fs sample_final) (wheel_file v platform)
            = Some (zip_encode sample_env members)
         /\ length members = 5
         /\ Permutation (map m_name members) (entry_names v name)
         /\ Permutation members
              (map (member_of (fs sample_final) (wheel_tree v platform))
                   (tree_files (fs sample_final) (wheel_tree v platform)))
         /\ List.NoDup (tree_files (fs sample_final) (wheel_tree v platform))
         /\ Permutation (tree_files (fs sample_final) (wheel_tree v platform))
                        (listed ++ [wheel_record v platform])
         /\ file_content (fs sample_final) (wheel_record v platform)
            = Some (str_encode
                      (String.concat ""
                         (map (fun q => relative_to (wheel_tree v platform) q +:+ ","
                                        +:+ fst (rehash (default [] (file_content (fs sample_final) q)))
                                        +:+ ","
                                        +:+ snd (rehash (default [] (file_content (fs sample_final) q)))
                                        +:+ Py.chr "010")
                              listed)
                       +:+ PACKAGE_WHEELNAME v +:+ ".dist-info/RECORD,," +:+ Py.chr "010")).
Proof.
  apply (wheel_archive_and_record_are_complete sample_env sample_fs sample_final).
  - exact sample_fs_fresh.
  - exact sample_run.
Defined.

Section binary_mode.

Variable env : Env.

(** Lines 194-195 on their own: the copy, then [os.chmod(_, 493)]. *)
Lemma copy_then_chmod (src dst : path) (w w' : world) :
  is_dir (fs w) dst = false ->
  (copy env src dst ;; chmod dst 493%N) w = Ok tt w' ->
  file_mode (fs w') dst = Some 493%N.
Proof.
  intros Hd H. apply bind_ok_inv in H as ([] & w1 & Hc & Hm).
  apply copy_ok in Hc as (_ & c & m & _ & Hf1). rewrite Hd in Hf1.
  assert (Hne : dst <> []) by (intros ->; discriminate Hd).
  apply chmod_ok in Hm as (_ & [(c2 & m2 & _ & Hf2) | (Hn & _)]).
  - unfold file_mode. now rewrite node_at_cons, Hf2, lookup_insert_eq.
  - rewrite node_at_cons, Hf1, lookup_insert_eq in Hn by exact Hne. discriminate.
Qed.

Lemma assembled_binary_mode (v : Semver.Version) (platform : string)
    (f : gmap path node) :
  wheel_assembled env v platform f ->
  exists name,
    (name = "terraform" \/ name = "terraform.exe")
    /\ file_mode f (binary_path v platform name) = Some 493%N.
Proof. intros (name & _ & _ & Hname & _ & _ & _ & _ & _ & Hmode). eauto. Qed.

End binary_mode.

(** C8: the mode passed to [chmod] is octal 755, that is [rwxr-xr-x];
    copying a file to a path that is not a directory and then calling
    [chmod] with it leaves the copy with exactly these bits; an iteration
    that starts on a fresh tree and completes leaves the binary it copied
    into the scripts directory with them; and so does, for every platform
    of the table, a whole run from a fresh build directory. *)
Theorem binary_mode_is_755 (env : Env) (fs0 : gmap path node) (w' : world) :
  fresh_build fs0 ->
  main env (mkWorld fs0 []) = Ok tt w' ->
  (493 = 7 * 8 * 8 + 5 * 8 + 5)%N
  /\ perm_string 493 = "rwxr-xr-x"
  /\ (forall src dst w1 w2,
        is_dir (fs w1) dst = false ->
        (copy env src dst ;; chmod dst 493%N) w1 = Ok tt w2 ->
        file_mode (fs w2) dst = Some 493%N)
  /\ (forall v metadata platform arch w1 w2,
        no_slash arch = true ->
        (forall q, fs w1 !! (wheel_tree v platform ++ q) = None) ->
        assemble env v metadata (platform, terraform_zip_path v arch) w1 = Ok tt w2 ->
        exists name,
          (name = "terraform" \/ name = "terraform.exe")
          /\ file_mode (fs w2) (wheel_scripts v platform ++ [name]) = Some 493%N)
  /\ exists v,
       Semver.parse (GIT_TAG (env_git_tag env)) = Some v
       /\ forall platform, In platform (map fst PY_PLATFORM_TF_ARCH) ->
          exists name,
            (name = "terraform" \/ name = "terraform.exe")
            /\ file_mode (fs w') (wheel_scripts v platform ++ [name]) = Some 493%N.
Proof.
  intros Hfresh Hrun.
  split; [reflexivity |]. split; [reflexivity |].
  split; [apply copy_then_chmod |]. split.
  - intros v metadata platform arch w1 w2 Ha Hf Hone.
    apply (assembled_binary_mode env v platform).
    eapply assemble_fresh; [exact Hf | apply terraform_src_eq, Ha | | exact Hone].
    apply (upstream_not_wheel v _ platform (zip_stem_upstream v arch)).
  - destruct (main_assembled env fs0 w' Hfresh Hrun) as (v & Hv & Hall).
    exists v. split; [exact Hv |]. intros platform Hp.
    apply (assembled_binary_mode env v platform), Hall, Hp.
Qed.

Lemma binary_mode_is_755_witness :
  exists v,
    Semver.parse (GIT_TAG (env_git_tag sample_env)) = Some v
    /\ forall platform, In platform (map fst PY_PLATFORM_TF_ARCH) ->
       exists name,
         (name = "terraform" \/ name = "terraform.exe")
         /\ file_mode (fs sample_final) (wheel_scripts v platform ++ [name]) = Some 493%N.
Proof.
  apply (binary_mode_is_755 sample_env sample_fs sample_final).
  - exact sample_fs_fresh.
  - exact sample_run.
Defined.

(** ** Platforms that share an upstream architecture *)

Section shared_archive.

Variable env : Env.
Variable v : Semver.Version.

Lemma zip_stem_inj (a a' : string) : zip_stem v a = zip_stem v a' -> a = a'.
Proof.
  unfold zip_stem. intros H.
  now do 3 apply append_inv_head in H.
Qed.

Lemma zip_path_inj (a a' : string) :
  no_slash a = true -> no_slash a' = true ->
  terraform_zip_path v a = terraform_zip_path v a' -> a = a'.
Proof.
  intros Ha Ha'. rewrite !terraform_zip_path_eq by assumption.
  intros E. apply (f_equal (fun l => nth 1 l "")) in E. cbn [nth] in E.
  now apply append_inv_tail, zip_stem_inj in E.
Qed.

(** The fetch loop writes the archives and nothing else. *)
Lemma fetch_archives_frame entries pz0 w pz w' (q : path) :
  (forall p a, In (p, a) entries -> q <> terraform_zip_path v a) ->
  fold_each entries (fetch_step env v) pz0 w = Ok pz w' ->
  fs w' !! q = fs w !! q.
Proof.
  revert pz0 w; induction entries as [|[p a] entries IH]; intros pz0 w Hq;
    cbn [fold_each].
  - now intros [= _ <-].
  - intros H. apply bind_ok_inv in H as (pz1 & w1 & Hstep & Hrest).
    unfold fetch_step in Hstep.
    apply bind_ok_inv in Hstep as (u & w0 & Hw & Hret).
    injection Hret as _ <-.
    apply wget_fs in Hw as (body & m & _ & Hw).
    rewrite (IH pz1 w0); [| intros; eapply Hq; right; eauto | exact Hrest].
    rewrite Hw, lookup_insert_ne; [reflexivity |].
    intros E. apply (Hq p a); [now left | now rewrite E].
Qed.

(** Of the downloads of one architecture, the last one stays. *)
Lemma fetch_last_wins before p a after pz0 w pz w' :
  (forall p' a', In (p', a') after -> no_slash a' = true) ->
  no_slash a = true ->
  ~ In a (map snd after) ->
  fold_each (before ++ (p, a) :: after) (fetch_step env v) pz0 w = Ok pz w' ->
  file_content (fs w') (terraform_zip_path v a)
  = wget_fetch env (trace w ++ fetch_events v before) (terraform_zip_url v a).
Proof.
  intros Hns Ha Hlast.
  revert pz0 w; induction before as [|[p0 a0] before IH]; intros pz0 w;
    cbn [app fold_each]; intros H;
    apply bind_ok_inv in H as (pz1 & w1 & Hstep & Hrest);
    unfold fetch_step in Hstep;
    apply bind_ok_inv in Hstep as (u & w0 & Hw & Hret);
    injection Hret as _ <-.
  - cbn [fetch_events map]. rewrite app_nil_r.
    apply wget_fs in Hw as (body & m & -> & Hw).
    unfold file_content.
    rewrite node_at_cons by (rewrite terraform_zip_path_eq by exact Ha; discriminate).
    erewrite fetch_archives_frame; [| | exact Hrest].
    + now rewrite Hw, lookup_insert_eq.
    + intros p' a' Hin E. apply Hlast.
      apply zip_path_inj in E; [| exact Ha | exact (Hns _ _ Hin)].
      subst a'. change a with (snd (p', a)). now apply in_map.
  - apply wget_ok in Hw. rewrite (IH _ _ Hrest), Hw, <- app_assoc. reflexivity.
Qed.

End shared_archive.

Section shared_archive_run.

Variable env : Env.
Variable v : Semver.Version.

Lemma table_archs_not_zip p a p' a' :
  In (p, a) PY_PLATFORM_TF_ARCH -> In (p', a') PY_PLATFORM_TF_ARCH ->
  a' <> a +:+ ".zip".
Proof.
  assert (H : forallb (fun e => forallb (fun e' => negb (String.eqb (snd e') (snd e +:+ ".zip")))
                                        PY_PLATFORM_TF_ARCH)
                      PY_PLATFORM_TF_ARCH = true) by (vm_compute; reflexivity).
  rewrite forallb_forall in H. intros Hp Hp'.
  specialize (H _ Hp). rewrite forallb_forall in H. specialize (H _ Hp').
  apply negb_true_iff in H. now apply String.eqb_neq.
Qed.

(** The assembly loop leaves the downloaded archives as they are. *)
Lemma assemble_all_keeps_archive metadata p a w w' :
  In (p, a) PY_PLATFORM_TF_ARCH ->
  for_each (platform_zip_of v PY_PLATFORM_TF_ARCH) (assemble env v metadata) w = Ok tt w' ->
  fs w' !! terraform_zip_path v a = fs w !! terraform_zip_path v a.
Proof.
  intros Hin Hrun.
  apply (assemble_all_frame env v _ _ _ _ table_archs_no_slash Hrun).
  intros p' a' Hin'.
  rewrite terraform_zip_path_eq by exact (table_archs_no_slash _ _ Hin).
  destruct (upstream_not_wheel v _ p' (zip_name_upstream v a)) as [Hn Hw].
  assert (Hz : zip_stem v a' <> zip_stem v a +:+ ".zip").
  { unfold zip_stem. rewrite !append_assoc. intros E.
    do 3 apply append_inv_head in E.
    exact (table_archs_not_zip _ _ _ _ Hin Hin' E). }
  repeat split.
  - intros E%prefix2_inv. apply Hn. now rewrite E.
  - rewrite wheel_file_path. intros E.
    apply (f_equal (fun l => nth 1 l "")) in E. cbn [nth] in E. exact (Hw E).
  - intros E%prefix2_inv. apply Hz. now rewrite E.
  - intros E%prefix2_inv'. exact (Hz E).
Qed.

Lemma build_wheels_archive w w' before p a after :
  trace w = [] ->
  build_wheels env v w = Ok tt w' ->
  PY_PLATFORM_TF_ARCH = before ++ (p, a) :: after ->
  ~ In a (map snd after) ->
  file_content (fs w') (terraform_zip_path v a)
  = wget_fetch env
      ([Wget (terraform_sha256_url v) (terraform_sha256 v) true;
        Wget (terraform_sigs_url v) (terraform_sigs v) true;
        Gpg HASHICORP_GPG (terraform_sigs v) (terraform_sha256 v) true]
       ++ fetch_events v before)
      (terraform_zip_url v a).
Proof.
  intros Htr Hrun Htable Hlast. unfold build_wheels in Hrun.
  assert (Hin : In (p, a) PY_PLATFORM_TF_ARCH)
    by (rewrite Htable; apply in_elt).
  apply bind_ok_inv in Hrun as (readme & w1 & H1 & Hrun).
  apply read_text_ok in H1 as ->.
  apply bind_ok_inv in Hrun as ([] & w2 & H2 & Hrun).
  apply mkdir_exist_ok_ok in H2 as (T2 & _ & _).
  apply bind_ok_inv in Hrun as ([] & w3 & H3 & Hrun).
  apply wget_ok in H3.
  apply bind_ok_inv in Hrun as ([] & w4 & H4 & Hrun).
  apply wget_ok in H4.
  apply bind_ok_inv in Hrun as ([] & w5 & H5 & Hrun).
  apply gpg_ok in H5.
  apply bind_ok_inv in Hrun as (pz & w6 & H6 & Hrun).
  apply bind_ok_inv in Hrun as ([] & w7 & H7 & Hrun).
  apply shasum_fs in H7.
  pose proof H6 as H6'. apply fetch_archives_ok in H6' as [_ ->].
  rewrite platform_zip_computed in Hrun.
  unfold file_content.
  rewrite !node_at_cons
    by (rewrite terraform_zip_path_eq by exact (table_archs_no_slash _ _ Hin); discriminate).
  rewrite (assemble_all_keeps_archive _ _ _ _ _ Hin Hrun), H7.
  unfold fetch_archives in H6. rewrite Htable in H6.
  assert (Hns : forall p' a', In (p', a') after -> no_slash a' = true).
  { intros p' a' Hin'. apply (table_archs_no_slash p'). rewrite Htable.
    apply in_or_app. right. now right. }
  pose proof (fetch_last_wins env v before p a after _ _ _ _ Hns
                (table_archs_no_slash _ _ Hin) Hlast H6) as Hl.
  unfold file_content in Hl.
  rewrite node_at_cons in Hl
    by (rewrite terraform_zip_path_eq by exact (table_archs_no_slash _ _ Hin); discriminate).
  rewrite Hl, H5, H4, H3, T2, Htr. reflexivity.
Qed.

Lemma success_trace_lookup k p a :
  PY_PLATFORM_TF_ARCH !! k = Some (p, a) ->
  success_trace v !! (3 + k)
  = Some (Wget (terraform_zip_url v a) (terraform_zip_path v a) true)
  /\ success_trace v !! (12 + 2 * k)
     = Some (Unpack (terraform_zip_path v a) (with_suffix_empty (terraform_zip_path v a)))
  /\ success_trace v !! (13 + 2 * k) = Some (WheelWritten p (wheel_file v p)).
Proof.
  intros H.
  do 8 (destruct k as [|k]; [injection H as <- <-; repeat split; reflexivity |]).
  discriminate H.
Qed.

End shared_archive_run.

(** * Further properties of the script's functions *)

(** ** [read_chunks] *)

Section read_chunks_facts.

Variable size : N.
Hypothesis size_positive : (0 < size)%N.

Lemma file_read_take (n : N) (file : list byte) :
  file_read n file = (take (N.to_nat n) file, drop (N.to_nat n) file).
Proof.
  revert n; induction file as [|x r IH]; intros n; cbn [file_read].
  - now rewrite take_nil, drop_nil.
  - destruct (N.eqb_spec n 0) as [->|Hn]; [reflexivity |].
    rewrite IH. replace (N.to_nat n) with (S (N.to_nat (N.pred n))) by lia.
    reflexivity.
Qed.

Lemma read_chunks_loop_cons (fuel : nat) (x : byte) (r : list byte) :
  read_chunks_loop (S fuel) (x :: r) size
  = take (N.to_nat size) (x :: r)
    :: read_chunks_loop fuel (drop (N.to_nat size) (x :: r)) size.
Proof.
  cbn [read_chunks_loop]. rewrite file_read_take.
  replace (N.to_nat size) with (S (N.to_nat (N.pred size))) by lia.
  reflexivity.
Qed.

Lemma read_chunks_loop_lookup (fuel : nat) (file : list byte) (i : nat) (c : list byte) :
  length file < fuel ->
  read_chunks_loop fuel file size !! i = Some c ->
  c = take (N.to_nat size) (drop (i * N.to_nat size) file) /\ c <> [].
Proof.
  revert file i; induction fuel as [|k IH]; intros file i Hlen; [lia |].
  destruct file as [|x r]; [discriminate |].
  rewrite read_chunks_loop_cons. destruct i as [|i]; cbn [lookup list_lookup].
  - intros [= <-]. split; [reflexivity |].
    replace (N.to_nat size) with (S (N.to_nat (N.pred size))) by lia. discriminate.
  - intros H. apply IH in H as [-> Hne].
    + split; [| exact Hne]. rewrite drop_drop. reflexivity.
    + rewrite length_drop. cbn [length] in *. lia.
Qed.

Lemma read_chunks_loop_nil (fuel : nat) : read_chunks_loop fuel [] size = [].
Proof. destruct fuel; reflexivity. Qed.

(** The number of chunks is the length divided by the size, rounded up. *)
Lemma read_chunks_loop_length (fuel : nat) (file : list byte) :
  length file < fuel ->
  length (read_chunks_loop fuel file size) * N.to_nat size
  < length file + N.to_nat size
  /\ length file <= length (read_chunks_loop fuel file size) * N.to_nat size.
Proof.
  assert (Hn : 0 < N.to_nat size). { lia. }
  revert file; induction fuel as [|k IH]; intros file Hlen; [lia |].
  destruct file as [|x r]; [cbn; lia |].
  rewrite read_chunks_loop_cons. cbn [length].
  destruct (le_lt_dec (N.to_nat size) (length r)) as [Hge | Hlt].
  - specialize (IH (drop (N.to_nat size) (x :: r))).
    rewrite length_drop in IH. cbn [length] in *.
    destruct IH as [IH1 IH2]; [lia |].
    set (L := length (read_chunks_loop k (drop (N.to_nat size) (x :: r)) size)) in *.
    cbn [Nat.mul]. lia.
  - rewrite drop_ge by (cbn [length]; lia).
    rewrite read_chunks_loop_nil. cbn. lia.
Qed.

End read_chunks_facts.

(** X1: with a positive size, [read_chunks] cuts the file into consecutive
    blocks: chunk [i] is the (non-empty) block of at most [size] bytes that
    starts at offset [i * size], the chunks concatenated give the file back,
    and their number is the length divided by the size, rounded up. *)
Theorem read_chunks_cuts_file_into_blocks (file : list byte) (size : N) :
  (0 < size)%N ->
  concat (read_chunks file size) = file
  /\ (forall i c, read_chunks file size !! i = Some c ->
        c = take (N.to_nat size) (drop (i * N.to_nat size) file) /\ c <> [])
  /\ length (read_chunks file size)
     = (length file + N.to_nat size - 1) / N.to_nat size.
Proof.
  intros Hs. split; [exact (read_chunks_concat size file Hs) |]. split.
  - intros i c. apply read_chunks_loop_lookup; [exact Hs | lia].
  - destruct (read_chunks_loop_length size Hs (S (length file)) file) as [H1 H2]; [lia |].
    fold (read_chunks file size) in H1, H2.
    set (L := length (read_chunks file size)) in *.
    apply (Nat.div_unique _ _ L (length file + N.to_nat size - 1 - L * N.to_nat size));
      lia.
Qed.

Lemma read_chunks_cuts_file_into_blocks_witness :
  concat (read_chunks (str_encode "hello world") 4) = str_encode "hello world"
  /\ length (read_chunks (str_encode "hello world") 4) = 3.
Proof.
  destruct (read_chunks_cuts_file_into_blocks (str_encode "hello world") 4) as (H1 & _ & H3);
    [reflexivity |].
  split; [exact H1 | exact H3].
Defined.

(** X2: [file.read(0)] returns no byte, so with size 0 the generator stops
    at once whatever the file holds, and [rehash] with block size 0 returns
    the digest and the length of the empty input; an empty file gives no
    chunk for any size. *)
Theorem zero_size_reads_nothing (file : list byte) (size : N) :
  read_chunks file 0 = []
  /\ rehash_with 0 file = rehash []
  /\ read_chunks [] size = [].
Proof.
  assert (H0 : read_chunks file 0 = []) by (destruct file; reflexivity).
  split; [exact H0 |]. split; [| reflexivity].
  unfold rehash, rehash_with. rewrite H0. reflexivity.
Qed.

(** ** [make_message] *)

Section make_message_facts.

Lemma set_headers_multi (name : string) (parts : list string) (msg : message) :
  fold_left (fun m part => set_header m name part) parts msg
  = mkMessage (msg_headers msg ++ map (pair name) parts) (msg_payload msg).
Proof.
  revert msg; induction parts as [|p parts IH]; intros msg; cbn [fold_left map].
  - rewrite app_nil_r. now destruct msg.
  - rewrite IH. unfold set_header. cbn [msg_headers msg_payload].
    now rewrite <- app_assoc.
Qed.

Lemma set_headers_all (headers : list (string * header_value)) (msg : message) :
  fold_left
    (fun msg '(name, value) =>
       match value with
       | Multi parts => fold_left (fun m part => set_header m name part) parts msg
       | Scalar v => set_header msg name v
       end)
    headers msg
  = mkMessage (msg_headers msg ++ flat_map header_lines headers) (msg_payload msg).
Proof.
  revert msg; induction headers as [|[name value] headers IH]; intros msg;
    cbn [fold_left flat_map].
  - rewrite app_nil_r. now destruct msg.
  - rewrite IH. destruct value as [v | parts]; unfold header_lines; cbn [fst snd].
    + unfold set_header. cbn [msg_headers msg_payload]. now rewrite <- app_assoc.
    + rewrite set_headers_multi. cbn [msg_headers msg_payload].
      now rewrite <- app_assoc.
Qed.

Lemma header_lines_count (headers : list (string * header_value)) :
  length (flat_map header_lines headers)
  = list_sum (map (fun entry => match snd entry with
                                | Scalar _ => 1
                                | Multi parts => length parts
                                end) headers).
Proof.
  induction headers as [|[name value] headers IH]; cbn [flat_map map list_sum];
    [reflexivity |].
  rewrite length_app, IH. f_equal.
  destruct value; unfold header_lines; cbn [fst snd length]; [reflexivity |].
  now rewrite length_map.
Qed.

End make_message_facts.

(** X3: [make_message] gives one header line per scalar entry and one per
    element of a list-valued entry (none for an empty list), in the order of
    the dictionary and of the lists; the payload is set only when it is
    truthy, so an empty payload gives the same message as no payload. *)
Theorem make_message_flattens_headers
    (headers : list (string * header_value)) (payload : option string) :
  msg_headers (make_message headers payload) = flat_map header_lines headers
  /\ msg_payload (make_message headers payload)
     = (if Semver.nonempty payload then payload else None)
  /\ make_message headers (Some "") = make_message headers None
  /\ length (msg_headers (make_message headers payload))
     = list_sum (map (fun entry => match snd entry with
                                   | Scalar _ => 1
                                   | Multi parts => length parts
                                   end) headers).
Proof.
  assert (Hh : msg_headers (make_message headers payload)
               = flat_map header_lines headers).
  { unfold make_message. rewrite set_headers_all.
    destruct (Semver.nonempty payload); reflexivity. }
  split; [exact Hh |]. split; [| split].
  - unfold make_message. rewrite set_headers_all.
    destruct (Semver.nonempty payload); reflexivity.
  - reflexivity.
  - rewrite Hh. apply header_lines_count.
Qed.

(** ** The shape of what [normalize] returns *)

Section normalize_shape.

Lemma not_sep_chars (c : ascii) :
  is_sep c = false ->
  Ascii.eqb c "-" = false /\ Ascii.eqb c "_" = false /\ Ascii.eqb c "." = false.
Proof.
  unfold is_sep. destruct (Ascii.eqb c "-"), (Ascii.eqb c "_"), (Ascii.eqb c ".");
    cbn; intuition congruence.
Qed.

Lemma sub_runs_no_dash_dot (b : bool) (s : string) :
  Py.any_char (fun c => Ascii.eqb c "-" || Ascii.eqb c ".") (sub_runs b s) = false.
Proof.
  revert b; induction s as [|c r IH]; intros b; cbn [sub_runs]; [reflexivity |].
  destruct (is_sep c) eqn:Hc.
  - destruct b; [apply IH |]. cbn [Py.any_char]. now rewrite IH.
  - apply not_sep_chars in Hc as (H1 & _ & H3).
    cbn [Py.any_char]. now rewrite H1, H3, IH.
Qed.

(** Inside a run the scan emits nothing until the run ends. *)
Lemma sub_runs_in_run_head (s : string) :
  match sub_runs true s with
  | String a _ => Ascii.eqb a "_"
  | EmptyString => false
  end = false.
Proof.
  induction s as [|c r IH]; cbn [sub_runs]; [reflexivity |].
  destruct (is_sep c) eqn:Hc; [exact IH |].
  now apply not_sep_chars in Hc as (_ & H2 & _).
Qed.

Lemma sub_runs_no_double (b : bool) (s : string) :
  has_double "_" (sub_runs b s) = false.
Proof.
  revert b; induction s as [|c r IH]; intros b; cbn [sub_runs]; [reflexivity |].
  destruct (is_sep c) eqn:Hc.
  - destruct b; [apply IH |].
    pose proof (sub_runs_in_run_head r) as Hh. specialize (IH true).
    destruct (sub_runs true r) as [|a t]; [reflexivity |].
    change (has_double "_" (String "_" (String a t)))
      with ((Ascii.eqb "_" "_" && Ascii.eqb a "_") || has_double "_" (String a t)).
    now rewrite Hh, IH.
  - apply not_sep_chars in Hc as (_ & H2 & _). specialize (IH false).
    destruct (sub_runs false r) as [|a t]; [reflexivity |].
    change (has_double "_" (String c (String a t)))
      with ((Ascii.eqb c "_" && Ascii.eqb a "_") || has_double "_" (String a t)).
    now rewrite H2, IH.
Qed.

Lemma sub_runs_length (b : bool) (s : string) :
  String.length (sub_runs b s) <= String.length s.
Proof.
  revert b; induction s as [|c r IH]; intros b; cbn [sub_runs String.length]; [lia |].
  destruct (is_sep c); [destruct b |]; cbn [String.length];
    pose proof (IH true); pose proof (IH false); lia.
Qed.

End normalize_shape.

(** X4: what [normalize] returns never contains a hyphen or a dot, never
    has two underscores in a row, and is never longer than its input. *)
Theorem normalize_output_shape (arg : Semver.component) :
  Py.any_char (fun c => Ascii.eqb c "-" || Ascii.eqb c ".") (normalize arg) = false
  /\ has_double "_" (normalize arg) = false
  /\ String.length (normalize arg) <= String.length (Semver.str arg).
Proof.
  unfold normalize, normalize_str. split; [| split].
  - apply sub_runs_no_dash_dot.
  - apply sub_runs_no_double.
  - apply sub_runs_length.
Qed.

(** ** The fields of a wheel name *)

Section wheel_name_fields.

Variable c : ascii.

Lemma split_no_sep (s : string) :
  Py.any_char (fun x => Ascii.eqb x c) s = false -> Py.split c s = [s].
Proof.
  induction s as [|a r IH]; cbn [Py.any_char Py.split]; [reflexivity |].
  intros H. apply orb_false_iff in H as [Ha Hr]. rewrite Ha, (IH Hr). reflexivity.
Qed.

Lemma split_field (a b : string) :
  Py.any_char (fun x => Ascii.eqb x c) a = false ->
  Py.split c (a +:+ String c b) = a :: Py.split c b.
Proof.
  induction a as [|x a IH]; cbn [Py.any_char String.append Py.split].
  - intros _. now rewrite Ascii.eqb_refl.
  - intros H. apply orb_false_iff in H as [Hx Ha]. rewrite Hx, (IH Ha). reflexivity.
Qed.

Lemma join_no_char (p : ascii -> bool) (sep : string) (parts : list string) :
  Py.any_char p sep = false ->
  (forall s, In s parts -> Py.any_char p s = false) ->
  Py.any_char p (Py.join sep parts) = false.
Proof.
  intros Hsep. induction parts as [|s [|t parts] IH]; intros Hall.
  - reflexivity.
  - apply Hall. now left.
  - change (Py.join sep (s :: t :: parts)) with (s +:+ sep +:+ Py.join sep (t :: parts)).
    rewrite !any_char_app, Hsep, IH, (Hall s) by (cbn [In] in *; auto).
    reflexivity.
Qed.

End wheel_name_fields.

Lemma package_version_no_hyphen (v : Semver.Version) :
  Py.any_char (fun x => Ascii.eqb x "-") (PACKAGE_VERSION v) = false.
Proof.
  unfold PACKAGE_VERSION. apply join_no_char; [reflexivity |].
  intros s Hs. apply in_map_iff in Hs as (arg & <- & _).
  pose proof (sub_runs_no_dash_dot false (Semver.str arg)) as H.
  unfold normalize, normalize_str.
  induction (sub_runs false (Semver.str arg)) as [|a r IH]; [reflexivity |].
  cbn [Py.any_char] in *. apply orb_false_iff in H as [Ha Hr].
  apply orb_false_iff in Ha as [Ha _]. now rewrite Ha, IH.
Qed.

(** X5: the package version never contains a hyphen, so the name of a
    wheel, cut at its hyphens, gives back exactly the five fields the script
    joined: the normalized package name, the package version, the python
    tags, the ABI tag and the platform (for a platform without a hyphen, as
    all platforms of the table are). *)
Theorem wheel_name_has_five_fields (v : Semver.Version) (platform : string) :
  Py.any_char (fun x => Ascii.eqb x "-") platform = false ->
  Py.any_char (fun x => Ascii.eqb x "-") (PACKAGE_VERSION v) = false
  /\ Py.split "-" (wheel_name v platform)
     = ["terraform_binary_wheel"; PACKAGE_VERSION v; "py2.py3"; "none"; platform].
Proof.
  intros Hp. split; [apply package_version_no_hyphen |].
  unfold wheel_name, PACKAGE_WHEELNAME. cbn [Py.join].
  replace (normalize_str PACKAGE_NAME) with "terraform_binary_wheel" by reflexivity.
  replace (Py.join "." PYTHON_TAGS) with "py2.py3" by reflexivity.
  replace (Py.join "." ABI_TAGS) with "none" by reflexivity.
  rewrite !append_assoc.
  change ("terraform_binary_wheel" +:+ "-" +:+ PACKAGE_VERSION v +:+ "-" +:+ "py2.py3"
          +:+ "-" +:+ "none" +:+ "-" +:+ platform)
    with ("terraform_binary_wheel" +:+ String "-" (PACKAGE_VERSION v +:+ String "-"
            ("py2.py3" +:+ String "-" ("none" +:+ String "-" platform)))).
  rewrite !split_field by (reflexivity || apply package_version_no_hyphen).
  now rewrite split_no_sep.
Qed.

Lemma wheel_name_has_five_fields_witness :
  Py.split "-" (wheel_name (Semver.mkVersion 1 5 7 (Some "rc0") None) "win_amd64")
  = ["terraform_binary_wheel"; "1.5.7.rc0"; "py2.py3"; "none"; "win_amd64"].
Proof.
  apply (proj2 (wheel_name_has_five_fields
                  (Semver.mkVersion 1 5 7 (Some "rc0") None) "win_amd64" eq_refl)).
Defined.

(** ** The shape of a digest *)

Section digest_shape.

Lemma round_length (st : list N) (kw : N * N) :
  length (SHA256.round st kw) = length st.
Proof.
  unfold SHA256.round.
  repeat (destruct st as [|? st]; try reflexivity).
Qed.

Lemma rounds_length (kws : list (N * N)) (st : list N) :
  length (fold_left SHA256.round kws st) = length st.
Proof.
  revert st; induction kws as [|kw kws IH]; intros st; cbn [fold_left]; [reflexivity |].
  now rewrite IH, round_length.
Qed.

Lemma compress_length (h block : list N) :
  length (SHA256.compress h block) = length h.
Proof.
  unfold SHA256.compress.
  rewrite length_map, length_combine, rounds_length. lia.
Qed.

Lemma compress_all_length (blocks : list (list N)) (h : list N) :
  length (fold_left SHA256.compress blocks h) = length h.
Proof.
  revert h; induction blocks as [|b blocks IH]; intros h; cbn [fold_left]; [reflexivity |].
  now rewrite IH, compress_length.
Qed.

(** A SHA-256 digest has 32 bytes. *)
Lemma digest_length (msg : list byte) : length (SHA256.digest msg) = 32.
Proof.
  unfold SHA256.digest, SHA256.digest_N. rewrite length_map.
  set (h := fold_left SHA256.compress _ SHA256.H0).
  assert (Hh : length h = 8) by (unfold h; now rewrite compress_all_length).
  do 9 (destruct h as [|? h]; try discriminate Hh).
  reflexivity.
Qed.

Lemma sextet_urlsafe (i : N) : urlsafe_char (Base64.sextet i) = true.
Proof.
  assert (H : forallb (fun k => urlsafe_char (Base64.sextet (N.of_nat k))) (seq 0 64) = true)
    by (vm_compute; reflexivity).
  rewrite forallb_forall in H.
  specialize (H (N.to_nat (i mod 64))).
  replace (Base64.sextet i) with (Base64.sextet (N.of_nat (N.to_nat (i mod 64)))).
  - assert (Hlt : (N.to_nat (i mod 64) < 64)%nat).
    { pose proof (N.mod_upper_bound i 64). lia. }
    apply H, in_seq. simpl. split; [apply Nat.le_0_l | exact Hlt].
  - unfold Base64.sextet. rewrite N2Nat.id, N.Div0.mod_mod. reflexivity.
Qed.

(** Ten full groups of three bytes and a last group of two. *)
Lemma encode_32 (bs : list N) :
  length bs = 32 ->
  String.length (Base64.encode_N false bs) = 43
  /\ Py.all_chars urlsafe_char (Base64.encode_N false bs) = true.
Proof.
  intros H. do 33 (destruct bs as [|? bs]; try discriminate H).
  cbn [Base64.encode_N String.length Py.all_chars].
  rewrite !sextet_urlsafe. split; reflexivity.
Qed.

End digest_shape.

(** X6: for every file the digest string [rehash] returns is [sha256=]
    followed by exactly 43 characters of the URL-safe base64 alphabet: 50
    characters, none of them the padding character. *)
Theorem rehash_digest_shape (content : list byte) :
  exists body,
    fst (rehash content) = "sha256=" +:+ body
    /\ String.length body = 43
    /\ Py.all_chars urlsafe_char body = true
    /\ Py.any_char (fun c => Ascii.eqb c "=") body = false
    /\ String.length (fst (rehash content)) = 50.
Proof.
  exists (Base64.urlsafe_unpadded (SHA256.digest content)).
  unfold rehash. rewrite rehash_with_spec by reflexivity.
  unfold spec_rehash. cbn [fst snd].
  destruct (encode_32 (map Byte.to_N (SHA256.digest content))) as [Hlen Hall];
    [now rewrite length_map, digest_length |].
  fold (Base64.urlsafe_unpadded (SHA256.digest content)) in Hlen, Hall.
  split; [reflexivity |]. split; [exact Hlen |]. split; [exact Hall |].
  split.
  - revert Hall. generalize (Base64.urlsafe_unpadded (SHA256.digest content)).
    intros s. induction s as [|a r IH]; cbn [Py.all_chars Py.any_char]; [reflexivity |].
    intros H. apply andb_true_iff in H as [Ha Hr]. rewrite (IH Hr), orb_false_r.
    destruct (Ascii.eqb_spec a "=") as [->|]; [discriminate Ha | reflexivity].
  - cbn [String.append String.length]. now rewrite Hlen.
Qed.

(** X7: every download is stored in the build directory under the last
    segment of its URL: the two manifests as
    [terraform_<version>_SHA256SUMS] and [..._SHA256SUMS.sig], the archive
    of an architecture (a name without a slash) as
    [terraform_<version>_<arch>.zip]; and the directory an archive is
    unpacked into drops only the final [.zip], the dots of the version
    staying in place.  The version is [<major>.<minor>.<patch>]. *)
Theorem download_names (v : Semver.Version) (arch : string) :
  no_slash arch = true ->
  TERRAFORM_VERSION v
  = Py.str_of_N (Semver.major v) +:+ "." +:+ Py.str_of_N (Semver.minor v)
    +:+ "." +:+ Py.str_of_N (Semver.patch v)
  /\ terraform_sha256 v
     = ["build"; "terraform_" +:+ TERRAFORM_VERSION v +:+ "_SHA256SUMS"]
  /\ terraform_sigs v
     = ["build"; "terraform_" +:+ TERRAFORM_VERSION v +:+ "_SHA256SUMS.sig"]
  /\ terraform_zip_path v arch
     = ["build"; "terraform_" +:+ TERRAFORM_VERSION v +:+ "_" +:+ arch +:+ ".zip"]
  /\ with_suffix_empty (terraform_zip_path v arch)
     = ["build"; "terraform_" +:+ TERRAFORM_VERSION v +:+ "_" +:+ arch].
Proof.
  intros Ha. split; [| split; [| split; [| split]]].
  - rewrite tool_version_numeric. reflexivity.
  - apply terraform_sha256_eq.
  - apply terraform_sigs_eq.
  - rewrite terraform_zip_path_eq by exact Ha. unfold zip_stem.
    now rewrite !append_assoc.
  - rewrite terraform_src_eq by exact Ha. reflexivity.
Qed.

Lemma download_names_witness :
  terraform_zip_path (Semver.mkVersion 1 5 7 None None) "linux_amd64"
  = ["build"; "terraform_1.5.7_linux_amd64.zip"]
  /\ with_suffix_empty (terraform_zip_path (Semver.mkVersion 1 5 7 None None) "linux_amd64")
     = ["build"; "terraform_1.5.7_linux_amd64"].
Proof.
  destruct (download_names (Semver.mkVersion 1 5 7 None None) "linux_amd64" eq_refl)
    as (_ & _ & _ & H4 & H5).
  split; [exact H4 | exact H5].
Defined.

(** ** The events of a run that fails *)

Section failing_runs.

Variable env : Env.
Variable v : Semver.Version.

Lemma fetch_archives_raise_at entries pz0 w e tr :
  fold_each entries (fetch_step env v) pz0 w = Raise e tr ->
  exists done p a rest,
    entries = done ++ (p, a) :: rest
    /\ tr = trace w ++ fetch_events v done
            ++ [Wget (terraform_zip_url v a) (terraform_zip_path v a) false].
Proof.
  revert pz0 w; induction entries as [|[platform arch] entries IH]; intros pz0 w;
    cbn [fold_each].
  - discriminate.
  - intros H. apply bind_raise_inv in H as [Hstep | (pz1 & w1 & Hstep & Hrest)];
      unfold fetch_step in Hstep.
    + apply bind_raise_inv in Hstep as [Hw | (u & w0 & _ & Hret)]; [| discriminate].
      apply wget_raise in Hw. exists [], platform, arch, entries.
      split; [reflexivity | exact Hw].
    + apply bind_ok_inv in Hstep as (u & w0 & Hw & Hret).
      apply wget_ok in Hw. injection Hret as <- <-.
      apply IH in Hrest as (done & p & a & rest & -> & ->).
      exists ((platform, arch) :: done), p, a, rest.
      split; [reflexivity |]. rewrite Hw, <- app_assoc. reflexivity.
Qed.

Lemma assemble_all_raise_at metadata pz w e tr :
  for_each pz (assemble env v metadata) w = Raise e tr ->
  exists done p z rest,
    pz = done ++ (p, z) :: rest
    /\ (tr = trace w ++ assemble_events v done
        \/ tr = trace w ++ assemble_events v done ++ [Unpack z (with_suffix_empty z)]).
Proof.
  revert w; induction pz as [|[platform z] pz IH]; intros w; cbn [for_each].
  - discriminate.
  - intros H. pose proof (assemble_trace env v metadata platform z w) as Ht.
    apply bind_raise_inv in H as [Hone | ([] & w1 & Hone & Hrest)];
      rewrite Hone in Ht.
    + exists [], platform, z, pz. split; [reflexivity |].
      destruct Ht as [-> | ->]; [left | right]; cbn [assemble_events flat_map app];
        now rewrite ?app_nil_r.
    + apply IH in Hrest as (done & p & z' & rest & -> & Htr).
      exists ((platform, z) :: done), p, z', rest. split; [reflexivity |].
      destruct Htr as [-> | ->]; [left | right]; rewrite Ht;
        cbn [assemble_events flat_map]; now rewrite <- !app_assoc.
Qed.

(** Where a run can fail, and what it has done by then. *)
Lemma build_wheels_raise_cases w e tr :
  trace w = [] ->
  build_wheels env v w = Raise e tr ->
  tr = []
  \/ tr = [Wget (terraform_sha256_url v) (terraform_sha256 v) false]
  \/ tr = [Wget (terraform_sha256_url v) (terraform_sha256 v) true;
           Wget (terraform_sigs_url v) (terraform_sigs v) false]
  \/ tr = [Wget (terraform_sha256_url v) (terraform_sha256 v) true;
           Wget (terraform_sigs_url v) (terraform_sigs v) true;
           Gpg HASHICORP_GPG (terraform_sigs v) (terraform_sha256 v) false]
  \/ (exists done p a rest,
        PY_PLATFORM_TF_ARCH = done ++ (p, a) :: rest
        /\ tr = manifest_events v ++ fetch_events v done
                ++ [Wget (terraform_zip_url v a) (terraform_zip_path v a) false])
  \/ tr = manifest_events v ++ fetch_events v PY_PLATFORM_TF_ARCH
          ++ [Shasum (terraform_sha256 v) false]
  \/ (exists done p z rest,
        platform_zip_of v PY_PLATFORM_TF_ARCH = done ++ (p, z) :: rest
        /\ (tr = manifest_events v ++ fetch_events v PY_PLATFORM_TF_ARCH
                 ++ [Shasum (terraform_sha256 v) true] ++ assemble_events v done
            \/ tr = manifest_events v ++ fetch_events v PY_PLATFORM_TF_ARCH
                    ++ [Shasum (terraform_sha256 v) true] ++ assemble_events v done
                    ++ [Unpack z (with_suffix_empty z)])).
Proof.
  intros Hw Hrun. unfold build_wheels in Hrun.
  apply bind_raise_inv in Hrun as [H1 | (readme & w1 & H1 & Hrun)].
  { apply silent_raise in H1; [| apply silent_read_text]. left. congruence. }
  apply read_text_ok in H1 as ->.
  apply bind_raise_inv in Hrun as [H2 | ([] & w2 & H2 & Hrun)].
  { apply silent_raise in H2; [| apply silent_mkdir_exist_ok]. left. congruence. }
  apply silent_ok in H2; [| apply silent_mkdir_exist_ok]. rewrite Hw in H2.
  apply bind_raise_inv in Hrun as [H3 | ([] & w3 & H3 & Hrun)].
  { apply wget_raise in H3. rewrite H2 in H3. right. left. exact H3. }
  apply wget_ok in H3. rewrite H2 in H3. cbn [app] in H3.
  apply bind_raise_inv in Hrun as [H4 | ([] & w4 & H4 & Hrun)].
  { apply wget_raise in H4. rewrite H3 in H4. do 2 right. left. exact H4. }
  apply wget_ok in H4. rewrite H3 in H4. cbn [app] in H4.
  apply bind_raise_inv in Hrun as [H5 | ([] & w5 & H5 & Hrun)].
  { apply gpg_raise in H5. rewrite H4 in H5. do 3 right. left. exact H5. }
  apply gpg_ok in H5. rewrite H4 in H5. cbn [app] in H5.
  fold (manifest_events v) in H5.
  apply bind_raise_inv in Hrun as [H6 | (pz & w6 & H6 & Hrun)].
  { apply fetch_archives_raise_at in H6 as (done & p & a & rest & Ht & ->).
    do 4 right. left. exists done, p, a, rest. rewrite H5. auto. }
  apply fetch_archives_ok in H6 as [H6 ->]. rewrite H5 in H6.
  rewrite platform_zip_computed in Hrun.
  apply bind_raise_inv in Hrun as [H7 | ([] & w7 & H7 & Hrun)].
  { apply shasum_raise in H7. rewrite H6, <- app_assoc in H7.
    do 5 right. left. exact H7. }
  apply shasum_ok in H7. rewrite H6, <- app_assoc in H7.
  apply assemble_all_raise_at in Hrun as (done & p & z & rest & Hpz & Htr).
  do 6 right. exists done, p, z, rest. split; [exact Hpz |].
  rewrite H7, <- !app_assoc in Htr. exact Htr.
Qed.

End failing_runs.

Section script_prefix.

Variable v : Semver.Version.

Lemma success_trace_parts :
  success_trace v
  = manifest_events v ++ fetch_events v PY_PLATFORM_TF_ARCH
    ++ [Shasum (terraform_sha256 v) true]
    ++ assemble_events v (platform_zip_of v PY_PLATFORM_TF_ARCH).
Proof. reflexivity. Qed.

Lemma fetch_events_app (l1 l2 : list (string * string)) :
  fetch_events v (l1 ++ l2) = fetch_events v l1 ++ fetch_events v l2.
Proof. apply map_app. Qed.

Lemma assemble_events_app (l1 l2 : list (string * path)) :
  assemble_events v (l1 ++ l2) = assemble_events v l1 ++ assemble_events v l2.
Proof. apply flat_map_app. Qed.

Lemma follows_prefix (full done rest tr : list event) :
  full = done ++ rest -> tr = done -> follows_script full tr.
Proof. intros -> ->. exists done, rest. auto. Qed.

Lemma follows_failure (full done rest tr : list event) (ev : event) :
  full = done ++ ev :: rest ->
  succeeded (failed_twin ev) = false ->
  tr = done ++ [failed_twin ev] ->
  follows_script full tr.
Proof.
  intros -> H ->. exists done, (ev :: rest). split; [reflexivity |]. right. eauto.
Qed.

Lemma raise_follows_script (tr : list event) :
  (tr = []
   \/ tr = [Wget (terraform_sha256_url v) (terraform_sha256 v) false]
   \/ tr = [Wget (terraform_sha256_url v) (terraform_sha256 v) true;
            Wget (terraform_sigs_url v) (terraform_sigs v) false]
   \/ tr = [Wget (terraform_sha256_url v) (terraform_sha256 v) true;
            Wget (terraform_sigs_url v) (terraform_sigs v) true;
            Gpg HASHICORP_GPG (terraform_sigs v) (terraform_sha256 v) false]
   \/ (exists done p a rest,
         PY_PLATFORM_TF_ARCH = done ++ (p, a) :: rest
         /\ tr = manifest_events v ++ fetch_events v done
                 ++ [Wget (terraform_zip_url v a) (terraform_zip_path v a) false])
   \/ tr = manifest_events v ++ fetch_events v PY_PLATFORM_TF_ARCH
           ++ [Shasum (terraform_sha256 v) false]
   \/ (exists done p z rest,
         platform_zip_of v PY_PLATFORM_TF_ARCH = done ++ (p, z) :: rest
         /\ (tr = manifest_events v ++ fetch_events v PY_PLATFORM_TF_ARCH
                  ++ [Shasum (terraform_sha256 v) true] ++ assemble_events v done
             \/ tr = manifest_events v ++ fetch_events v PY_PLATFORM_TF_ARCH
                     ++ [Shasum (terraform_sha256 v) true] ++ assemble_events v done
                     ++ [Unpack z (with_suffix_empty z)]))) ->
  follows_script (success_trace v) tr.
Proof.
  intros [-> | [-> | [-> | [-> | [H | [-> | H]]]]]].
  - now apply (follows_prefix _ [] (success_trace v)).
  - now apply (follows_failure _ [] (tl (success_trace v)) _
                 (Wget (terraform_sha256_url v) (terraform_sha256 v) true)).
  - now apply (follows_failure _ [Wget (terraform_sha256_url v) (terraform_sha256 v) true]
                 (tl (tl (success_trace v))) _
                 (Wget (terraform_sigs_url v) (terraform_sigs v) true)).
  - now apply (follows_failure _
                 [Wget (terraform_sha256_url v) (terraform_sha256 v) true;
                  Wget (terraform_sigs_url v) (terraform_sigs v) true]
                 (tl (tl (tl (success_trace v)))) _
                 (Gpg HASHICORP_GPG (terraform_sigs v) (terraform_sha256 v) true)).
  - destruct H as (done & p & a & rest & Ht & ->).
    apply (follows_failure _ (manifest_events v ++ fetch_events v done)
             (fetch_events v rest ++ [Shasum (terraform_sha256 v) true]
              ++ assemble_events v (platform_zip_of v PY_PLATFORM_TF_ARCH)) _
             (Wget (terraform_zip_url v a) (terraform_zip_path v a) true)).
    + rewrite success_trace_parts. rewrite Ht at 1. rewrite fetch_events_app.
      cbn [fetch_events map]. rewrite <- !app_assoc. reflexivity.
    + reflexivity.
    + cbn [failed_twin]. rewrite <- !app_assoc. reflexivity.
  - apply (follows_failure _ (manifest_events v ++ fetch_events v PY_PLATFORM_TF_ARCH)
             (assemble_events v (platform_zip_of v PY_PLATFORM_TF_ARCH)) _
             (Shasum (terraform_sha256 v) true)).
    + rewrite success_trace_parts. rewrite <- !app_assoc. reflexivity.
    + reflexivity.
    + cbn [failed_twin]. rewrite <- !app_assoc. reflexivity.
  - destruct H as (done & p & z & rest & Hz & Htr).
    assert (Hfull : success_trace v
                    = manifest_events v ++ fetch_events v PY_PLATFORM_TF_ARCH
                      ++ [Shasum (terraform_sha256 v) true] ++ assemble_events v done
                      ++ [Unpack z (with_suffix_empty z)]
                      ++ [WheelWritten p (wheel_file v p)] ++ assemble_events v rest).
    { rewrite success_trace_parts, Hz, assemble_events_app. reflexivity. }
    destruct Htr as [-> | ->].
    + eapply (follows_prefix _ _ ([Unpack z (with_suffix_empty z)]
                                  ++ [WheelWritten p (wheel_file v p)]
                                  ++ assemble_events v rest)); [| reflexivity].
      rewrite Hfull, <- !app_assoc. reflexivity.
    + eapply (follows_prefix _ _ ([WheelWritten p (wheel_file v p)]
                                  ++ assemble_events v rest)); [| reflexivity].
      rewrite Hfull, <- !app_assoc. reflexivity.
Qed.

End script_prefix.

(** X8: the events of every run follow one script: the two manifest
    downloads, the signature verification, the eight archive downloads in
    table order, the checksum verification, and then for each platform in
    table order the unpacking and the written wheel.  A run that completes
    has left exactly these events; a run that fails has left a prefix of
    them, followed by the failed tool when it is a tool that failed; and a
    tag that does not parse fails the run before any event. *)
Theorem run_events_follow_the_script (env : Env) (fs0 : gmap path node) :
  match main env (mkWorld fs0 []) with
  | Ok _ w' =>
      exists v, Semver.parse (GIT_TAG (env_git_tag env)) = Some v
                /\ trace w' = success_trace v
  | Raise _ tr =>
      match Semver.parse (GIT_TAG (env_git_tag env)) with
      | Some v => follows_script (success_trace v) tr
      | None => tr = []
      end
  end.
Proof.
  pose proof (main_trace env fs0) as Hok.
  unfold main in *.
  destruct (Semver.parse (GIT_TAG (env_git_tag env))) as [v|]; [| reflexivity].
  destruct (build_wheels env v (mkWorld fs0 [])) as [[] w'|e tr] eqn:Hrun.
  - exact Hok.
  - apply raise_follows_script.
    exact (build_wheels_raise_cases env v (mkWorld fs0 []) e tr eq_refl Hrun).
Qed.

Section rejected_verification.

Variable v : Semver.Version.
Variable P : event -> bool.
Hypothesis P_wget : forall url dest ok, P (Wget url dest ok) = false.
Hypothesis P_unpack : forall z d, P (Unpack z d) = false.
Hypothesis P_written : forall p f, P (WheelWritten p f) = false.

Lemma existsb_fetch_events (entries : list (string * string)) :
  existsb P (fetch_events v entries) = false.
Proof.
  induction entries as [|[p a] entries IH]; cbn [fetch_events map existsb];
    [reflexivity |].
  now rewrite P_wget.
Qed.

Lemma existsb_assemble_events (pz : list (string * path)) :
  existsb P (assemble_events v pz) = false.
Proof.
  induction pz as [|[p z] pz IH]; cbn [assemble_events flat_map app existsb];
    [reflexivity |].
  now rewrite P_unpack, P_written.
Qed.

(** The failure [P] singles out happens at one place of the script only:
    at the signature verification, or at the checksum verification. *)
Lemma failure_place (env : Env) (w : world) (e : error) (tr : list event) :
  P (Gpg HASHICORP_GPG (terraform_sigs v) (terraform_sha256 v) true) = false ->
  P (Shasum (terraform_sha256 v) true) = false ->
  trace w = [] ->
  build_wheels env v w = Raise e tr ->
  existsb P tr = true ->
  tr = [Wget (terraform_sha256_url v) (terraform_sha256 v) true;
        Wget (terraform_sigs_url v) (terraform_sigs v) true;
        Gpg HASHICORP_GPG (terraform_sigs v) (terraform_sha256 v) false]
  \/ tr = manifest_events v ++ fetch_events v PY_PLATFORM_TF_ARCH
          ++ [Shasum (terraform_sha256 v) false].
Proof.
  intros Pg Ps Hw Hrun HP.
  destruct (build_wheels_raise_cases env v w e tr Hw Hrun)
    as [-> | [-> | [-> | [-> | [H | [-> | H]]]]]]; auto.
  - discriminate HP.
  - cbn [existsb] in HP. rewrite P_wget in HP. discriminate HP.
  - cbn [existsb] in HP. rewrite !P_wget in HP. discriminate HP.
  - destruct H as (done & p & a & rest & _ & ->).
    rewrite !existsb_app, existsb_fetch_events in HP.
    cbn [manifest_events existsb] in HP. rewrite !P_wget, Pg in HP. discriminate HP.
  - destruct H as (done & p & z & rest & _ & [-> | ->]);
      rewrite !existsb_app, existsb_fetch_events, existsb_assemble_events in HP;
      cbn [manifest_events existsb] in HP;
      rewrite ?P_wget, ?P_unpack, Pg, Ps in HP; discriminate HP.
Qed.

End rejected_verification.

(** X9: when the signature of the checksum manifest is rejected, the run
    has downloaded the two manifest files and nothing else: no archive is
    fetched, nothing is unpacked, no wheel is written, and the exit status
    is not zero. *)
Theorem rejected_signature_fetches_no_archive
    (env : Env) (fs0 : gmap path node) (k s m : path) :
  In (Gpg k s m false) (final_trace (main env (mkWorld fs0 []))) ->
  exists v,
    Semver.parse (GIT_TAG (env_git_tag env)) = Some v
    /\ final_trace (main env (mkWorld fs0 []))
       = [Wget (terraform_sha256_url v) (terraform_sha256 v) true;
          Wget (terraform_sigs_url v) (terraform_sigs v) true;
          Gpg HASHICORP_GPG (terraform_sigs v) (terraform_sha256 v) false]
    /\ exit_status (main env (mkWorld fs0 [])) = 1%N.
Proof.
  intros Hin.
  assert (HP : existsb is_gpg_failure (final_trace (main env (mkWorld fs0 []))) = true)
    by (apply existsb_exists; eauto).
  clear Hin. unfold main in *.
  destruct (Semver.parse (GIT_TAG (env_git_tag env))) as [v|]; [| discriminate HP].
  exists v. split; [reflexivity |].
  pose proof (build_wheels_trace env v (mkWorld fs0 []) eq_refl) as Hok.
  destruct (build_wheels env v (mkWorld fs0 [])) as [[] w'|e tr] eqn:Hrun;
    cbn [final_trace exit_status] in *.
  - rewrite Hok in HP. rewrite success_trace_parts in HP.
    rewrite !existsb_app, existsb_fetch_events, existsb_assemble_events in HP
      by reflexivity.
    discriminate HP.
  - destruct (failure_place v is_gpg_failure ltac:(reflexivity) ltac:(reflexivity)
                ltac:(reflexivity) env (mkWorld fs0 []) e tr eq_refl eq_refl eq_refl
                Hrun HP) as [-> | ->]; [auto |].
    rewrite !existsb_app, existsb_fetch_events in HP by reflexivity.
    discriminate HP.
Qed.

Lemma rejected_signature_fetches_no_archive_witness :
  exists v,
    Semver.parse (GIT_TAG (env_git_tag untrusted_env)) = Some v
    /\ final_trace (main untrusted_env (mkWorld sample_fs []))
       = [Wget (terraform_sha256_url v) (terraform_sha256 v) true;
          Wget (terraform_sigs_url v) (terraform_sigs v) true;
          Gpg HASHICORP_GPG (terraform_sigs v) (terraform_sha256 v) false]
    /\ exit_status (main untrusted_env (mkWorld sample_fs [])) = 1%N.
Proof.
  apply (rejected_signature_fetches_no_archive untrusted_env sample_fs
           HASHICORP_GPG
           ["build"; "terraform_1.5.7_SHA256SUMS.sig"]
           ["build"; "terraform_1.5.7_SHA256SUMS"]).
  vm_compute. do 2 right. left. reflexivity.
Defined.

(** X10: when the checksum verification rejects the downloads, all ten
    downloads and the signature verification have happened, no archive has
    been unpacked and no wheel written, and the exit status is not zero. *)
Theorem rejected_checksum_unpacks_nothing
    (env : Env) (fs0 : gmap path node) (m : path) :
  In (Shasum m false) (final_trace (main env (mkWorld fs0 []))) ->
  exists v,
    Semver.parse (GIT_TAG (env_git_tag env)) = Some v
    /\ final_trace (main env (mkWorld fs0 []))
       = manifest_events v ++ fetch_events v PY_PLATFORM_TF_ARCH
         ++ [Shasum (terraform_sha256 v) false]
    /\ List.filter is_assembly (final_trace (main env (mkWorld fs0 []))) = []
    /\ length (List.filter is_wget (final_trace (main env (mkWorld fs0 [])))) = 10
    /\ exit_status (main env (mkWorld fs0 [])) = 1%N.
Proof.
  intros Hin.
  assert (HP : existsb is_shasum_failure (final_trace (main env (mkWorld fs0 []))) = true)
    by (apply existsb_exists; eauto).
  clear Hin. unfold main in *.
  destruct (Semver.parse (GIT_TAG (env_git_tag env))) as [v|]; [| discriminate HP].
  exists v. split; [reflexivity |].
  pose proof (build_wheels_trace env v (mkWorld fs0 []) eq_refl) as Hok.
  destruct (build_wheels env v (mkWorld fs0 [])) as [[] w'|e tr] eqn:Hrun;
    cbn [final_trace exit_status] in *.
  - rewrite Hok in HP. rewrite success_trace_parts in HP.
    rewrite !existsb_app, existsb_fetch_events, existsb_assemble_events in HP
      by reflexivity.
    discriminate HP.
  - destruct (failure_place v is_shasum_failure ltac:(reflexivity) ltac:(reflexivity)
                ltac:(reflexivity) env (mkWorld fs0 []) e tr eq_refl eq_refl eq_refl
                Hrun HP) as [-> | ->]; [discriminate HP |].
    repeat split; reflexivity.
Qed.

Lemma rejected_checksum_unpacks_nothing_witness :
  exists v,
    Semver.parse (GIT_TAG (env_git_tag corrupt_env)) = Some v
    /\ final_trace (main corrupt_env (mkWorld sample_fs []))
       = manifest_events v ++ fetch_events v PY_PLATFORM_TF_ARCH
         ++ [Shasum (terraform_sha256 v) false]
    /\ List.filter is_assembly (final_trace (main corrupt_env (mkWorld sample_fs []))) = []
    /\ length (List.filter is_wget (final_trace (main corrupt_env (mkWorld sample_fs [])))) = 10
    /\ exit_status (main corrupt_env (mkWorld sample_fs [])) = 1%N.
Proof.
  apply (rejected_checksum_unpacks_nothing corrupt_env sample_fs
           ["build"; "terraform_1.5.7_SHA256SUMS"]).
  vm_compute. do 11 right. left. reflexivity.
Defined.

(** X11: a tag that is no semantic version, or a missing [README.md], ends
    the run with a non-zero exit status before any tool has been invoked:
    nothing is downloaded. *)
Theorem early_failures_leave_no_event (env : Env) (fs0 : gmap path node) :
  Semver.parse (GIT_TAG (env_git_tag env)) = None \/ file_content fs0 README = None ->
  exit_status (main env (mkWorld fs0 [])) = 1%N
  /\ final_trace (main env (mkWorld fs0 [])) = [].
Proof.
  unfold main. intros [Hp | Hr].
  - rewrite Hp. split; reflexivity.
  - destruct (Semver.parse _) as [v|]; [| split; reflexivity].
    unfold build_wheels, read_text, read_bytes, bind, get_fs, fail. cbn [fs].
    rewrite Hr. split; reflexivity.
Qed.

Lemma early_failures_leave_no_event_witness :
  exit_status (main sample_env (mkWorld ∅ [])) = 1%N
  /\ final_trace (main sample_env (mkWorld ∅ [])) = [].
Proof.
  apply (early_failures_leave_no_event sample_env ∅). right. reflexivity.
Defined.

(** ** What a run leaves outside the build directory *)

Section outside_build.

Variable env : Env.
Variable v : Semver.Version.

Lemma head_differs (b x : string) (l r : path) :
  x <> b ->
  ~ (b :: l) `prefix_of` (x :: r) /\ ~ (x :: r) `prefix_of` (b :: l)
  /\ x :: r <> b :: l.
Proof.
  intros Hx. repeat split.
  - intros [k E]. cbn [app] in E. congruence.
  - intros [k E]. cbn [app] in E. congruence.
  - congruence.
Qed.

Lemma build_wheels_outside w w' (x : string) (r : path) :
  x <> "build" ->
  build_wheels env v w = Ok tt w' ->
  fs w' !! (x :: r) = fs w !! (x :: r).
Proof.
  intros Hx Hrun. unfold build_wheels in Hrun.
  apply bind_ok_inv in Hrun as (readme & w1 & H1 & Hrun).
  apply read_text_ok in H1 as ->.
  apply bind_ok_inv in Hrun as ([] & w2 & H2 & Hrun).
  apply mkdir_exist_ok_ok in H2 as (_ & _ & H2).
  apply bind_ok_inv in Hrun as ([] & w3 & H3 & Hrun).
  apply wget_fs in H3 as (b3 & m3 & _ & H3).
  apply bind_ok_inv in Hrun as ([] & w4 & H4 & Hrun).
  apply wget_fs in H4 as (b4 & m4 & _ & H4).
  apply bind_ok_inv in Hrun as ([] & w5 & H5 & Hrun).
  apply gpg_fs in H5.
  apply bind_ok_inv in Hrun as (pz & w6 & H6 & Hrun).
  apply bind_ok_inv in Hrun as ([] & w7 & H7 & Hrun).
  apply shasum_fs in H7.
  pose proof H6 as H6'. apply fetch_archives_ok in H6' as [_ ->].
  rewrite platform_zip_computed in Hrun.
  rewrite (assemble_all_frame env v _ _ _ _ table_archs_no_slash Hrun).
  - rewrite H7. unfold fetch_archives in H6.
    assert (Hf : fs w6 !! (x :: r) = fs w5 !! (x :: r)).
    { apply (fetch_archives_frame env v _ _ _ _ _ (x :: r)) in H6; [exact H6 |].
      intros p a Hin.
      rewrite terraform_zip_path_eq by exact (table_archs_no_slash _ _ Hin).
      apply head_differs, Hx. }
    rewrite Hf, H5, H4, terraform_sigs_eq, lookup_insert_ne
      by (apply not_eq_sym, head_differs, Hx).
    rewrite H3, terraform_sha256_eq, lookup_insert_ne
      by (apply not_eq_sym, head_differs, Hx).
    apply H2. apply head_differs, Hx.
  - intros p a Hin. rewrite wheel_tree_path, wheel_file_path.
    destruct (head_differs "build" x [wheel_name v p] r Hx) as (A & _ & _).
    destruct (head_differs "build" x [wheel_name v p +:+ ".whl"] r Hx) as (_ & _ & B).
    destruct (head_differs "build" x [zip_stem v a] r Hx) as (C & D & _).
    repeat split; assumption.
Qed.

End outside_build.

(** X12: a run that completes has created or changed nothing outside the
    build directory: every path whose first component is not [build] holds
    what it held before (in particular the licence, the readme and the
    keyring are untouched). *)
Theorem run_writes_only_under_build (env : Env) (fs0 : gmap path node) (w' : world) :
  main env (mkWorld fs0 []) = Ok tt w' ->
  (forall x r, x <> "build" -> fs w' !! (x :: r) = fs0 !! (x :: r))
  /\ fs w' !! LICENSE = fs0 !! LICENSE
  /\ fs w' !! README = fs0 !! README
  /\ fs w' !! HASHICORP_GPG = fs0 !! HASHICORP_GPG.
Proof.
  intros Hrun. unfold main in Hrun.
  destruct (Semver.parse _) as [v|]; [| discriminate].
  assert (H : forall x r, x <> "build" -> fs w' !! (x :: r) = fs0 !! (x :: r)).
  { intros x r Hx. exact (build_wheels_outside env v (mkWorld fs0 []) w' x r Hx Hrun). }
  split; [exact H |]. repeat split; apply H; discriminate.
Qed.

Lemma run_writes_only_under_build_witness :
  fs sample_final !! LICENSE = sample_fs !! LICENSE
  /\ fs sample_final !! README = sample_fs !! README
  /\ fs sample_final !! HASHICORP_GPG = sample_fs !! HASHICORP_GPG.
Proof.
  apply (run_writes_only_under_build sample_env sample_fs sample_final sample_run).
Defined.

(** ** What an iteration writes into the metadata files *)

(** The states an iteration that completes goes through, one hypothesis
    per step of [assemble]. *)
Ltac assemble_steps Hrun :=
  unfold assemble in Hrun;
  apply bind_ok_inv in Hrun as ([] & w1 & H1 & Hrun);
  apply bind_ok_inv in Hrun as ([] & w2 & H2 & Hrun);
  apply bind_ok_inv in Hrun as ([] & w3 & H3 & Hrun);
  apply bind_ok_inv in Hrun as ([] & w4 & H4 & Hrun);
  apply bind_ok_inv in Hrun as ([] & w5 & H5 & Hrun);
  apply bind_ok_inv in Hrun as (found & w6 & H6 & Hrun);
  apply bind_ok_inv in Hrun as ([] & w7 & H7 & Hrun);
  apply bind_ok_inv in Hrun as ([] & w8 & H8 & Hrun);
  apply bind_ok_inv in Hrun as ([] & w9 & H9 & Hrun);
  apply bind_ok_inv in Hrun as ([] & w10 & H10 & Hrun);
  apply bind_ok_inv in Hrun as ([] & w11 & H11 & Hrun);
  apply bind_ok_inv in Hrun as (files4 & w12 & H12 & Hrun);
  apply bind_ok_inv in Hrun as (entries & w13 & H13 & Hrun);
  apply bind_ok_inv in Hrun as ([] & w14 & H14 & Hrun);
  apply bind_ok_inv in Hrun as ([] & w15 & H15 & Hrun);
  apply bind_ok_inv in Hrun as (files5 & w16 & H16 & Hrun);
  apply bind_ok_inv in Hrun as (members & w17 & H17 & Hrun);
  apply bind_ok_inv in Hrun as ([] & w18 & H18 & Hrun);
  injection Hrun as <-; cbn [fs];
  apply path_exists_ok in H6 as [-> H6];
  unfold write_text in H10, H11, H14;
  apply write_bytes_ok in H10 as (_ & _ & m10 & H10 & _);
  apply write_bytes_ok in H11 as (_ & _ & m11 & H11 & _);
  apply glob_files_ok in H12 as [-> H12];
  apply record_steps_ok in H13 as [-> H13];
  apply write_bytes_ok in H14 as (_ & _ & m14 & H14 & _);
  apply write_bytes_ok in H15 as (_ & _ & m15 & H15 & _);
  apply glob_files_ok in H16 as [-> H16];
  apply zip_steps_ok in H17 as [-> H17];
  apply write_bytes_ok in H18 as (_ & _ & m18 & H18 & _).

Section metadata_files.

Variable env : Env.
Variable v : Semver.Version.

Lemma info_names_differ (platform : string) :
  package_metadata v platform <> wheel_metadata v platform
  /\ package_metadata v platform <> wheel_record v platform
  /\ wheel_metadata v platform <> wheel_record v platform
  /\ (forall q, wheel_info v platform ++ q <> wheel_file v platform).
Proof.
  unfold package_metadata, wheel_metadata, wheel_record.
  repeat split.
  - intros H%app_inv_head. discriminate H.
  - intros H%app_inv_head. discriminate H.
  - intros H%app_inv_head. discriminate H.
  - intros q H. apply (f_equal (@length string)) in H.
    unfold wheel_info in H. rewrite wheel_file_path, wheel_tree_path in H.
    rewrite length_app in H. cbn [length app] in H. lia.
Qed.

Lemma assemble_writes_metadata metadata platform z w w' :
  assemble env v metadata (platform, z) w = Ok tt w' ->
  file_content (fs w') (package_metadata v platform)
  = Some (str_encode (as_string env metadata))
  /\ file_content (fs w') (wheel_metadata v platform)
     = Some (str_encode (as_string env (wheel_metadata_msg platform))).
Proof.
  intros Hrun. assemble_steps Hrun.
  destruct (info_names_differ platform) as (Hmw & Hmr & Hwr & Hf).
  assert (Hne : forall s, wheel_info v platform ++ [s] <> [])
    by (intros s H; apply (f_equal (@length string)) in H;
        rewrite length_app in H; cbn [length] in H; lia).
  rewrite H18, H15, H14, H11, H10. split.
  - rewrite !file_content_insert_ne
      by (first [ apply not_eq_sym, Hf | apply not_eq_sym; assumption ]).
    apply file_content_insert_eq, Hne.
  - rewrite !(file_content_insert_ne _ (wheel_file v platform))
      by (apply not_eq_sym, Hf).
    rewrite file_content_insert_ne by (apply not_eq_sym; assumption).
    apply file_content_insert_eq, Hne.
Qed.

Lemma assemble_copies_license metadata platform arch w w' :
  no_slash arch = true ->
  assemble env v metadata (platform, terraform_zip_path v arch) w = Ok tt w' ->
  exists c,
    file_content (fs w) LICENSE = Some c
    /\ file_content (fs w') (license_path v platform) = Some c.
Proof.
  intros Ha Hrun. assemble_steps Hrun.
  rewrite (terraform_src_eq v arch Ha) in *.
  apply mkdir_exist_ok_ok in H1 as (_ & _ & H1).
  pose proof (unpack_archive_frame _ _ _ _ _ _ H2 LICENSE) as H2'.
  apply mkdir_exist_ok_ok in H3 as (_ & _ & H3).
  apply mkdir_exist_ok_ok in H4 as (_ & _ & H4).
  apply mkdir_exist_ok_ok in H5 as (_ & H5 & H5').
  apply copy_ok in H7 as (_ & cb & mb & _ & H7).
  apply chmod_ok in H8 as (_ & H8).
  apply copy_ok in H9 as (_ & cl & ml & Hsrc & H9).
  unfold license_path, wheel_file, path_plus, wheel_record, wheel_metadata,
    package_metadata, wheel_info, wheel_scripts, wheel_data, wheel_tree, BUILD_DIR,
    LICENSE in *.
  cbn [app parent basename removelast List.last] in *.
  set (wn := wheel_name v platform) in *.
  set (dn := PACKAGE_WHEELNAME v +:+ ".data") in *.
  set (inf := PACKAGE_WHEELNAME v +:+ ".dist-info") in *.
  specialize (H5 ltac:(discriminate)).
  (* the dist-info directory is still a directory when the licence is copied *)
  assert (Hinfo : is_dir (fs w8) ["build"; wn; inf] = true).
  { unfold is_dir. cbn [node_at].
    assert (H78 : fs w8 !! ["build"; wn; inf] = fs w5 !! ["build"; wn; inf]).
    { transitivity (fs w7 !! ["build"; wn; inf]).
      - destruct H8 as [(c & m0 & _ & ->) | [_ ->]]; [| reflexivity].
        apply lookup_insert_ne. destruct found; discriminate.
      - rewrite H7. apply lookup_insert_ne.
        match goal with |- context [if ?b then _ else _] => destruct b end;
          destruct found; discriminate. }
    now rewrite H78, H5, lookup_insert_eq. }
  rewrite Hinfo in H9. cbn [app] in H9.
  exists cl. split.
  - (* nothing before the copy touches the licence of the repository *)
    unfold file_content. cbn [node_at] in *.
    assert (H08 : fs w8 !! ["LICENSE"] = fs w !! ["LICENSE"]).
    { transitivity (fs w7 !! ["LICENSE"]).
      { destruct H8 as [(c & m0 & _ & ->) | [_ ->]]; [| reflexivity].
        apply lookup_insert_ne. destruct found; discriminate. }
      rewrite H7, lookup_insert_ne
        by (match goal with |- context [if ?b then _ else _] => destruct b end;
            destruct found; discriminate).
      rewrite H5' by discriminate. rewrite H4 by discriminate.
      rewrite H3 by discriminate.
      rewrite H2' by (intros [k Hk]; cbn [app] in Hk; discriminate Hk).
      apply H1. discriminate. }
    now rewrite <- H08, Hsrc.
  - rewrite H18, H15, H14, H11, H10, H9.
    rewrite !file_content_insert_ne by discriminate.
    apply file_content_insert_eq. discriminate.
Qed.

End metadata_files.

Section assembly_loop_post.

Variable env : Env.
Variable v : Semver.Version.

(** A property [Q] of a platform's tree and wheel that every iteration
    establishes for its platform, given an invariant [Inv] of the
    iterations, holds for every platform when the loop ends: later
    iterations leave the trees and wheels of earlier ones alone. *)
Lemma assemble_all_post (Inv : gmap path node -> Prop)
    (Q : string -> gmap path node -> Prop) metadata entries w w' :
  List.NoDup (map fst entries) ->
  (forall p p', In p (map fst entries) -> In p' (map fst entries) ->
                p +:+ ".whl" <> p') ->
  (forall p a, In (p, a) entries -> no_slash a = true) ->
  (forall p f g, (forall q, wheel_tree v p `prefix_of` q -> g !! q = f !! q) ->
                 g !! wheel_file v p = f !! wheel_file v p ->
                 Q p f -> Q p g) ->
  (forall p a w1 w2, In (p, a) entries -> Inv (fs w1) ->
     assemble env v metadata (p, terraform_zip_path v a) w1 = Ok tt w2 ->
     Inv (fs w2) /\ Q p (fs w2)) ->
  Inv (fs w) ->
  for_each (platform_zip_of v entries) (assemble env v metadata) w = Ok tt w' ->
  forall p, In p (map fst entries) -> Q p (fs w').
Proof.
  intros Hnd Hwhl Hns Hagree.
  revert w; induction entries as [|[p0 a0] entries IH];
    intros w Hstep Hinv Hrun p Hp; [destruct Hp |].
  cbn [platform_zip_of map for_each] in Hrun. cbn [map fst] in *.
  apply bind_ok_inv in Hrun as ([] & w1 & Hone & Hrest).
  inversion Hnd as [|? ? Hp0 Hnd']; subst.
  assert (Hns' : forall p a, In (p, a) entries -> no_slash a = true)
    by (intros; eapply Hns; right; eauto).
  destruct (Hstep p0 a0 w w1 ltac:(now left) Hinv Hone) as [Hinv1 HQ].
  destruct Hp as [<- | Hp].
  - apply (Hagree p0 (fs w1)); [| | exact HQ].
    + intros q [k ->]. apply (assemble_all_frame env v _ _ _ _ Hns' Hrest).
      intros p a Hin. assert (Hpin : In p (map fst entries))
        by (change p with (fst (p, a)); now apply in_map).
      repeat split.
      * intros H%tree_prefix_tree. congruence.
      * intros H%tree_path_is_file. apply (Hwhl p p0); cbn [In]; auto.
      * apply src_unrelated_tree.
      * apply src_unrelated_tree.
    + apply (assemble_all_frame env v _ _ _ _ Hns' Hrest).
      intros p a Hin. assert (Hpin : In p (map fst entries))
        by (change p with (fst (p, a)); now apply in_map).
      repeat split.
      * intros H%tree_prefix_file. apply (Hwhl p0 p); cbn [In]; auto.
      * intros H%wheel_file_inj. congruence.
      * apply src_unrelated_file.
      * apply src_unrelated_file.
  - apply (IH Hnd' ltac:(intros; apply Hwhl; cbn [In]; auto) Hns' w1); auto.
    intros p1 a1 w2 w3 Hin. apply Hstep. now right.
Qed.

Lemma assemble_outside metadata platform arch w w' (x : string) (r : path) :
  no_slash arch = true -> x <> "build" ->
  assemble env v metadata (platform, terraform_zip_path v arch) w = Ok tt w' ->
  fs w' !! (x :: r) = fs w !! (x :: r).
Proof.
  intros Ha Hx Hrun. apply (assemble_frame env v _ _ _ _ _ Hrun).
  - rewrite wheel_tree_path.
    now destruct (head_differs "build" x [wheel_name v platform] r Hx) as (? & _ & _).
  - rewrite wheel_file_path.
    now destruct (head_differs "build" x [wheel_name v platform +:+ ".whl"] r Hx)
      as (_ & _ & ?).
  - rewrite terraform_src_eq by exact Ha.
    now destruct (head_differs "build" x [zip_stem v arch] r Hx) as (? & _ & _).
  - rewrite terraform_src_eq by exact Ha.
    now destruct (head_differs "build" x [zip_stem v arch] r Hx) as (_ & ? & _).
Qed.

End assembly_loop_post.

Section metadata_run.

Variable env : Env.
Variable v : Semver.Version.

Lemma build_wheels_metadata w w' :
  build_wheels env v w = Ok tt w' ->
  exists readme text license,
    file_content (fs w) README = Some readme
    /\ decode_text env readme = Some text
    /\ file_content (fs w) LICENSE = Some license
    /\ forall platform, In platform (map fst PY_PLATFORM_TF_ARCH) ->
         file_content (fs w') (package_metadata v platform)
         = Some (str_encode (as_string env (PACKAGE_METADATA_MSG v text)))
         /\ file_content (fs w') (wheel_metadata v platform)
            = Some (str_encode (as_string env (wheel_metadata_msg platform)))
         /\ file_content (fs w') (license_path v platform) = Some license.
Proof.
  intros Hrun. unfold build_wheels in Hrun.
  apply bind_ok_inv in Hrun as (text & w1 & H1 & Hrun).
  apply read_text_inv in H1 as (-> & rb & Hreadme & Htext).
  apply bind_ok_inv in Hrun as ([] & w2 & H2 & Hrun).
  apply mkdir_exist_ok_ok in H2 as (_ & _ & H2).
  apply bind_ok_inv in Hrun as ([] & w3 & H3 & Hrun).
  apply wget_fs in H3 as (b3 & m3 & _ & H3).
  apply bind_ok_inv in Hrun as ([] & w4 & H4 & Hrun).
  apply wget_fs in H4 as (b4 & m4 & _ & H4).
  apply bind_ok_inv in Hrun as ([] & w5 & H5 & Hrun).
  apply gpg_fs in H5.
  apply bind_ok_inv in Hrun as (pz & w6 & H6 & Hrun).
  apply bind_ok_inv in Hrun as ([] & w7 & H7 & Hrun).
  apply shasum_fs in H7.
  pose proof H6 as H6'. apply fetch_archives_ok in H6' as [_ ->].
  rewrite platform_zip_computed in Hrun.
  (* the licence of the repository is still there when the loop starts *)
  assert (Hlic : fs w7 !! LICENSE = fs w !! LICENSE).
  { rewrite H7. unfold fetch_archives in H6.
    apply (fetch_archives_frame env v _ _ _ _ _ LICENSE) in H6.
    - rewrite H6, H5, H4, terraform_sigs_eq, lookup_insert_ne by discriminate.
      rewrite H3, terraform_sha256_eq, lookup_insert_ne by discriminate.
      apply H2. discriminate.
    - intros p a Hin.
      rewrite terraform_zip_path_eq by exact (table_archs_no_slash _ _ Hin).
      discriminate. }
  (* the first iteration copies it, so it is a file *)
  assert (Hsome : exists license, file_content (fs w7) LICENSE = Some license).
  { cbn [platform_zip_of map PY_PLATFORM_TF_ARCH for_each] in Hrun.
    apply bind_ok_inv in Hrun as ([] & w8 & Hone & _).
    apply assemble_copies_license in Hone as (c & Hc & _); [eauto | reflexivity]. }
  destruct Hsome as (license & Hlicense).
  exists rb, text, license. split; [exact Hreadme |]. split; [exact Htext |]. split.
  { rewrite <- Hlicense. symmetry. apply file_content_agree; [discriminate | exact Hlic]. }
  apply (assemble_all_post env v
           (fun f => file_content f LICENSE = Some license)
           (fun platform f =>
              file_content f (package_metadata v platform)
              = Some (str_encode (as_string env (PACKAGE_METADATA_MSG v text)))
              /\ file_content f (wheel_metadata v platform)
                 = Some (str_encode (as_string env (wheel_metadata_msg platform)))
              /\ file_content f (license_path v platform) = Some license)
           (PACKAGE_METADATA_MSG v text) PY_PLATFORM_TF_ARCH w7 w'
           table_platforms_NoDup table_platforms_not_whl table_archs_no_slash);
    [| | exact Hlicense | exact Hrun].
  - intros p f g Hag _ (Q1 & Q2 & Q3).
    assert (Hsame : forall s, file_content g (wheel_info v p ++ [s])
                              = file_content f (wheel_info v p ++ [s])).
    { intros s. apply file_content_agree.
      - unfold wheel_info. rewrite wheel_tree_path. discriminate.
      - apply Hag. unfold wheel_info. rewrite <- app_assoc. is_prefix. }
    unfold package_metadata, wheel_metadata, license_path in *.
    now rewrite !Hsame.
  - intros p a wa wb Hin Hinv Hone.
    pose proof (table_archs_no_slash _ _ Hin) as Ha.
    destruct (assemble_writes_metadata env v _ _ _ _ _ Hone) as [Q1 Q2].
    destruct (assemble_copies_license env v _ _ _ _ _ Ha Hone) as (c & Hc & Q3).
    rewrite Hinv in Hc. injection Hc as <-.
    split; [| auto].
    rewrite <- Hinv. apply file_content_agree; [discriminate |].
    apply (assemble_outside env v _ _ _ _ _ "LICENSE" [] Ha ltac:(discriminate) Hone).
Qed.

End metadata_run.

(** X13: in a run that completes, [README.md] is a file whose bytes
    decode, and every platform's tree holds a METADATA file that is the
    serialized package metadata with that text as its body, a WHEEL file
    that is the
    serialized wheel metadata of that platform, whose tags are
    [py2-none-<platform>] and [py3-none-<platform>], and a byte-for-byte
    copy of the repository's [LICENSE]. *)
Theorem wheels_carry_metadata_and_licence
    (env : Env) (fs0 : gmap path node) (w' : world) :
  main env (mkWorld fs0 []) = Ok tt w' ->
  exists v readme text license,
    Semver.parse (GIT_TAG (env_git_tag env)) = Some v
    /\ file_content fs0 README = Some readme
    /\ decode_text env readme = Some text
    /\ file_content fs0 LICENSE = Some license
    /\ forall platform, In platform (map fst PY_PLATFORM_TF_ARCH) ->
         file_content (fs w') (package_metadata v platform)
         = Some (str_encode (as_string env (PACKAGE_METADATA_MSG v text)))
         /\ file_content (fs w') (wheel_metadata v platform)
            = Some (str_encode (as_string env (wheel_metadata_msg platform)))
         /\ msg_headers (wheel_metadata_msg platform)
            = [("Wheel-Version", "1.0"); ("Generator", "bdist_wheel 1.0");
               ("Root-Is-Purelib", "false");
               ("Tag", "py2-none-" +:+ platform); ("Tag", "py3-none-" +:+ platform)]
         /\ file_content (fs w') (wheel_info v platform ++ ["LICENSE"]) = Some license.
Proof.
  intros Hrun. unfold main in Hrun.
  destruct (Semver.parse _) as [v|]; [| discriminate].
  destruct (build_wheels_metadata env v _ _ Hrun)
    as (readme & text & license & Hr & Ht & Hl & Hall).
  exists v, readme, text, license. repeat (split; [reflexivity || assumption |]).
  intros platform Hp. destruct (Hall platform Hp) as (Q1 & Q2 & Q3).
  repeat split; assumption || reflexivity.
Qed.

Lemma wheels_carry_metadata_and_licence_witness :
  exists v readme text license,
    Semver.parse (GIT_TAG (env_git_tag sample_env)) = Some v
    /\ file_content sample_fs README = Some readme
    /\ decode_text sample_env readme = Some text
    /\ file_content sample_fs LICENSE = Some license
    /\ forall platform, In platform (map fst PY_PLATFORM_TF_ARCH) ->
         file_content (fs sample_final) (package_metadata v platform)
         = Some (str_encode (as_string sample_env (PACKAGE_METADATA_MSG v text)))
         /\ file_content (fs sample_final) (wheel_metadata v platform)
            = Some (str_encode (as_string sample_env (wheel_metadata_msg platform)))
         /\ msg_headers (wheel_metadata_msg platform)
            = [("Wheel-Version", "1.0"); ("Generator", "bdist_wheel 1.0");
               ("Root-Is-Purelib", "false");
               ("Tag", "py2-none-" +:+ platform); ("Tag", "py3-none-" +:+ platform)]
         /\ file_content (fs sample_final) (wheel_info v platform ++ ["LICENSE"])
            = Some license.
Proof.
  apply (wheels_carry_metadata_and_licence sample_env sample_fs sample_final sample_run).
Defined.

(** ** What the extraction leaves, and the binary of a wheel *)

Section extraction.

Variable env : Env.

Lemma no_slash_last_char (name : string) :
  no_slash name = true -> is_dir_name name = false.
Proof.
  unfold no_slash, is_dir_name. intros H. apply negb_true_iff in H.
  induction name as [|a r IH]; [reflexivity |].
  cbn [Py.any_char] in H. apply orb_false_iff in H as [Ha Hr].
  cbn [Py.last_char]. destruct r as [|b r']; [exact Ha | exact (IH Hr)].
Qed.

Lemma simple_name_facts (name : string) :
  simple_name name = true ->
  is_absolute name || has_dotdot name = false
  /\ name_components name = [name]
  /\ dir_components name = []
  /\ is_dir_name name = false
  /\ String.eqb (List.last (Py.split "/" name) "") "." = false.
Proof.
  unfold simple_name. intros H.
  apply andb_true_iff in H as [H Hdd]. apply andb_true_iff in H as [H Hdot].
  apply andb_true_iff in H as [Hns Hne].
  apply negb_true_iff in Hdd, Hdot, Hne.
  assert (Hsplit : Py.split "/" name = [name]).
  { apply split_no_sep. unfold no_slash in Hns. now apply negb_true_iff in Hns. }
  repeat split.
  - rewrite Hdd, orb_false_r. unfold is_absolute.
    destruct name as [|a r]; [reflexivity |].
    unfold no_slash in Hns. cbn [Py.any_char] in Hns.
    apply negb_true_iff, orb_false_iff in Hns as [Ha _].
    cbn [String.prefix]. destruct (ascii_dec "/" a) as [<-|]; [discriminate Ha | reflexivity].
  - unfold name_components. rewrite Hsplit. cbn [List.filter].
    now rewrite Hne, Hdot.
  - unfold dir_components. now rewrite Hsplit.
  - now apply no_slash_last_char.
  - rewrite Hsplit. exact Hdot.
Qed.

(** A member with a plain name is written straight into the directory. *)
Lemma extract_simple_member (d : path) (m : member) w w' :
  simple_name (m_name m) = true ->
  extract_member env d m w = Ok tt w' ->
  exists mode w1,
    makedirs d w = Ok tt w1
    /\ fs w' = <[d ++ [m_name m] := File (m_data m) mode]> (fs w1).
Proof.
  intros Hs. destruct (simple_name_facts _ Hs) as (H1 & H2 & H2' & H3 & H4).
  unfold extract_member. rewrite H1, H2, H2', H3, H4, app_nil_r.
  intros H. apply bind_ok_inv in H as ([] & w1 & Hmk & Hw).
  apply write_bytes_ok in Hw as (_ & _ & mode & Hw & _). eauto.
Qed.

Lemma last_member_fold (name : string) (ms : list member) (found : option (list byte)) :
  fold_left (fun found m => if String.eqb (m_name m) name then Some (m_data m) else found)
            ms found
  = match last_member name ms with
    | Some data => Some data
    | None => found
    end.
Proof.
  unfold last_member. revert found; induction ms as [|m ms IH]; intros found;
    cbn [fold_left]; [reflexivity |].
  rewrite IH. rewrite (IH (if String.eqb (m_name m) name then Some (m_data m) else None)).
  destruct (fold_left _ ms None); [reflexivity |].
  now destruct (String.eqb (m_name m) name).
Qed.

(** After the extraction of members with plain names, the file called
    [name] in the directory holds the data of the last member of that name,
    and what it held before when there is none. *)
Lemma extract_all_simple (d : path) (name : string) (ms : list member) w w' :
  forallb (fun m => simple_name (m_name m)) ms = true ->
  for_each ms (extract_member env d) w = Ok tt w' ->
  file_content (fs w') (d ++ [name])
  = match last_member name ms with
    | Some data => Some data
    | None => file_content (fs w) (d ++ [name])
    end.
Proof.
  intros Hall Hrun. rewrite <- last_member_fold.
  revert w Hall Hrun; induction ms as [|m ms IH]; intros w Hall Hrun;
    cbn [for_each fold_left forallb] in *.
  - now injection Hrun as <-.
  - apply andb_true_iff in Hall as [Hm Hall].
    apply bind_ok_inv in Hrun as ([] & w0 & Hone & Hrest).
    rewrite (IH w0 Hall Hrest). f_equal.
    apply extract_simple_member in Hone as (mode & w1 & Hmk & Hw0); [| exact Hm].
    assert (Hne : d ++ [name] <> [])
      by (intros E; apply (f_equal (@length string)) in E;
          rewrite length_app in E; cbn [length] in E; lia).
    assert (Hframe : fs w1 !! (d ++ [name]) = fs w !! (d ++ [name])).
    { apply (makedirs_frame _ _ _ _ Hmk). intros [k E].
      apply (f_equal (@length string)) in E. rewrite !length_app in E.
      cbn [length] in E. lia. }
    destruct (String.eqb (m_name m) name) eqn:Hname.
    + apply String.eqb_eq in Hname. rewrite Hw0, Hname.
      now apply file_content_insert_eq.
    + apply String.eqb_neq in Hname.
      rewrite Hw0, file_content_insert_ne
        by (intros E; apply app_inv_head in E; congruence).
      now apply file_content_agree.
Qed.

End extraction.

Section wheel_binary.

Variable env : Env.
Variable v : Semver.Version.

Lemma unpack_archive_inv (z d : path) w w' :
  unpack_archive env z d w = Ok tt w' ->
  exists body ms,
    file_content (fs w) z = Some body
    /\ unzip env body = Some ms
    /\ for_each ms (extract_member env d)
         (mkWorld (fs w) (trace w ++ [Unpack z d])) = Ok tt w'.
Proof.
  unfold unpack_archive. intros H.
  apply bind_ok_inv in H as ([] & w1 & He & H). injection He as <-.
  apply bind_ok_inv in H as (c & w2 & Hr & H).
  apply read_bytes_ok in Hr as [-> Hc]. cbn [fs] in Hc.
  exists c. destruct (unzip env c) as [ms|]; [| discriminate]. eauto.
Qed.

(** The binary of an iteration on a fresh tree, when the archive holds
    members with plain names, one of them called [terraform]. *)
Lemma assemble_binary metadata platform arch w w' body ms data :
  no_slash arch = true ->
  (forall q, fs w !! (wheel_tree v platform ++ q) = None) ->
  file_content (fs w) (terraform_zip_path v arch) = Some body ->
  unzip env body = Some ms ->
  forallb (fun m => simple_name (m_name m)) ms = true ->
  last_member "terraform" ms = Some data ->
  assemble env v metadata (platform, terraform_zip_path v arch) w = Ok tt w' ->
  file_content (fs w') (wheel_scripts v platform ++ ["terraform"]) = Some data
  /\ file_mode (fs w') (wheel_scripts v platform ++ ["terraform"]) = Some 493%N.
Proof.
  intros Ha Hfresh Hbody Hzip Hsimple Hlast Hrun. assemble_steps Hrun.
  rewrite (terraform_src_eq v arch Ha) in *.
  rewrite (terraform_zip_path_eq v arch Ha) in *.
  destruct (upstream_not_wheel v _ platform (zip_stem_upstream v arch)) as [Hstem _].
  destruct (upstream_not_wheel v _ platform (zip_name_upstream v arch)) as [Hzipn _].
  apply mkdir_exist_ok_ok in H1 as (_ & _ & H1).
  pose proof (unpack_archive_frame _ _ _ _ _ _ H2) as H2'.
  apply unpack_archive_inv in H2 as (body' & ms' & Hb' & Hz' & H2).
  apply mkdir_exist_ok_ok in H3 as (_ & _ & H3).
  apply mkdir_exist_ok_ok in H4 as (_ & _ & H4).
  apply mkdir_exist_ok_ok in H5 as (_ & _ & H5).
  apply copy_ok in H9 as (_ & cl & ml & _ & H9).
  unfold wheel_file, path_plus, wheel_record, wheel_metadata,
    package_metadata, wheel_info, wheel_scripts, wheel_data, wheel_tree, BUILD_DIR,
    LICENSE in *.
  cbn [app parent basename removelast List.last] in *.
  set (wn := wheel_name v platform) in *.
  set (dn := PACKAGE_WHEELNAME v +:+ ".data") in *.
  set (inf := PACKAGE_WHEELNAME v +:+ ".dist-info") in *.
  set (st := zip_stem v arch) in *.
  (* the archive that is unpacked is the one the state held *)
  assert (Hsame : body' = body).
  { unfold file_content in Hb', Hbody. cbn [node_at] in Hb', Hbody.
    rewrite H1 in Hb' by congruence. congruence. }
  subst body'. rewrite Hzip in Hz'. injection Hz' as <-.
  (* the extracted binary *)
  apply (extract_all_simple env ["build"; st] "terraform") in H2; [| exact Hsimple].
  rewrite Hlast in H2. cbn [app] in H2.
  assert (Hsrc : fs w5 !! ["build"; st; "terraform"] = fs w2 !! ["build"; st; "terraform"]).
  { rewrite H5, H4, H3 by congruence. reflexivity. }
  assert (Hnode : exists mode, fs w5 !! ["build"; st; "terraform"] = Some (File data mode)).
  { rewrite Hsrc. unfold file_content in H2. cbn [node_at] in H2.
    destruct (fs w2 !! ["build"; st; "terraform"]) as [[c m0|]|]; try discriminate H2.
    injection H2 as ->. eauto. }
  destruct Hnode as (mode & Hnode).
  assert (Hfound : found = true).
  { rewrite H6. apply bool_decide_eq_true_2. cbn [app node_at]. rewrite Hnode. eauto. }
  subst found. rewrite Hfound in *. cbn [app basename List.last] in *.
  (* the place of the binary is free *)
  assert (Hfree : fs w5 !! ["build"; wn; dn; "scripts"; "terraform"] = None).
  { rewrite H5, H4, H3 by congruence.
    rewrite H2' by (intros [k Hk]; cbn [app] in Hk; congruence).
    rewrite H1 by congruence.
    apply (Hfresh [dn; "scripts"; "terraform"]). }
  apply copy_ok in H7 as (_ & cb & mb & Hcb & H7).
  cbn [node_at] in Hcb. rewrite Hnode in Hcb. injection Hcb as <- <-.
  unfold is_dir in H7. cbn [node_at] in H7. rewrite Hfree in H7.
  apply chmod_ok in H8 as (_ & [(c8 & m8 & Hn8 & H8) | (Hn8 & _)]);
    rewrite H7 in Hn8; cbn [node_at] in Hn8; rewrite lookup_insert_eq in Hn8;
    [injection Hn8 as <- <- | discriminate].
  rewrite H18, H15, H14, H11, H10, H9, H8. split.
  - rewrite !file_content_insert_ne
      by (try (match goal with |- context [if ?b then _ else _] => destruct b end);
          congruence).
    apply file_content_insert_eq. discriminate.
  - rewrite !file_mode_insert_ne
      by (try (match goal with |- context [if ?b then _ else _] => destruct b end);
          congruence).
    apply file_mode_insert_eq. discriminate.
Qed.

End wheel_binary.

Section wheel_binary_run.

Variable env : Env.
Variable v : Semver.Version.

Lemma keys_functional (l : list (string * string)) (p a a' : string) :
  List.NoDup (map fst l) -> In (p, a) l -> In (p, a') l -> a = a'.
Proof.
  induction l as [|[q b] l IH]; cbn [map fst In]; [tauto |].
  intros Hnd H1 H2. inversion Hnd as [|? ? Hq Hnd']; subst.
  assert (Hkey : forall c, In (q, c) l -> False).
  { intros c Hc. apply Hq. change q with (fst (q, c)). now apply in_map. }
  destruct H1 as [H1 | H1], H2 as [H2 | H2].
  - congruence.
  - injection H1 as -> ->. destruct (Hkey _ H2).
  - injection H2 as -> ->. destruct (Hkey _ H1).
  - now apply IH.
Qed.

Lemma table_functional (p a a' : string) :
  In (p, a) PY_PLATFORM_TF_ARCH -> In (p, a') PY_PLATFORM_TF_ARCH -> a = a'.
Proof. apply keys_functional, table_platforms_NoDup. Qed.

Lemma table_stems_not_zip (p a p' a' : string) :
  In (p, a) PY_PLATFORM_TF_ARCH -> In (p', a') PY_PLATFORM_TF_ARCH ->
  zip_stem v a <> zip_stem v a' +:+ ".zip".
Proof.
  intros Hin Hin'. unfold zip_stem. rewrite !append_assoc. intros E.
  do 3 apply append_inv_head in E.
  exact (table_archs_not_zip _ _ _ _ Hin' Hin E).
Qed.

(** An iteration that completes has read its archive. *)
Lemma assemble_reads_archive metadata platform arch w w' :
  no_slash arch = true ->
  assemble env v metadata (platform, terraform_zip_path v arch) w = Ok tt w' ->
  exists body, file_content (fs w) (terraform_zip_path v arch) = Some body.
Proof.
  intros Ha Hrun. unfold assemble in Hrun.
  apply bind_ok_inv in Hrun as ([] & w1 & H1 & Hrun).
  apply bind_ok_inv in Hrun as ([] & w2 & H2 & _).
  apply mkdir_exist_ok_ok in H1 as (_ & _ & H1).
  apply unpack_archive_inv in H2 as (body & ms & Hb & _).
  exists body. rewrite <- Hb. symmetry.
  rewrite terraform_zip_path_eq by exact Ha.
  apply file_content_agree; [discriminate |]. apply H1.
  rewrite wheel_tree_path.
  destruct (upstream_not_wheel v _ platform (zip_name_upstream v arch)) as [Hn _].
  intros E. apply (f_equal (fun l => nth 1 l "")) in E. cbn [nth] in E. exact (Hn E).
Qed.

(** An iteration leaves the archives of the table as they are. *)
Lemma assemble_keeps_archives metadata p a p' a' w w' :
  In (p, a) PY_PLATFORM_TF_ARCH -> In (p', a') PY_PLATFORM_TF_ARCH ->
  assemble env v metadata (p, terraform_zip_path v a) w = Ok tt w' ->
  fs w' !! terraform_zip_path v a' = fs w !! terraform_zip_path v a'.
Proof.
  intros Hin Hin' Hrun.
  pose proof (table_archs_no_slash _ _ Hin) as Ha.
  pose proof (table_archs_no_slash _ _ Hin') as Ha'.
  apply (assemble_frame env v _ _ _ _ _ Hrun);
    rewrite ?(terraform_src_eq v a Ha), (terraform_zip_path_eq v a' Ha').
  - destruct (upstream_not_wheel v _ p (zip_name_upstream v a')) as [Hn _].
    intros E%prefix2_inv. apply Hn. now rewrite E.
  - destruct (upstream_not_wheel v _ p (zip_name_upstream v a')) as [_ Hw].
    rewrite wheel_file_path. intros E.
    apply (f_equal (fun l => nth 1 l "")) in E. cbn [nth] in E. exact (Hw E).
  - intros E%prefix2_inv. apply (table_stems_not_zip _ _ _ _ Hin Hin'). now rewrite E.
  - intros E%prefix2_inv'. exact (table_stems_not_zip _ _ _ _ Hin Hin' E).
Qed.

(** As [assemble_all_post], for a property that an iteration establishes
    when it starts on a fresh tree. *)
Lemma assemble_all_fresh_post (Inv : gmap path node -> Prop)
    (Q : string -> gmap path node -> Prop) metadata entries w w' :
  List.NoDup (map fst entries) ->
  (forall p p', In p (map fst entries) -> In p' (map fst entries) ->
                p +:+ ".whl" <> p') ->
  (forall p a, In (p, a) entries -> no_slash a = true) ->
  (forall p f g, (forall q, wheel_tree v p `prefix_of` q -> g !! q = f !! q) ->
                 Q p f -> Q p g) ->
  (forall p a w1 w2, In (p, a) entries -> Inv (fs w1) ->
     (forall q, fs w1 !! (wheel_tree v p ++ q) = None) ->
     assemble env v metadata (p, terraform_zip_path v a) w1 = Ok tt w2 ->
     Inv (fs w2) /\ Q p (fs w2)) ->
  Inv (fs w) ->
  (forall p q, In p (map fst entries) -> fs w !! (wheel_tree v p ++ q) = None) ->
  for_each (platform_zip_of v entries) (assemble env v metadata) w = Ok tt w' ->
  forall p, In p (map fst entries) -> Q p (fs w').
Proof.
  intros Hnd Hwhl Hns Hagree.
  revert w; induction entries as [|[p0 a0] entries IH];
    intros w Hstep Hinv Hfresh Hrun p Hp; [destruct Hp |].
  cbn [platform_zip_of map for_each] in Hrun. cbn [map fst] in *.
  apply bind_ok_inv in Hrun as ([] & w1 & Hone & Hrest).
  inversion Hnd as [|? ? Hp0 Hnd']; subst.
  assert (Ha0 : no_slash a0 = true) by (apply (Hns p0 a0); now left).
  assert (Hns' : forall p a, In (p, a) entries -> no_slash a = true)
    by (intros; eapply Hns; right; eauto).
  destruct (Hstep p0 a0 w w1 ltac:(now left) Hinv
              ltac:(intros q; apply Hfresh; now left) Hone) as [Hinv1 HQ].
  destruct Hp as [<- | Hp].
  - apply (Hagree p0 (fs w1)); [| exact HQ].
    intros q [k ->]. apply (assemble_all_frame env v _ _ _ _ Hns' Hrest).
    intros p a Hin. assert (Hpin : In p (map fst entries))
      by (change p with (fst (p, a)); now apply in_map).
    repeat split.
    + intros H%tree_prefix_tree. congruence.
    + intros H%tree_path_is_file. apply (Hwhl p p0); cbn [In]; auto.
    + apply src_unrelated_tree.
    + apply src_unrelated_tree.
  - apply (IH Hnd' ltac:(intros; apply Hwhl; cbn [In]; auto) Hns' w1); auto.
    + intros p1 a1 w2 w3 Hin. apply Hstep. now right.
    + intros p' q Hp'.
      rewrite (assemble_frame env v _ _ _ _ _ Hone).
      * apply Hfresh. now right.
      * intros H%tree_prefix_tree. congruence.
      * intros H%tree_path_is_file. apply (Hwhl p0 p'); cbn [In]; auto.
      * rewrite terraform_src_eq by exact Ha0. apply src_unrelated_tree.
      * rewrite terraform_src_eq by exact Ha0. apply src_unrelated_tree.
Qed.

Lemma build_wheels_binary w w' platform arch :
  fresh_build (fs w) ->
  build_wheels env v w = Ok tt w' ->
  In (platform, arch) PY_PLATFORM_TF_ARCH ->
  exists body,
    file_content (fs w') (terraform_zip_path v arch) = Some body
    /\ forall ms data,
         unzip env body = Some ms ->
         forallb (fun m => simple_name (m_name m)) ms = true ->
         last_member "terraform" ms = Some data ->
         file_content (fs w') (wheel_scripts v platform ++ ["terraform"]) = Some data
         /\ file_mode (fs w') (wheel_scripts v platform ++ ["terraform"]) = Some 493%N.
Proof.
  intros Hfresh Hrun Hin. unfold build_wheels in Hrun.
  pose proof (table_archs_no_slash _ _ Hin) as Ha.
  apply bind_ok_inv in Hrun as (readme & w1 & H1 & Hrun).
  apply read_text_ok in H1 as ->.
  apply bind_ok_inv in Hrun as ([] & w2 & H2 & Hrun).
  apply mkdir_exist_ok_ok in H2 as (_ & _ & H2).
  apply bind_ok_inv in Hrun as ([] & w3 & H3 & Hrun).
  apply wget_fs in H3 as (b3 & m3 & _ & H3).
  apply bind_ok_inv in Hrun as ([] & w4 & H4 & Hrun).
  apply wget_fs in H4 as (b4 & m4 & _ & H4).
  apply bind_ok_inv in Hrun as ([] & w5 & H5 & Hrun).
  apply gpg_fs in H5.
  apply bind_ok_inv in Hrun as (pz & w6 & H6 & Hrun).
  apply bind_ok_inv in Hrun as ([] & w7 & H7 & Hrun).
  apply shasum_fs in H7.
  assert (F7 : trees_fresh v (fs w7)).
  { rewrite H7.
    apply (fetch_archives_fresh env v _ _ _ _ _ table_archs_no_slash) in H6; [exact H6 |].
    rewrite H5, H4, terraform_sigs_eq.
    apply trees_fresh_download; [now exists "_SHA256SUMS.sig" |].
    rewrite H3, terraform_sha256_eq.
    apply trees_fresh_download; [now exists "_SHA256SUMS" |].
    intros p q. rewrite H2; [apply Hfresh | discriminate]. }
  apply fetch_archives_ok in H6 as [_ ->]. rewrite platform_zip_computed in Hrun.
  pose proof (assemble_all_keeps_archive env v _ _ _ _ _ Hin Hrun) as Hkeep.
  (* what the archive holds when the loop starts *)
  set (Q := fun (p : string) (f : gmap path node) =>
              p = platform ->
              exists body,
                file_content (fs w7) (terraform_zip_path v arch) = Some body
                /\ forall ms data,
                     unzip env body = Some ms ->
                     forallb (fun m => simple_name (m_name m)) ms = true ->
                     last_member "terraform" ms = Some data ->
                     file_content f (wheel_scripts v platform ++ ["terraform"]) = Some data
                     /\ file_mode f (wheel_scripts v platform ++ ["terraform"])
                        = Some 493%N).
  assert (HQ : Q platform (fs w')).
  { apply (assemble_all_fresh_post
             (fun f => f !! terraform_zip_path v arch = fs w7 !! terraform_zip_path v arch)
             Q (PACKAGE_METADATA_MSG v readme) PY_PLATFORM_TF_ARCH w7 w'
             table_platforms_NoDup table_platforms_not_whl table_archs_no_slash);
      [| | reflexivity | intros p q _; apply F7 | exact Hrun
       | change platform with (fst (platform, arch)); now apply in_map].
    - intros p f g Hag HQf ->. destruct (HQf eq_refl) as (body & Hb & Hall).
      exists body. split; [exact Hb |]. intros ms data Hz Hs Hl.
      destruct (Hall ms data Hz Hs Hl) as [Hc Hm].
      assert (Hsame : g !! (wheel_scripts v platform ++ ["terraform"])
                      = f !! (wheel_scripts v platform ++ ["terraform"])).
      { apply Hag. unfold wheel_scripts, wheel_data. rewrite <- !app_assoc. is_prefix. }
      assert (Hne : wheel_scripts v platform ++ ["terraform"] <> []).
      { unfold wheel_scripts, wheel_data. rewrite wheel_tree_path. discriminate. }
      split.
      + rewrite <- Hc. now apply file_content_agree.
      + rewrite <- Hm. now apply file_mode_agree.
    - intros p a wa wb Hpa Hinv Hfr Hone. split.
      + rewrite <- Hinv. exact (assemble_keeps_archives _ _ _ _ _ _ _ Hpa Hin Hone).
      + intros ->. pose proof (table_functional _ _ _ Hpa Hin) as ->.
        destruct (assemble_reads_archive _ _ _ _ _ Ha Hone) as (body & Hb).
        exists body. split.
        * rewrite <- Hb. symmetry. apply file_content_agree; [| exact Hinv].
          rewrite terraform_zip_path_eq by exact Ha. discriminate.
        * intros ms data Hz Hs Hl.
          exact (assemble_binary env v _ _ _ _ _ _ _ _ Ha Hfr Hb Hz Hs Hl Hone). }
  destruct (HQ eq_refl) as (body & Hb & Hall).
  exists body. split; [| exact Hall].
  rewrite <- Hb. apply file_content_agree; [| exact Hkeep].
  rewrite terraform_zip_path_eq by exact Ha. discriminate.
Qed.

End wheel_binary_run.

(** X14: in a run from a fresh build directory that completes, when the
    archive of a platform's architecture, as it lies in the build directory,
    holds members with plain names and one of them is called [terraform],
    the binary in that platform's scripts directory is called [terraform],
    holds byte for byte the data of the last such member, and has mode
    755. *)
Theorem wheel_binary_is_the_archive_member
    (env : Env) (fs0 : gmap path node) (w' : world) (platform arch : string) :
  fresh_build fs0 ->
  main env (mkWorld fs0 []) = Ok tt w' ->
  In (platform, arch) PY_PLATFORM_TF_ARCH ->
  exists v body,
    Semver.parse (GIT_TAG (env_git_tag env)) = Some v
    /\ file_content (fs w') (terraform_zip_path v arch) = Some body
    /\ forall ms data,
         unzip env body = Some ms ->
         forallb (fun m => simple_name (m_name m)) ms = true ->
         last_member "terraform" ms = Some data ->
         file_content (fs w') (wheel_scripts v platform ++ ["terraform"]) = Some data
         /\ file_mode (fs w') (wheel_scripts v platform ++ ["terraform"]) = Some 493%N.
Proof.
  intros Hfresh Hrun Hin. unfold main in Hrun.
  destruct (Semver.parse _) as [v|]; [| discriminate].
  destruct (build_wheels_binary env v (mkWorld fs0 []) w' platform arch Hfresh Hrun Hin)
    as (body & Hb & Hall).
  exists v, body. auto.
Qed.

Lemma wheel_binary_is_the_archive_member_witness :
  exists v body,
    Semver.parse (GIT_TAG (env_git_tag sample_env)) = Some v
    /\ file_content (fs sample_final) (terraform_zip_path v "windows_386") = Some body
    /\ file_content (fs sample_final) (wheel_scripts v "win32" ++ ["terraform"]) = Some body
    /\ file_mode (fs sample_final) (wheel_scripts v "win32" ++ ["terraform"]) = Some 493%N.
Proof.
  destruct (wheel_binary_is_the_archive_member sample_env sample_fs sample_final
              "win32" "windows_386" sample_fs_fresh sample_run)
    as (v & body & Hv & Hb & Hall).
  - cbn [PY_PLATFORM_TF_ARCH In]. tauto.
  - exists v, body. split; [exact Hv |]. split; [exact Hb |].
    apply (Hall [mkMember "terraform" body 420%N] body); reflexivity.
Defined.

(** ** The exception a failing run ends with *)

Section failure_errors.

Variable env : Env.
Variable v : Semver.Version.








End failure_errors.

(** ** What a completed iteration leaves *)

Section completed_iteration.

Variable env : Env.
Variable v : Semver.Version.

(** An iteration that completes has read its archive and listed its
    members. *)
Lemma assemble_unzips metadata platform arch w w' :
  no_slash arch = true ->
  assemble env v metadata (platform, terraform_zip_path v arch) w = Ok tt w' ->
  exists body ms,
    file_content (fs w) (terraform_zip_path v arch) = Some body
    /\ unzip env body = Some ms.
Proof.
  intros Ha Hrun. unfold assemble in Hrun.
  apply bind_ok_inv in Hrun as ([] & w1 & H1 & Hrun).
  apply bind_ok_inv in Hrun as ([] & w2 & H2 & _).
  apply mkdir_exist_ok_ok in H1 as (_ & _ & H1).
  apply unpack_archive_inv in H2 as (body & ms & Hb & Hz & _).
  exists body, ms. split; [| exact Hz]. rewrite <- Hb. symmetry.
  rewrite terraform_zip_path_eq by exact Ha.
  apply file_content_agree; [discriminate |]. apply H1.
  rewrite wheel_tree_path.
  destruct (upstream_not_wheel v _ platform (zip_name_upstream v arch)) as [Hn _].
  intros E. apply (f_equal (fun l => nth 1 l "")) in E. cbn [nth] in E. exact (Hn E).
Qed.

Lemma is_file_insert_eq (f : gmap path node) p c m :
  p <> [] -> is_file (<[p := File c m]> f) p = true.
Proof.
  intros Hne. unfold is_file. rewrite node_at_cons by exact Hne.
  now rewrite lookup_insert_eq.
Qed.

Lemma is_file_insert_ne (f : gmap path node) p x q :
  p <> q -> is_file (<[p := x]> f) q = is_file f q.
Proof.
  intros Hne. unfold is_file. destruct q as [|y q]; [reflexivity |].
  cbn [node_at]. now rewrite lookup_insert_ne.
Qed.

Lemma is_dir_insert_ne (f : gmap path node) p x q :
  p <> q -> is_dir (<[p := x]> f) q = is_dir f q.
Proof.
  intros Hne. unfold is_dir. destruct q as [|y q]; [reflexivity |].
  cbn [node_at]. now rewrite lookup_insert_ne.
Qed.

(** The binary, RECORD and the wheel of an iteration that completes. *)
Lemma assemble_installs metadata platform arch w w' :
  no_slash arch = true ->
  assemble env v metadata (platform, terraform_zip_path v arch) w = Ok tt w' ->
  binary_installed v platform (fs w')
  /\ is_file (fs w') (wheel_record v platform) = true
  /\ is_file (fs w') (wheel_file v platform) = true.
Proof.
  intros Ha Hrun. assemble_steps Hrun.
  rewrite (terraform_src_eq v arch Ha) in *.
  apply mkdir_exist_ok_ok in H5 as (_ & H5 & H5').
  apply copy_ok in H7 as (_ & cb & mb & _ & H7).
  apply chmod_ok in H8 as (_ & H8).
  apply copy_ok in H9 as (_ & cl & ml & Hsrc & H9).
  unfold binary_installed, binary_path, license_path, wheel_file, path_plus,
    wheel_record, wheel_metadata, package_metadata, wheel_info, wheel_scripts,
    wheel_data, wheel_tree, BUILD_DIR, LICENSE in *.
  cbn [app parent basename removelast List.last] in *.
  set (wn := wheel_name v platform) in *.
  set (dn := PACKAGE_WHEELNAME v +:+ ".data") in *.
  set (inf := PACKAGE_WHEELNAME v +:+ ".dist-info") in *.
  specialize (H5 ltac:(discriminate)).
  assert (Hinfo : is_dir (fs w8) ["build"; wn; inf] = true).
  { unfold is_dir. cbn [node_at].
    assert (H78 : fs w8 !! ["build"; wn; inf] = fs w5 !! ["build"; wn; inf]).
    { transitivity (fs w7 !! ["build"; wn; inf]).
      - destruct H8 as [(c & m0 & _ & ->) | [_ ->]]; [| reflexivity].
        apply lookup_insert_ne. destruct found; discriminate.
      - rewrite H7. apply lookup_insert_ne.
        match goal with |- context [if ?b then _ else _] => destruct b end;
          destruct found; discriminate. }
    now rewrite H78, H5, lookup_insert_eq. }
  rewrite Hinfo in H9. cbn [app] in H9.
  assert (Hbase : basename (if found
                            then ["build"; zip_stem v arch; "terraform"]
                            else ["build"; zip_stem v arch; "terraform.exe"])
                   = if found then "terraform" else "terraform.exe")
    by (destruct found; reflexivity).
  rewrite Hbase in H7, H8. clear Hbase.
  set (name := if found then "terraform" else "terraform.exe") in *.
  split; [| split].
  - exists name. split; [subst name; destruct found; auto |].
    assert (Hlast : forall q,
               q = ["build"; wn; dn; "scripts"; name]
               \/ q = ["build"; wn; dn; "scripts"; name; name] ->
               fs w18 !! q = fs w8 !! q).
    { intros q Hq. rewrite H18, H15, H14, H11, H10, H9.
      rewrite !lookup_insert_ne; [reflexivity | ..];
        destruct Hq as [-> | ->]; discriminate. }
    destruct (is_dir (fs w5) ["build"; wn; dn; "scripts"; name]) eqn:Hd.
    + right. destruct H8 as [(c & m0 & Hn & _) | [Hn H8]].
      { cbn [node_at] in Hn. rewrite H7, lookup_insert_ne in Hn by discriminate.
        unfold is_dir in Hd. cbn [node_at] in Hd. rewrite Hn in Hd. discriminate. }
      unfold is_dir, is_file. cbn [node_at].
      rewrite !Hlast by auto. rewrite H8, H7. split.
      * rewrite lookup_insert_ne by discriminate.
        unfold is_dir in Hd. cbn [node_at] in Hd. exact Hd.
      * now rewrite lookup_insert_eq.
    + left. destruct H8 as [(c & m0 & _ & H8) | [Hn _]].
      * unfold file_mode. cbn [node_at].
        rewrite Hlast by auto. now rewrite H8, lookup_insert_eq.
      * cbn [node_at] in Hn. rewrite H7, lookup_insert_eq in Hn. discriminate.
  - rewrite H18, H15. rewrite !is_file_insert_ne by discriminate.
    rewrite H14. apply is_file_insert_eq. discriminate.
  - rewrite H18. apply is_file_insert_eq. discriminate.
Qed.

End completed_iteration.
(** ** What a completed run has done *)

Section completed_run.

Variable env : Env.
Variable v : Semver.Version.

Lemma is_file_agree (f g : gmap path node) (q : path) :
  q <> [] -> g !! q = f !! q -> is_file g q = is_file f q.
Proof. intros Hq H. unfold is_file. now rewrite !node_at_cons, H. Qed.

Lemma is_dir_agree (f g : gmap path node) (q : path) :
  q <> [] -> g !! q = f !! q -> is_dir g q = is_dir f q.
Proof. intros Hq H. unfold is_dir. now rewrite !node_at_cons, H. Qed.

Lemma binary_installed_agree (platform : string) (f g : gmap path node) :
  (forall q, wheel_tree v platform `prefix_of` q -> g !! q = f !! q) ->
  binary_installed v platform f -> binary_installed v platform g.
Proof.
  intros Hag (name & Hname & H). exists name. split; [exact Hname |].
  assert (H1 : g !! binary_path v platform name = f !! binary_path v platform name).
  { apply Hag. unfold binary_path, wheel_scripts, wheel_data.
    rewrite <- !app_assoc. is_prefix. }
  assert (H2 : g !! (binary_path v platform name ++ [name])
               = f !! (binary_path v platform name ++ [name])).
  { apply Hag. unfold binary_path, wheel_scripts, wheel_data.
    rewrite <- !app_assoc. is_prefix. }
  assert (N1 : binary_path v platform name <> []) by discriminate.
  assert (N2 : binary_path v platform name ++ [name] <> []) by discriminate.
  destruct H as [H | [Hd Hf]]; [left | right].
  - rewrite <- H. now apply file_mode_agree.
  - split.
    + rewrite <- Hd. now apply is_dir_agree.
    + rewrite <- Hf. now apply is_file_agree.
Qed.

Lemma build_wheels_completed w w' :
  build_wheels env v w = Ok tt w' ->
  exists readme text license,
    file_content (fs w) README = Some readme
    /\ decode_text env readme = Some text
    /\ file_content (fs w) LICENSE = Some license
    /\ forall platform arch, In (platform, arch) PY_PLATFORM_TF_ARCH ->
         iteration_completed env v text license platform arch (fs w').
Proof.
  intros Hrun.
  destruct (build_wheels_metadata env v _ _ Hrun)
    as (readme & text & license & Hr & Ht & Hl & Hmeta).
  exists readme, text, license. repeat (split; [assumption |]).
  unfold build_wheels in Hrun.
  apply bind_ok_inv in Hrun as (text' & w1 & H1 & Hrun).
  apply read_text_ok in H1 as ->.
  apply bind_ok_inv in Hrun as ([] & w2 & _ & Hrun).
  apply bind_ok_inv in Hrun as ([] & w3 & _ & Hrun).
  apply bind_ok_inv in Hrun as ([] & w4 & _ & Hrun).
  apply bind_ok_inv in Hrun as ([] & w5 & _ & Hrun).
  apply bind_ok_inv in Hrun as (pz & w6 & H6 & Hrun).
  apply bind_ok_inv in Hrun as ([] & w7 & _ & Hrun).
  apply fetch_archives_ok in H6 as [_ ->]. rewrite platform_zip_computed in Hrun.
  set (Inv := fun f : gmap path node =>
                forall p a, In (p, a) PY_PLATFORM_TF_ARCH ->
                            f !! terraform_zip_path v a = fs w7 !! terraform_zip_path v a).
  set (Q := fun (p : string) (f : gmap path node) =>
              binary_installed v p f
              /\ is_file f (wheel_record v p) = true
              /\ is_file f (wheel_file v p) = true
              /\ forall a, In (p, a) PY_PLATFORM_TF_ARCH ->
                   exists body ms,
                     file_content (fs w7) (terraform_zip_path v a) = Some body
                     /\ unzip env body = Some ms).
  assert (HQ : forall p, In p (map fst PY_PLATFORM_TF_ARCH) -> Q p (fs w')).
  { apply (assemble_all_post env v Inv Q (PACKAGE_METADATA_MSG v text')
             PY_PLATFORM_TF_ARCH w7 w'
             table_platforms_NoDup table_platforms_not_whl table_archs_no_slash);
      [| | intros p a _; reflexivity | exact Hrun].
    - intros p f g Hag HagF (Q1 & Q2 & Q3 & Q4). repeat split.
      + exact (binary_installed_agree p f g Hag Q1).
      + rewrite <- Q2. apply is_file_agree; [discriminate |].
        apply Hag. unfold wheel_record, wheel_info. rewrite <- app_assoc. is_prefix.
      + rewrite <- Q3. apply is_file_agree; [| exact HagF].
        rewrite wheel_file_path. discriminate.
      + exact Q4.
    - intros p a wa wb Hin Hinv Hone.
      pose proof (table_archs_no_slash _ _ Hin) as Ha. split.
      + intros p' a' Hin'. rewrite <- (Hinv p' a' Hin').
        exact (assemble_keeps_archives env v _ _ _ _ _ _ _ Hin Hin' Hone).
      + destruct (assemble_installs env v _ _ _ _ _ Ha Hone) as (Q1 & Q2 & Q3).
        repeat (split; [assumption |]).
        intros a' Hin'. pose proof (table_functional _ _ _ Hin' Hin) as ->.
        destruct (assemble_unzips env v _ _ _ _ _ Ha Hone) as (body & ms & Hb & Hz).
        exists body, ms. split; [| exact Hz].
        rewrite <- Hb. symmetry. apply file_content_agree; [| exact (Hinv p a Hin)].
        rewrite terraform_zip_path_eq by exact Ha. discriminate. }
  intros platform arch Hin.
  assert (Hp : In platform (map fst PY_PLATFORM_TF_ARCH))
    by (change platform with (fst (platform, arch)); now apply in_map).
  destruct (HQ platform Hp) as (Q1 & Q2 & Q3 & Q4).
  destruct (Hmeta platform Hp) as (M1 & M2 & M3).
  destruct (Q4 arch Hin) as (body & ms & Hb & Hz).
  unfold iteration_completed. repeat split; try assumption.
  exists body, ms. split; [| exact Hz].
  rewrite <- Hb. apply file_content_agree.
  - rewrite terraform_zip_path_eq by exact (table_archs_no_slash _ _ Hin). discriminate.
  - exact (assemble_all_keeps_archive env v _ _ _ _ _ Hin Hrun).
Qed.

End completed_run.
(** ** Failures end the run *)




(** ** One archive for the platforms of one architecture *)

Section one_archive.

Variable env : Env.
Variable v : Semver.Version.

Lemma platform_zip_get (entries : list (string * string)) (p a : string) :
  List.NoDup (map fst entries) -> In (p, a) entries ->
  dict_get p (platform_zip_of v entries) = Some (terraform_zip_path v a).
Proof.
  induction entries as [|[q b] entries IH]; cbn [map fst In platform_zip_of dict_get];
    [tauto |].
  intros Hnd Hin. inversion Hnd as [|? ? Hq Hnd']; subst.
  destruct Hin as [E | Hin].
  - injection E as -> ->. now rewrite String.eqb_refl.
  - destruct (String.eqb_spec q p) as [-> | _]; [| now apply IH].
    destruct Hq. change p with (fst (p, a)). now apply in_map.
Qed.

(** One step of the fetch loop: the URL and the path are those of the
    architecture; the file at the path then holds what this download
    retrieved, whatever it held before. *)
Lemma fetch_step_downloads pz p a w :
  no_slash a = true ->
  match fetch_step env v pz (p, a) w with
  | Ok pz' w1 =>
      pz' = dict_set p (terraform_zip_path v a) pz
      /\ trace w1
         = trace w ++ [Wget (terraform_zip_url v a) (terraform_zip_path v a) true]
      /\ (exists body, wget_fetch env (trace w) (terraform_zip_url v a) = Some body)
      /\ file_content (fs w1) (terraform_zip_path v a)
         = wget_fetch env (trace w) (terraform_zip_url v a)
  | Raise e tr =>
      tr = trace w ++ [Wget (terraform_zip_url v a) (terraform_zip_path v a) false]
  end.
Proof.
  intros Ha. destruct (fetch_step env v pz (p, a) w) as [pz' w1|e tr] eqn:H;
    unfold fetch_step in H.
  - apply bind_ok_inv in H as ([] & w0 & Hw & Hret). injection Hret as <- <-.
    split; [reflexivity |]. split; [exact (wget_ok env _ _ _ _ _ Hw) |].
    apply wget_fs in Hw as (body & m & Hb & Hf). split; [eauto |].
    rewrite Hb, Hf. apply file_content_insert_eq.
    rewrite terraform_zip_path_eq by exact Ha. discriminate.
  - apply bind_raise_inv in H as [Hw | (u & w0 & _ & Hret)]; [| discriminate].
    exact (wget_raise env _ _ _ _ _ Hw).
Qed.

(** The wheel of an assembled platform holds the binary. *)
Lemma wheel_holds_binary (platform : string) (f : gmap path node) (data : list byte) :
  wheel_assembled env v platform f ->
  file_content f (binary_path v platform "terraform") = Some data ->
  file_mode f (binary_path v platform "terraform") = Some 493%N ->
  exists members,
    file_content f (wheel_file v platform) = Some (zip_encode env members)
    /\ In (mkMember (PACKAGE_WHEELNAME v +:+ ".data/scripts/terraform") data 493%N)
          members.
Proof.
  intros (name & o4 & o5 & Hname & Hp4 & Hp5 & Htree & Hrec & Hzip & Hmode) Hc Hm.
  exists (map (member_of f (wheel_tree v platform)) o5). split; [exact Hzip |].
  assert (Hin : In (binary_path v platform "terraform") (wheel_files v platform name)).
  { apply Htree. apply tree_files_elem.
    assert (Hb : In (binary_path v platform name)
                    (tree_files f (wheel_tree v platform))).
    { apply Htree. unfold wheel_files, payload_files. now left. }
    apply tree_files_elem in Hb as (_ & _ & _ & Hd).
    repeat split.
    - unfold is_file. unfold file_content in Hc.
      destruct (node_at f (binary_path v platform "terraform")) as [[c m|]|];
        [reflexivity | discriminate | discriminate].
    - unfold binary_path, wheel_scripts, wheel_data. rewrite <- !app_assoc. is_prefix.
    - discriminate.
    - exact Hd. }
  apply in_map_iff. exists (binary_path v platform "terraform"). split.
  - unfold member_of. rewrite Hc, Hm. cbn [default]. f_equal.
    unfold binary_path, wheel_scripts, wheel_data, wheel_tree, relative_to, BUILD_DIR.
    cbn [app length drop skipn Py.join]. rewrite !append_assoc. reflexivity.
  - eapply Permutation_in; [symmetry; exact Hp5 | exact Hin].
Qed.

End one_archive.
(** C9: the two platforms mapped to [linux_arm64] share their
    architecture; a step of the fetch loop downloads the URL of the
    architecture to the path of the architecture, and the file at that
    path then holds what this download retrieved, whatever it held
    before; when the fetch loop returns, two platforms of one
    architecture are recorded with the same path, whose file holds the
    last download of that architecture; and in a run that completes both
    platforms are unpacked from that path, the file there is still the
    last download and unzips, both have their binary installed and their
    wheel file written, and from a fresh build directory, when that archive
    holds plain member names and a member [terraform], the binary of both
    platforms' trees is that member's data with mode 755 and both wheel
    files hold it as their scripts member. *)
Theorem shared_architecture_shares_archive (env : Env) (fs0 : gmap path node) :
  (dict_get "manylinux_2_5_aarch64.musllinux_1_1_aarch64" PY_PLATFORM_TF_ARCH
   = Some "linux_arm64"
   /\ dict_get "macosx_11_0_arm64" PY_PLATFORM_TF_ARCH = Some "linux_arm64")
  /\ (forall v p a pz w,
        In (p, a) PY_PLATFORM_TF_ARCH ->
        match fetch_step env v pz (p, a) w with
        | Ok pz' w1 =>
            pz' = dict_set p (terraform_zip_path v a) pz
            /\ trace w1
               = trace w ++ [Wget (terraform_zip_url v a) (terraform_zip_path v a) true]
            /\ (exists body, wget_fetch env (trace w) (terraform_zip_url v a) = Some body)
            /\ file_content (fs w1) (terraform_zip_path v a)
               = wget_fetch env (trace w) (terraform_zip_url v a)
        | Raise e tr =>
            tr = trace w ++ [Wget (terraform_zip_url v a) (terraform_zip_path v a) false]
        end)
  /\ (forall v w pz w1 p1 p2 a,
        fetch_archives env v w = Ok pz w1 ->
        In (p1, a) PY_PLATFORM_TF_ARCH -> In (p2, a) PY_PLATFORM_TF_ARCH ->
        dict_get p1 pz = Some (terraform_zip_path v a)
        /\ dict_get p2 pz = Some (terraform_zip_path v a)
        /\ forall before p after,
             PY_PLATFORM_TF_ARCH = before ++ (p, a) :: after ->
             ~ In a (map snd after) ->
             file_content (fs w1) (terraform_zip_path v a)
             = wget_fetch env (trace w ++ fetch_events v before) (terraform_zip_url v a))
  /\ (forall w',
        main env (mkWorld fs0 []) = Ok tt w' ->
        exists v,
          Semver.parse (GIT_TAG (env_git_tag env)) = Some v
          /\ forall k1 k2 p1 p2 a,
               PY_PLATFORM_TF_ARCH !! k1 = Some (p1, a) ->
               PY_PLATFORM_TF_ARCH !! k2 = Some (p2, a) ->
               trace w' !! (3 + k1)
               = Some (Wget (terraform_zip_url v a) (terraform_zip_path v a) true)
               /\ trace w' !! (3 + k2)
                  = Some (Wget (terraform_zip_url v a) (terraform_zip_path v a) true)
               /\ trace w' !! (12 + 2 * k1)
                  = Some (Unpack (terraform_zip_path v a)
                                 (with_suffix_empty (terraform_zip_path v a)))
               /\ trace w' !! (13 + 2 * k1) = Some (WheelWritten p1 (wheel_file v p1))
               /\ trace w' !! (12 + 2 * k2)
                  = Some (Unpack (terraform_zip_path v a)
                                 (with_suffix_empty (terraform_zip_path v a)))
               /\ trace w' !! (13 + 2 * k2) = Some (WheelWritten p2 (wheel_file v p2))
               /\ exists body,
                    file_content (fs w') (terraform_zip_path v a) = Some body
                    /\ (exists ms, unzip env body = Some ms)
                    /\ (forall p, p = p1 \/ p = p2 ->
                          binary_installed v p (fs w')
                          /\ is_file (fs w') (wheel_file v p) = true)
                    /\ (forall before p after,
                          PY_PLATFORM_TF_ARCH = before ++ (p, a) :: after ->
                          ~ In a (map snd after) ->
                          wget_fetch env (take (3 + length before) (trace w'))
                                     (terraform_zip_url v a) = Some body)
                    /\ (fresh_build fs0 ->
                        forall ms data,
                          unzip env body = Some ms ->
                          forallb (fun m => simple_name (m_name m)) ms = true ->
                          last_member "terraform" ms = Some data ->
                          forall p, p = p1 \/ p = p2 ->
                            file_content (fs w') (binary_path v p "terraform") = Some data
                            /\ file_mode (fs w') (binary_path v p "terraform")
                               = Some 493%N
                            /\ exists members,
                                 file_content (fs w') (wheel_file v p)
                                 = Some (zip_encode env members)
                                 /\ In (mkMember
                                          (PACKAGE_WHEELNAME v +:+ ".data/scripts/terraform")
                                          data 493%N)
                                       members)).
Proof.
  split; [split; reflexivity |]. split; [| split].
  - intros v p a pz w Hin.
    exact (fetch_step_downloads env v pz p a w (table_archs_no_slash _ _ Hin)).
  - intros v w pz w1 p1 p2 a Hrun Hin1 Hin2. unfold fetch_archives in Hrun.
    pose proof Hrun as Hpz. apply fetch_archives_ok in Hpz as [_ ->].
    rewrite platform_zip_computed.
    split; [exact (platform_zip_get v _ _ _ table_platforms_NoDup Hin1) |].
    split; [exact (platform_zip_get v _ _ _ table_platforms_NoDup Hin2) |].
    intros before p after Htable Hlast. rewrite Htable in Hrun.
    eapply (fetch_last_wins env v before p a after); [| | exact Hlast | exact Hrun].
    + intros p' a' Hin'. apply (table_archs_no_slash p'). rewrite Htable.
      apply in_or_app. right. now right.
    + exact (table_archs_no_slash _ _ Hin1).
  - intros w' Hrun.
    pose proof (main_trace env fs0) as Htr. rewrite Hrun in Htr.
    destruct Htr as (v & Hv & Htr). exists v. split; [exact Hv |].
    pose proof Hrun as Hmain. unfold main in Hrun. rewrite Hv in Hrun.
    intros k1 k2 p1 p2 a H1 H2.
    destruct (success_trace_lookup v k1 p1 a H1) as (A1 & A2 & A3).
    destruct (success_trace_lookup v k2 p2 a H2) as (B1 & B2 & B3).
    rewrite Htr. do 6 (split; [assumption |]).
    assert (Hin1 : In (p1, a) PY_PLATFORM_TF_ARCH)
      by (apply list_elem_of_In; exact (list_elem_of_lookup_2 _ _ _ H1)).
    assert (Hin2 : In (p2, a) PY_PLATFORM_TF_ARCH)
      by (apply list_elem_of_In; exact (list_elem_of_lookup_2 _ _ _ H2)).
    destruct (build_wheels_completed env v _ _ Hrun)
      as (readme & text & license & _ & _ & _ & Hall).
    destruct (Hall p1 a Hin1) as ((body & ms0 & Hbody & Hms0) & _).
    exists body. split; [exact Hbody |]. split; [now exists ms0 |]. split; [| split].
    + intros p Hp.
      assert (Hin : In (p, a) PY_PLATFORM_TF_ARCH) by (destruct Hp as [-> | ->]; assumption).
      destruct (Hall p a Hin) as (_ & Hbin & _ & _ & _ & _ & Hwhl). now split.
    + intros before p after Htable Hlast. rewrite <- Hbody.
      rewrite (build_wheels_archive env v (mkWorld fs0 []) w' before p a after
                 eq_refl Hrun Htable Hlast).
      f_equal. unfold success_trace. rewrite Htable.
      unfold fetch_events. rewrite map_app.
      change (3 + length before) with (S (S (S (length before)))).
      cbn [app take]. do 3 f_equal.
      rewrite <- app_assoc, take_app_length'; [reflexivity | now rewrite length_map].
    + intros Hfresh ms data Hz Hs Hl p Hp.
      assert (Hin : In (p, a) PY_PLATFORM_TF_ARCH) by (destruct Hp as [-> | ->]; assumption).
      destruct (build_wheels_binary env v (mkWorld fs0 []) w' p a Hfresh Hrun Hin)
        as (body' & Hb' & Hbin).
      rewrite Hbody in Hb'. injection Hb' as <-.
      destruct (Hbin ms data Hz Hs Hl) as [Hc Hm].
      split; [exact Hc |]. split; [exact Hm |].
      destruct (main_assembled env fs0 w' Hfresh Hmain) as (v' & Hv' & Has).
      rewrite Hv in Hv'. injection Hv' as <-.
      apply (wheel_holds_binary env v p (fs w') data); [| exact Hc | exact Hm].
      apply Has. change p with (fst (p, a)). now apply in_map.
Qed.

Lemma shared_architecture_shares_archive_witness :
  exists v body,
    Semver.parse (GIT_TAG (env_git_tag sample_env)) = Some v
    /\ trace sample_final !! 5
       = Some (Wget (terraform_zip_url v "linux_arm64")
                    (terraform_zip_path v "linux_arm64") true)
    /\ trace sample_final !! 8
       = Some (Wget (terraform_zip_url v "linux_arm64")
                    (terraform_zip_path v "linux_arm64") true)
    /\ file_content (fs sample_final) (terraform_zip_path v "linux_arm64") = Some body
    /\ wget_fetch sample_env (take 8 (trace sample_final))
                  (terraform_zip_url v "linux_arm64") = Some body
    /\ forall p,
         p = "manylinux_2_5_aarch64.musllinux_1_1_aarch64" \/ p = "macosx_11_0_arm64" ->
         file_content (fs sample_final) (binary_path v p "terraform") = Some body
         /\ file_mode (fs sample_final) (binary_path v p "terraform") = Some 493%N
         /\ exists members,
              file_content (fs sample_final) (wheel_file v p)
              = Some (zip_encode sample_env members)
              /\ In (mkMember (PACKAGE_WHEELNAME v +:+ ".data/scripts/terraform")
                              body 493%N)
                    members.
Proof.
  destruct (shared_architecture_shares_archive sample_env sample_fs)
    as (_ & _ & _ & Hrun).
  destruct (Hrun sample_final sample_run) as (v & Hv & Hk).
  destruct (Hk 2 5 _ _ _ eq_refl eq_refl)
    as (A & B & _ & _ & _ & _ & body & Hbody & _ & _ & Hlast & Hfresh).
  exists v, body. split; [exact Hv |]. split; [exact A |]. split; [exact B |].
  split; [exact Hbody |]. split.
  - apply (Hlast (firstn 5 PY_PLATFORM_TF_ARCH) "macosx_11_0_arm64"
                 (skipn 6 PY_PLATFORM_TF_ARCH)).
    + reflexivity.
    + vm_compute. intuition discriminate.
  - apply (Hfresh sample_fs_fresh [mkMember "terraform" body 420%N] body);
      reflexivity.
Defined.
